(** * Procurement dashboard: reconciliation and classification core

    A shallow embedding of the decision logic of [app.py]: the category
    resolver [derive_category], the aggregation pass [compute_metrics] with
    its two row classifiers [is_pr_open] and [is_po_open_delivery], and the
    filter pipeline of the dashboard page built around [within_date].

    Conventions of the embedding.
    - A pandas cell is a [value]; a row handed to [DataFrame.apply(axis=1)]
      is a [Series], an ordered list of labelled cells; a [DataFrame] is its
      column labels together with its rows.
    - Python dictionaries are [gmap]s, Python sets are [gset]s.
    - Python text is held as its UTF-8 bytes; [lower] and [strip] act on
      the ASCII range (case mapping and white space of other code points are
      not modelled).
    - Code that can raise lives in the [res] monad; [try]/[except] is
      [catch].  A function of the source whose operations cannot raise is
      a total function of the model.
    - The routines of the Python runtime and of pandas that format floats
      and timestamps and that parse numbers and dates are not code of the
      dashboard; they are the fields of the class [PyRuntime].
    - A Timestamp is naive or timezone-aware; the bounds of a date range
      are naive, and pandas refuses to compare the two kinds.
    - Tables are taken as pandas keeps them: the labels of a sheet are
      distinct as it is read.  The renaming can give two columns one label;
      the pass raises on two PR_Number labels where it collects the linked
      PR numbers ([link_pr_numbers]), and beyond that statement the model
      follows the code on tables whose labels stay distinct.  A cell reads
      the same through its row and through its column: the float64 row that
      pandas builds from a table of numeric columns only is not modelled.
      On a table without rows [DataFrame.apply(axis=1)] gives an empty
      column, which is what the map over no rows gives here. *)

From Stdlib Require Import ZArith String Ascii Floats.
From stdpp Require Import gmap strings list fin_maps pretty sorting.

Open Scope string_scope.

(** ** Exceptions *)

Inductive pyexn : Type := ValueError | TypeError | OverflowError | AttributeError.

Inductive res (A : Type) : Type :=
| Ok (a : A)
| Raise (e : pyexn).
Arguments Ok {A} a.
Arguments Raise {A} e.

#[global] Instance res_ret : MRet res := fun _ a => Ok a.
#[global] Instance res_bind : MBind res := fun _ _ f m =>
  match m with Ok a => f a | Raise e => Raise e end.
#[global] Instance res_fmap : FMap res := fun _ _ f m =>
  match m with Ok a => Ok (f a) | Raise e => Raise e end.

(** [try: body except: handler] *)
Definition catch {A} (body : res A) (handler : res A) : res A :=
  match body with Ok a => Ok a | Raise _ => handler end.

(** ** Text *)

Definition is_upper (c : ascii) : bool :=
  let n := nat_of_ascii c in (65 <=? n)%nat && (n <=? 90)%nat.

Definition lower_char (c : ascii) : ascii :=
  if is_upper c then ascii_of_nat (nat_of_ascii c + 32) else c.

(** [str.lower()] *)
Fixpoint lower (s : string) : string :=
  match s with
  | EmptyString => EmptyString
  | String c s' => String (lower_char c) (lower s')
  end.

(** White space of [str.strip()] in the ASCII range: TAB, LF, VT, FF, CR,
    the separators FS, GS, RS, US and the blank. *)
Definition is_space (c : ascii) : bool :=
  let n := nat_of_ascii c in
  ((9 <=? n)%nat && (n <=? 13)%nat) || ((28 <=? n)%nat && (n <=? 32)%nat).

Fixpoint lstrip (s : string) : string :=
  match s with
  | EmptyString => EmptyString
  | String c s' => if is_space c then lstrip s' else s
  end.

Fixpoint rstrip (s : string) : string :=
  match s with
  | EmptyString => EmptyString
  | String c s' =>
      match rstrip s' with
      | EmptyString => if is_space c then EmptyString else String c EmptyString
      | r => String c r
      end
  end.

(** [str.strip()] *)
Definition strip (s : string) : string := rstrip (lstrip s).

(** ** Cells *)

(** A pandas.Timestamp: its instant as a count of time units, and whether
    it carries a time zone.  A date read from text with a UTC offset is
    timezone-aware; every other date is naive. *)
Record timestamp : Type := mkTimestamp {
  instant : Z;
  aware : bool
}.

Definition naive (t : Z) : timestamp := mkTimestamp t false.
Coercion naive : Z >-> timestamp.

Inductive value : Type :=
| VNone                  (* None *)
| VBool (b : bool)
| VInt (n : Z)           (* int of any size, numpy.int64 *)
| VFloat (f : float)     (* float, numpy.float64; NaN is the missing number *)
| VStr (s : string)
| VDate (t : timestamp)  (* pandas.Timestamp, naive or timezone-aware *)
| VNaT.                  (* pandas.NaT *)
Arguments VDate t%_Z.

(** [pd.isna] / [pd.notna] on a scalar *)
Definition isna (v : value) : bool :=
  match v with
  | VNone | VNaT => true
  | VFloat f => PrimFloat.is_nan f
  | _ => false
  end.

Definition notna (v : value) : bool := negb (isna v).

(** The integer to double conversion, round to nearest even. *)
Definition float_of_Z (n : Z) : float :=
  SF2Prim (binary_normalize prec emax n 0 false).

(** What the dashboard takes from the Python runtime and from pandas. *)
Class PyRuntime : Type := {
  (** [str(x)] for a float *)
  repr_float : float -> string;
  (** [str(t)] for a Timestamp *)
  str_timestamp : timestamp -> string;
  (** [float(s)] for a string; [None] is a ValueError *)
  float_of_str : string -> option float;
  (** [pd.to_datetime(v, dayfirst=.., errors='coerce')] on a non-null
      scalar: a Timestamp, which keeps a UTC offset found in the text, or
      NaT ([None]) where it cannot be read *)
  to_datetime : bool -> value -> res (option timestamp)
}.

(** A small runtime on which the model can be run: numbers are read from
    unsigned decimal literals only, dates are read from integer cells and
    from ISO-like text, and floats and timestamps print as fixed tokens. *)
Fixpoint digits_value (acc : Z) (s : string) : option Z :=
  match s with
  | EmptyString => Some acc
  | String c s' =>
      let n := nat_of_ascii c in
      if (48 <=? n)%nat && (n <=? 57)%nat
      then digits_value (10 * acc + Z.of_nat (n - 48)) s'
      else None
  end.

(** The Timestamp a date text spells: the instant is the number its
    digits give, read across the separators [-], [:], [T] and the blank; a
    final [Z], the UTC designator, makes it timezone-aware.  So
    [2024-01-15T00:00:00Z] is the aware instant 20240115000000. *)
Fixpoint date_text (acc : Z) (seen : bool) (s : string) : option timestamp :=
  match s with
  | EmptyString => if seen then Some (mkTimestamp acc false) else None
  | String c s' =>
      let n := nat_of_ascii c in
      if (48 <=? n)%nat && (n <=? 57)%nat
      then date_text (10 * acc + Z.of_nat (n - 48)) true s'
      else if Ascii.eqb c "-" || Ascii.eqb c ":" || Ascii.eqb c "T" || Ascii.eqb c " "
           then date_text acc seen s'
           else if Ascii.eqb c "Z" && seen && String.eqb s' EmptyString
                then Some (mkTimestamp acc true) else None
  end.

Definition decimal_runtime : PyRuntime := {|
  repr_float := fun _ => "<float>";
  str_timestamp := fun _ => "<timestamp>";
  float_of_str := fun s =>
    match strip s with
    | EmptyString => None
    | s' => float_of_Z <$> digits_value 0 s'
    end;
  to_datetime := fun _ v =>
    match v with
    | VDate t => Ok (Some t)
    | VInt n => Ok (Some (naive n))
    | VStr s => Ok (date_text 0 false (strip s))
    | VBool _ => Raise TypeError
    | _ => Ok None
    end
|}.

(** ** Rows and tables *)

(** A row: labelled cells, in column order. *)
Abbreviation Series := (list (string * value)).

Record DataFrame : Type := mkDataFrame {
  columns : list string;
  rows : list Series
}.

(** [pd.DataFrame()] *)
Definition DataFrame_new : DataFrame := mkDataFrame [] [].

(** [row.get(key, default)] *)
Fixpoint Series_get (row : Series) (key : string) (dflt : value) : value :=
  match row with
  | [] => dflt
  | (k, v) :: row' => if bool_decide (k = key) then v else Series_get row' key dflt
  end.

(** [key in row] *)
Definition Series_in (key : string) (row : Series) : bool :=
  bool_decide (key ∈ row.*1).

(** the cell under [key] becomes [v]; a new label goes to the end *)
Fixpoint Series_set (key : string) (v : value) (row : Series) : Series :=
  match row with
  | [] => [(key, v)]
  | (k, w) :: row' =>
      if bool_decide (k = key) then (k, v) :: row'
      else (k, w) :: Series_set key v row'
  end.

(** [df.empty]: some axis has length zero *)
Definition df_empty (df : DataFrame) : bool :=
  bool_decide (columns df = []) || bool_decide (rows df = []).

(** [col in df.columns] *)
Definition has_column (col : string) (df : DataFrame) : bool :=
  bool_decide (col ∈ columns df).

(** [df[col]], the cells of one column *)
Definition column (col : string) (df : DataFrame) : list value :=
  (fun row => Series_get row col VNone) <$> rows df.

(** [df.apply(f, axis=1)] *)
Definition apply_rows {A} (f : Series -> A) (df : DataFrame) : list A :=
  f <$> rows df.

(** [df[col] = vals] *)
Definition setitem (col : string) (vals : list value) (df : DataFrame) : DataFrame :=
  {| columns := if has_column col df then columns df else columns df ++ [col];
     rows := zip_with (Series_set col) vals (rows df) |}.

(** [df[mask]] with the mask computed row by row *)
Definition select (keep : Series -> bool) (df : DataFrame) : DataFrame :=
  {| columns := columns df; rows := List.filter keep (rows df) |}.

(** [df.rename(columns=m)] *)
Definition rename (m : gmap string string) (df : DataFrame) : DataFrame :=
  let new_label c := default c (m !! c) in
  {| columns := new_label <$> columns df;
     rows := (fun row : Series => prod_map new_label id <$> row) <$> rows df |}.

(** the order of [sorted] on the items of a dictionary with text keys *)
Definition item_le (p q : string * string) : Prop := String.leb p.1 q.1 = true.

#[global] Instance item_le_dec (p q : string * string) : Decision (item_le p q).
Proof. unfold item_le. apply _. Defined.

Section Dashboard.
Context `{PyRuntime}.

(** [str(v)] *)
Definition py_str (v : value) : string :=
  match v with
  | VNone => "None"
  | VBool b => if b then "True" else "False"
  | VInt n => pretty n
  | VFloat f => repr_float f
  | VStr s => s
  | VDate t => str_timestamp t
  | VNaT => "NaT"
  end.

(** [float(v)]; an int beyond the range of a double is an OverflowError *)
Definition py_float (v : value) : res float :=
  match v with
  | VBool b => Ok (if b then 1%float else 0%float)
  | VInt n =>
      let f := float_of_Z n in
      if PrimFloat.is_infinity f then Raise OverflowError else Ok f
  | VFloat f => Ok f
  | VStr s => match float_of_str s with Some f => Ok f | None => Raise ValueError end
  | VNone | VDate _ | VNaT => Raise TypeError
  end.

(** ** Category derivation *)

Definition NOT_MAPPED : string := "— not mapped —".

Definition CATEGORIES : list string := ["MRO"; "Services"; "Capex"; "PCM"].

Definition KEY_FIELDS : list string := ["Material_Group"; "Cost_Center"; "Item_Type"].

(** [col and col != NOT_MAPPED] for [col = mapping.get(field)] *)
Definition is_mapped (col : option string) : bool :=
  match col with
  | Some c => bool_decide (c ≠ "") && bool_decide (c ≠ NOT_MAPPED)
  | None => false
  end.

(** the body of the loop over the key fields; [Some] is an early return *)
Definition lookup_key_field (row : Series) (mapping cfg_mapping : gmap string string)
    (key_field : string) : option string :=
  let col := mapping !! key_field in
  if is_mapped col then
    let key_val := strip (py_str (Series_get row (default "" col) (VStr ""))) in
    match cfg_mapping !! key_val with
    | Some mapped_cat =>
        if bool_decide (mapped_cat ∈ CATEGORIES) then Some mapped_cat else None
    | None => None
    end
  else None.

Fixpoint lookup_key_fields (row : Series) (mapping cfg_mapping : gmap string string)
    (key_fields : list string) : option string :=
  match key_fields with
  | [] => None
  | key_field :: rest =>
      match lookup_key_field row mapping cfg_mapping key_field with
      | Some mapped_cat => Some mapped_cat
      | None => lookup_key_fields row mapping cfg_mapping rest
      end
  end.

(** The result is a label, or [None] for Python's [None]. *)
Definition derive_category (row : Series) (mapping cfg_mapping : gmap string string)
    : option string :=
  let cat_col := mapping !! "Category" in
  let explicit :=
    if is_mapped cat_col then
      let val := strip (py_str (Series_get row (default "" cat_col) (VStr ""))) in
      if bool_decide (val ∈ CATEGORIES) then Some val else None
    else None in
  match explicit with
  | Some val => Some val
  | None => lookup_key_fields row mapping cfg_mapping KEY_FIELDS
  end.

(** ** Settings *)

(** The persisted configuration, a JSON object; a key that is missing reads
    as [None] and the code supplies the default at each [config.get]. *)
Record Config : Type := mkConfig {
  date_format : option string;
  pr_open_statuses : option (list string);
  po_open_delivery_statuses : option (list string);
  category_mapping : option (gmap string string)
}.

Definition REQUIRED_PRS_FIELDS : list string := ["PR_Number"; "PR_Date"; "PR_Status"].
Definition OPTIONAL_PRS_FIELDS : list string :=
  ["PR_Amount"; "Material_Group"; "Cost_Center"; "Item_Type"; "Category"].
Definition REQUIRED_POS_FIELDS : list string :=
  ["PO_Number"; "PO_Date"; "PO_Status"; "Delivery_Status"].
Definition OPTIONAL_POS_FIELDS : list string :=
  ["Vendor"; "PO_Quantity"; "GRN_Quantity"; "PR_Number"; "PR_Line"; "Category"].

(** ** Lifecycle classifiers *)

(** The closure [is_pr_open] of [compute_metrics]; the two variables it
    captures are its first two arguments. *)
Definition is_pr_open (open_statuses : list string) (linked_prs : gset string)
    (row : Series) : bool :=
  let status := lower (py_str (Series_get row "PR_Status" (VStr ""))) in
  let pr_no := strip (py_str (Series_get row "PR_Number" (VStr ""))) in
  let linked := bool_decide (pr_no ∈ linked_prs) in
  bool_decide (status ≠ "closed") || negb linked || bool_decide (status ∈ open_statuses).

(** The body of the [try] block of [is_po_open_delivery]. *)
Definition outstanding_quantity (qty grn : value) : res bool :=
  if notna qty && notna grn then
    q ← py_float qty;
    g ← py_float grn;
    mret (PrimFloat.ltb 0 (PrimFloat.sub q g))
  else mret false.

(** [row.get(key) if key in row else None] *)
Definition cell_or_none (row : Series) (key : string) : value :=
  if Series_in key row then Series_get row key VNone else VNone.

(** The value of [outstanding] after the [try]/[except]. *)
Definition po_outstanding (row : Series) : res bool :=
  let qty := cell_or_none row "PO_Quantity" in
  let grn := cell_or_none row "GRN_Quantity" in
  catch (outstanding_quantity qty grn) (mret false).

(** The closure [is_po_open_delivery] of [compute_metrics]. *)
Definition is_po_open_delivery (open_statuses : list string) (row : Series) : res bool :=
  let status := lower (py_str (Series_get row "Delivery_Status" (VStr ""))) in
  outstanding ← po_outstanding row;
  mret (outstanding || bool_decide (status ∈ open_statuses)
                    || bool_decide (status = "open")).

(** ** Aggregation *)

Definition to_timestamp (dayfirst : bool) (s : value) : res value :=
  (fun t => match t with Some t => VDate t | None => VNaT end) <$> to_datetime dayfirst s.

Definition parse_date (cfg : Config) (s : value) : res value :=
  if isna s then mret VNaT
  else if bool_decide (date_format cfg = Some "dd-mm-yyyy") then
    catch (to_timestamp true s) (to_timestamp false s)
  else if bool_decide (date_format cfg = Some "yyyy-mm-dd") then
    catch (to_timestamp false s) (to_timestamp false s)
  else to_timestamp true s.

(** [df[col] = df[col].apply(f)] *)
Definition apply_column (f : value -> res value) (col : string) (df : DataFrame)
    : res DataFrame :=
  vals ← mapM f (column col df);
  mret (setitem col vals df).

(** [{mapping[k]: k for k in fields if mapping.get(k) and mapping[k] != NOT_MAPPED}];
    a raw column claimed by two fields goes to the later one *)
Definition rename_dict (mapping : gmap string string) (fields : list string)
    : gmap string string :=
  foldl (fun m k =>
           if is_mapped (mapping !! k) then <[default "" (mapping !! k) := k]> m else m)
        ∅ fields.

Definition unify (cfg : Config) (df : DataFrame) (mapping : gmap string string)
    (required optional : list string) : res DataFrame :=
  if df_empty df then mret df
  else
    let m := rename_dict mapping (required ++ optional) in
    let df := rename m df in
    df ← (if has_column "PR_Date" df then apply_column (parse_date cfg) "PR_Date" df
          else mret df);
    df ← (if has_column "PO_Date" df then apply_column (parse_date cfg) "PO_Date" df
          else mret df);
    mret df.

(** a derived category as a cell *)
Definition category_cell (c : option string) : value :=
  match c with Some label => VStr label | None => VNone end.

(** [df[col].dropna()] *)
Definition dropna (vals : list value) : list value := List.filter notna vals.

(** [set(pos["PR_Number"].dropna().astype(str).str.strip())], or the empty
    set when the column is missing *)
Definition linked_prs_of (pos : DataFrame) : gset string :=
  if has_column "PR_Number" pos
  then list_to_set (strip <$> (py_str <$> dropna (column "PR_Number" pos)))
  else ∅.

(** The label occurs more than once among the labels. *)
Definition duplicated (label : string) (labels : list string) : bool :=
  (2 <=? length (List.filter (String.eqb label) labels))%nat.

(** The statement that computes [linked_prs].  With two PR_Number labels
    [pos["PR_Number"]] is a frame, which has no [.str]: AttributeError.
    The labels of a sheet are distinct as it is read, so two of them can
    only come from the renaming, which [unify] runs on a table that is not
    empty. *)
Definition link_pr_numbers (pos : DataFrame) : res (gset string) :=
  if negb (df_empty pos) && duplicated "PR_Number" (columns pos)
  then Raise AttributeError
  else mret (linked_prs_of pos).

(** [int(df[col].sum())] for a column of booleans *)
Definition count_true (vals : list value) : Z :=
  Z.of_nat (length (List.filter (fun v => match v with VBool true => true | _ => false end) vals)).

(** "Derive Category where missing": the resolver runs only on a table that
    has rows and no Category column yet. *)
Definition derive_missing_category (mapping cfg_map : gmap string string)
    (df : DataFrame) : DataFrame :=
  if negb (has_column "Category" df) && negb (df_empty df)
  then setitem "Category"
         (apply_rows (fun r => category_cell (derive_category r mapping cfg_map)) df) df
  else df.

(** "Open PR logic": [prs["Is_Open_PR"] = prs.apply(is_pr_open, axis=1)] *)
Definition flag_open_prs (open_statuses : list string) (linked_prs : gset string)
    (prs : DataFrame) : DataFrame :=
  setitem "Is_Open_PR"
    (apply_rows (fun r => VBool (is_pr_open open_statuses linked_prs r)) prs) prs.

(** "Open Delivery PO logic": the flag column is added to a table with rows *)
Definition flag_open_delivery (open_statuses : list string) (pos : DataFrame)
    : res DataFrame :=
  if negb (df_empty pos)
  then flags ← mapM (is_po_open_delivery open_statuses) (rows pos);
       mret (setitem "Is_Open_Delivery_PO" (VBool <$> flags) pos)
  else mret pos.

(** "KPIs": the metrics dictionary *)
Definition kpis (prs pos : DataFrame) : gmap string Z :=
  let total_prs := if negb (df_empty prs) then Z.of_nat (length (rows prs)) else 0%Z in
  let total_pos := if negb (df_empty pos) then Z.of_nat (length (rows pos)) else 0%Z in
  let open_prs :=
    if has_column "Is_Open_PR" prs then count_true (column "Is_Open_PR" prs) else 0%Z in
  let open_delivery_pos :=
    if has_column "Is_Open_Delivery_PO" pos
    then count_true (column "Is_Open_Delivery_PO" pos) else 0%Z in
  {[ "Total PRs" := total_prs; "Total POs" := total_pos;
     "Open PRs" := open_prs; "Open Delivery POs" := open_delivery_pos ]}.

(** [compute_metrics], block by block; [config] is the module-level
    configuration the body reads beside its argument [cfg].  The memoising
    decorator does not change the result and is left out. *)
Definition compute_metrics (config : Config) (prs_df pos_df : option DataFrame)
    (pr_map po_map : gmap string string) (cfg : Config)
    : res (gmap string Z * DataFrame * DataFrame) :=
  match prs_df, pos_df with
  | None, None => mret (∅, DataFrame_new, DataFrame_new)
  | _, _ =>
      let prs := default DataFrame_new prs_df in
      let pos := default DataFrame_new pos_df in
      prs ← unify cfg prs pr_map REQUIRED_PRS_FIELDS OPTIONAL_PRS_FIELDS;
      pos ← unify cfg pos po_map REQUIRED_POS_FIELDS OPTIONAL_POS_FIELDS;
      let cfg_map := default ∅ (category_mapping config) in
      let prs := derive_missing_category pr_map cfg_map prs in
      let pos := derive_missing_category po_map cfg_map pos in
      linked_prs ← link_pr_numbers pos;
      let pr_open := lower <$> default [] (pr_open_statuses config) in
      let prs := flag_open_prs pr_open linked_prs prs in
      let po_open := lower <$> default [] (po_open_delivery_statuses config) in
      pos ← flag_open_delivery po_open pos;
      mret (kpis prs pos, prs, pos)
  end.

(** [metrics.get(key, 0)], the way the dashboard reads a count *)
Definition metric (metrics : gmap string Z) (key : string) : Z :=
  default 0%Z (metrics !! key).

(** ** Filters of the dashboard page *)

(** One row of the mask [(df[col] >= start) & (df[col] <= end)], whose
    bounds are naive Timestamps: NaT compares false; pandas refuses to
    compare a timezone-aware Timestamp, or anything that is not a date, with
    a naive one. *)
Definition in_range (start end_ : Z) (v : value) : res bool :=
  match v with
  | VDate t =>
      if aware t then Raise TypeError
      else Ok (bool_decide (start ≤ instant t)%Z && bool_decide (instant t ≤ end_)%Z)
  | VNaT => Ok false
  | _ => Raise TypeError
  end.

(** the rows at the positions where the mask is true *)
Fixpoint mask_rows (mask : list bool) (rs : list Series) : list Series :=
  match mask, rs with
  | b :: mask', r :: rs' => if b then r :: mask_rows mask' rs' else mask_rows mask' rs'
  | _, _ => []
  end.

(** [df[mask]] *)
Definition select_mask (mask : list bool) (df : DataFrame) : DataFrame :=
  {| columns := columns df; rows := mask_rows mask (rows df) |}.

(** [rng] is what the date widget holds: [None], or a tuple of dates. *)
Definition within_date (df : DataFrame) (col : string) (rng : option (list Z))
    : res DataFrame :=
  let bounds := default [] rng in
  if df_empty df || negb (has_column col df)
     || bool_decide (bounds = []) || bool_decide (length bounds ≠ 2)
  then mret df
  else
    match bounds with
    | [start; end_] =>
        mask ← mapM (in_range start end_) (column col df);
        mret (select_mask mask df)
    | _ => mret df
    end.

(** [Series.isin(allowed)] for a selection of text values *)
Definition isin (allowed : list string) (v : value) : bool :=
  match v with
  | VStr s => bool_decide (s ∈ allowed)
  | _ => false
  end.

(** [df[df[col].isin(allowed)]], applied when something is selected and the
    column exists *)
Definition filter_isin (col : string) (allowed : list string) (df : DataFrame)
    : DataFrame :=
  if bool_decide (allowed ≠ []) && has_column col df
  then select (fun row => isin allowed (Series_get row col VNone)) df
  else df.

(** The widgets of the filter panel. *)
Record Filters : Type := mkFilters {
  pr_date_rng : option (list Z);
  po_date_rng : option (list Z);
  categories_filter : list string;
  vendor_filter : list string;
  buyer_filter : list string;
  status_filter_pr : list string;
  status_filter_po : list string
}.

(** The statements under "Apply filters", from the annotated tables to
    [prs_f] and [pos_f]. *)
Definition apply_filters (prs pos : DataFrame) (f : Filters) : res (DataFrame * DataFrame) :=
  prs_f ← within_date prs "PR_Date" (pr_date_rng f);
  pos_f ← within_date pos "PO_Date" (po_date_rng f);
  let prs_f := filter_isin "Category" (categories_filter f) prs_f in
  let pos_f := filter_isin "Category" (categories_filter f) pos_f in
  let pos_f := filter_isin "Vendor" (vendor_filter f) pos_f in
  let prs_f := filter_isin "Buyer" (buyer_filter f) prs_f in
  let prs_f := filter_isin "PR_Status" (status_filter_pr f) prs_f in
  let pos_f := filter_isin "PO_Status" (status_filter_po f) pos_f in
  mret (prs_f, pos_f).

(** ** Settings editor *)

(** [text.split(",")] *)
Fixpoint split_comma (text : string) : list string :=
  match text with
  | EmptyString => [EmptyString]
  | String c rest =>
      if Ascii.eqb c "," then EmptyString :: split_comma rest
      else
        match split_comma rest with
        | piece :: pieces => String c piece :: pieces
        | [] => [String c EmptyString]
        end
  end.

(** [[s.strip() for s in text.split(",") if s.strip()]], the status list
    saved from a settings text box *)
Definition parse_statuses (text : string) : list string :=
  List.filter (fun s => negb (String.eqb s "")) (strip <$> split_comma text).

(** [", ".join(statuses)], the text the box shows for a status list *)
Fixpoint join_comma (statuses : list string) : string :=
  match statuses with
  | [] => ""
  | [s] => s
  | s :: rest => s +:+ ", " +:+ join_comma rest
  end.

(** ** Category mapping sheet and editor *)

(** One row of a mapping table: the entry it contributes, if any
    ([if key and cat in CATEGORIES]). *)
Definition mapping_entry (r : Series) : option (string * string) :=
  let key := strip (py_str (Series_get r "Key_Field" (VStr ""))) in
  let cat := strip (py_str (Series_get r "Category" (VStr ""))) in
  if negb (String.eqb key "") && bool_decide (cat ∈ CATEGORIES)
  then Some (key, cat) else None.

(** The loop of the upload page over the Category_Mapping sheet:
    [config.setdefault('category_mapping', {})[key] = cat]. *)
Definition load_mapping_rows (rs : list Series) (table : option (gmap string string))
    : option (gmap string string) :=
  foldl (fun t r =>
           match mapping_entry r with
           | Some (key, cat) => Some (<[key := cat]> (default ∅ t))
           | None => t
           end) table rs.

Definition with_category_mapping (config : Config) (table : option (gmap string string))
    : Config :=
  {| date_format := date_format config;
     pr_open_statuses := pr_open_statuses config;
     po_open_delivery_statuses := po_open_delivery_statuses config;
     category_mapping := table |}.

(** The import on the upload page; it runs for a sheet that is present
    and not empty. *)
Definition import_category_mapping (cat_map_df : option DataFrame) (config : Config)
    : Config :=
  match cat_map_df with
  | Some df =>
      if negb (df_empty df)
      then with_category_mapping config (load_mapping_rows (rows df) (category_mapping config))
      else config
  | None => config
  end.

(** "Save Category Mapping": the table is rebuilt from the edited rows. *)
Definition save_category_mapping (edited : DataFrame) (config : Config) : Config :=
  with_category_mapping config
    (Some (foldl (fun new_map r =>
                    match mapping_entry r with
                    | Some (key, cat) => <[key := cat]> new_map
                    | None => new_map
                    end) ∅ (rows edited))).

(** [pd.DataFrame(sorted(table.items()), columns=['Key_Field','Category'])],
    the frame shown in the editor and written by the export *)
Definition mapping_frame (table : gmap string string) : DataFrame :=
  {| columns := ["Key_Field"; "Category"];
     rows := (fun item : string * string =>
                [("Key_Field", VStr item.1); ("Category", VStr item.2)])
               <$> merge_sort item_le (map_to_list table) |}.

(** ** Data Health *)

(** [[f for f in required if mapping.get(f) in (None, NOT_MAPPED)]] *)
Definition missing_fields (required : list string) (mapping : gmap string string)
    : list string :=
  List.filter (fun f => match mapping !! f with
                        | None => true
                        | Some col => bool_decide (col = NOT_MAPPED)
                        end) required.

End Dashboard.

(** ** The resolver's contract, in its own words *)

(** Tier 1: the Category field is mapped to a real column and the row's
    trimmed cell under that column is one of the four labels. *)
Definition explicit_match `{PyRuntime} (row : Series) (mapping : gmap string string)
    (label : string) : Prop :=
  ∃ cat_col, mapping !! "Category" = Some cat_col ∧ cat_col ≠ "" ∧ cat_col ≠ NOT_MAPPED
    ∧ strip (py_str (Series_get row cat_col (VStr ""))) = label
    ∧ label ∈ CATEGORIES.

(** Tier 2, for one key field: the field is mapped, the row's trimmed cell
    under its column is a key of the lookup table, and the table gives one of
    the four labels for it. *)
Definition field_match `{PyRuntime} (row : Series) (mapping cfg_mapping : gmap string string)
    (key_field label : string) : Prop :=
  ∃ col, mapping !! key_field = Some col ∧ col ≠ "" ∧ col ≠ NOT_MAPPED
    ∧ cfg_mapping !! strip (py_str (Series_get row col (VStr ""))) = Some label
    ∧ label ∈ CATEGORIES.

(** A quantity cell that gives no number: the column is missing, the cell is
    null, or [float] raises on it. *)
Definition quantity_unusable `{PyRuntime} (row : Series) (key : string) : Prop :=
  Series_in key row = false
  ∨ isna (Series_get row key VNone) = true
  ∨ ∃ e, py_float (Series_get row key VNone) = Raise e.

(** Both quantity cells give a number and the ordered quantity exceeds the
    received one. *)
Definition quantity_outstanding `{PyRuntime} (row : Series) : Prop :=
  ∃ q g : float,
    Series_in "PO_Quantity" row = true ∧ Series_in "GRN_Quantity" row = true
    ∧ notna (Series_get row "PO_Quantity" VNone) = true
    ∧ notna (Series_get row "GRN_Quantity" VNone) = true
    ∧ py_float (Series_get row "PO_Quantity" VNone) = Ok q
    ∧ py_float (Series_get row "GRN_Quantity" VNone) = Ok g
    ∧ PrimFloat.ltb 0 (PrimFloat.sub q g) = true.



(** A cell of a date column: a Timestamp or NaT. *)
Definition date_cell (v : value) : bool :=
  match v with
  | VDate _ | VNaT => true
  | _ => false
  end.

(** Every row of the table has a date cell under [col]. *)
Definition date_typed (col : string) (df : DataFrame) : Prop :=
  Forall (fun row : Series => date_cell (Series_get row col VNone) = true) (rows df).

(** A cell of a date column that compares with naive bounds: a naive
    Timestamp or NaT. *)
Definition naive_cell (v : value) : bool :=
  match v with
  | VDate t => negb (aware t)
  | VNaT => true
  | _ => false
  end.

(** Every row of the table has a naive date cell under [col]. *)
Definition naive_typed (col : string) (df : DataFrame) : Prop :=
  Forall (fun row : Series => naive_cell (Series_get row col VNone) = true) (rows df).

(** No row of the table has a timezone-aware Timestamp under [col]. *)
Definition no_aware_date (col : string) (df : DataFrame) : Prop :=
  Forall (fun row : Series =>
            ∀ t, Series_get row col VNone = VDate t → aware t = false) (rows df).

(** The row is kept by the date mask for the range [start, end_]. *)
Definition date_keeps (start end_ : Z) (col : string) (row : Series) : bool :=
  match in_range start end_ (Series_get row col VNone) with
  | Ok true => true
  | _ => false
  end.

(** A filter widget left empty. *)
Definition rng_unset (rng : option (list Z)) : bool :=
  match rng with
  | None | Some [] => true
  | Some _ => false
  end.

(** ** Vocabulary of the further properties *)

(** The text has no comma. *)
Fixpoint no_comma (s : string) : bool :=
  match s with
  | EmptyString => true
  | String c s' => negb (Ascii.eqb c ",") && no_comma s'
  end.

(** A status as the settings box can hold and give back: not empty, without
    white space at either end, without a comma. *)
Definition clean_status (s : string) : Prop :=
  s ≠ "" ∧ strip s = s ∧ no_comma s = true.

(** A lookup table as the upload page and the editor write it: keys are
    not empty and trimmed, values are among the four labels. *)
Definition valid_lookup (table : gmap string string) : Prop :=
  ∀ key cat, table !! key = Some cat → key ≠ "" ∧ strip key = key ∧ cat ∈ CATEGORIES.

(** A runtime whose date reader never raises: the runtime above with
    every unreadable cell coerced to NaT. *)
Definition coercing_runtime : PyRuntime := {|
  repr_float := repr_float (PyRuntime := decimal_runtime);
  str_timestamp := str_timestamp (PyRuntime := decimal_runtime);
  float_of_str := float_of_str (PyRuntime := decimal_runtime);
  to_datetime := fun _ v =>
    match v with
    | VDate t => Ok (Some t)
    | VInt n => Ok (Some (naive n))
    | _ => Ok None
    end
|}.

(** The labels of the table are distinct as it is read and as [unify]
    renames it. *)
Definition distinct_labels (mapping : gmap string string) (fields : list string)
    (df : DataFrame) : Prop :=
  NoDup (columns df) ∧ NoDup (columns (rename (rename_dict mapping fields) df)).

(** The canonical field names of the two sheets. *)
Definition CANONICAL_FIELDS : list string :=
  REQUIRED_PRS_FIELDS ++ OPTIONAL_PRS_FIELDS ++ REQUIRED_POS_FIELDS ++ OPTIONAL_POS_FIELDS.

(** No raw column chosen in the mapping carries the name of a canonical
    field. *)
Definition raw_names_foreign (mapping : gmap string string) : Prop :=
  ∀ field col, mapping !! field = Some col → col ∉ CANONICAL_FIELDS.

(** Every label of every row of the table satisfies [L]. *)
Definition labels_within (L : string → Prop) (df : DataFrame) : Prop :=
  ∀ row : Series, row ∈ rows df → ∀ l, l ∈ row.*1 → L l.

(** The row passes a selection filter: nothing is selected, the table
    lacks the column, or the cell is one of the selected texts. *)
Definition passes_isin (col : string) (allowed : list string) (df : DataFrame)
    (row : Series) : Prop :=
  allowed = [] ∨ has_column col df = false
  ∨ ∃ s, Series_get row col VNone = VStr s ∧ s ∈ allowed.

(** The row passes the date filter: the widget holds no pair of dates, the
    table lacks the column, or the cell is a date inside the pair, ends
    included. *)
Definition passes_date (col : string) (rng : option (list Z)) (df : DataFrame)
    (row : Series) : Prop :=
  length (default [] rng) ≠ 2 ∨ has_column col df = false
  ∨ ∃ start end_ t : Z, rng = Some [start; end_]
      ∧ Series_get row col VNone = VDate (naive t) ∧ (start ≤ t ≤ end_)%Z.

(** * Properties *)

Example strip_lower_examples :
  strip "  PR 1	 " = "PR 1" ∧ strip "   " = "" ∧ lower "Closed" = "closed".
Proof. repeat split; reflexivity. Qed.

(** A fully received PO with a closed delivery status is not open for
    delivery; a partly received one is, whatever its status. *)
Example received_po_examples :
  is_po_open_delivery (H:=decimal_runtime) ["open"; "partial"; "delayed"]
    [("PO_Quantity", VInt 100); ("GRN_Quantity", VInt 100);
     ("Delivery_Status", VStr "Closed")] = Ok false
  ∧ is_po_open_delivery (H:=decimal_runtime) ["open"; "partial"; "delayed"]
      [("PO_Quantity", VInt 100); ("GRN_Quantity", VFloat 99.5);
       ("Delivery_Status", VStr "Closed")] = Ok true.
Proof. split; reflexivity. Qed.

(** A quantity beyond the range of a double is an OverflowError inside the
    [try]: the trigger is false and the row is judged by its status. *)
Example overflowing_quantity_example :
  py_float (H:=decimal_runtime) (VInt (2 ^ 1024)) = Raise OverflowError
  ∧ is_po_open_delivery (H:=decimal_runtime) ["open"]
      [("PO_Quantity", VInt (2 ^ 1024)); ("GRN_Quantity", VInt 1);
       ("Delivery_Status", VStr "Closed")] = Ok false.
Proof. split; vm_compute; reflexivity. Qed.

Section Basics.
Context `{PyRuntime}.

Lemma is_mapped_Some (c : string) :
  is_mapped (Some c) = true ↔ c ≠ "" ∧ c ≠ NOT_MAPPED.
Proof.
  unfold is_mapped. rewrite andb_true_iff, !bool_decide_eq_true. tauto.
Qed.

Lemma is_mapped_None : is_mapped None = false.
Proof. reflexivity. Qed.

Lemma Series_get_absent (row : Series) (key : string) (dflt : value) :
  Series_in key row = false → Series_get row key dflt = dflt.
Proof.
  unfold Series_in. rewrite bool_decide_eq_false.
  induction row as [|[k v] row IH]; intros Hnot; [done|].
  simpl in *. rewrite not_elem_of_cons in Hnot. destruct Hnot as [Hne Hrest].
  rewrite bool_decide_eq_false_2 by congruence. auto.
Qed.

Lemma Series_get_set_eq (row : Series) (key : string) (v dflt : value) :
  Series_get (Series_set key v row) key dflt = v.
Proof.
  induction row as [|[k w] row IH]; simpl.
  - by rewrite bool_decide_eq_true_2.
  - case_bool_decide as Hk; simpl.
    + by rewrite bool_decide_eq_true_2.
    + by rewrite bool_decide_eq_false_2.
Qed.

Lemma Series_get_set_ne (row : Series) (key key' : string) (v dflt : value) :
  key ≠ key' → Series_get (Series_set key v row) key' dflt = Series_get row key' dflt.
Proof.
  intros Hne. induction row as [|[k w] row IH]; simpl.
  - by rewrite bool_decide_eq_false_2.
  - case_bool_decide as Hk; simpl.
    + subst k. by rewrite !bool_decide_eq_false_2.
    + case_bool_decide; auto.
Qed.

(** *** Lifecycle classifiers *)

Lemma is_pr_open_not_linked (open_statuses : list string) (linked_prs : gset string)
    (row : Series) :
  strip (py_str (Series_get row "PR_Number" (VStr ""))) ∉ linked_prs →
  is_pr_open open_statuses linked_prs row = true.
Proof.
  intros Hnot. unfold is_pr_open.
  rewrite (bool_decide_eq_false_2 _ Hnot). simpl.
  by rewrite orb_true_r.
Qed.

(** *** Category resolver *)

Lemma lookup_key_field_spec (row : Series) (mapping cfg_mapping : gmap string string)
    (key_field label : string) :
  lookup_key_field row mapping cfg_mapping key_field = Some label
  ↔ field_match row mapping cfg_mapping key_field label.
Proof.
  unfold lookup_key_field, field_match. split.
  - destruct (mapping !! key_field) as [col|] eqn:Hcol; [|done].
    destruct (is_mapped (Some col)) eqn:Hm; [|done].
    apply is_mapped_Some in Hm as [? ?]. simpl.
    destruct (cfg_mapping !! _) as [c|] eqn:Hc; [|done].
    case_bool_decide; [|done]. intros [= ->]. eauto 10.
  - intros (col & -> & Hne & Hnm & Hc & Hin).
    rewrite (proj2 (is_mapped_Some col)) by done. simpl.
    rewrite Hc. by rewrite bool_decide_eq_true_2.
Qed.

Lemma lookup_key_fields_first (row : Series) (mapping cfg_mapping : gmap string string)
    (before after : list string) (key_field label : string) :
  (∀ k, k ∈ before → lookup_key_field row mapping cfg_mapping k = None) →
  lookup_key_field row mapping cfg_mapping key_field = Some label →
  lookup_key_fields row mapping cfg_mapping (before ++ key_field :: after) = Some label.
Proof.
  intros Hbefore Hkey. induction before as [|k before IH]; simpl.
  - by rewrite Hkey.
  - rewrite (Hbefore k) by left. apply IH. intros k' Hk'. apply Hbefore. by right.
Qed.

Lemma lookup_key_fields_Some (row : Series) (mapping cfg_mapping : gmap string string)
    (key_fields : list string) (label : string) :
  lookup_key_fields row mapping cfg_mapping key_fields = Some label →
  ∃ k, k ∈ key_fields ∧ lookup_key_field row mapping cfg_mapping k = Some label.
Proof.
  induction key_fields as [|k ks IH]; simpl; [done|].
  destruct (lookup_key_field row mapping cfg_mapping k) as [c|] eqn:Hk.
  - intros [= ->]. exists k. split; [left|done].
  - intros Hrest. destruct (IH Hrest) as (k' & ? & ?). exists k'. split; [by right|done].
Qed.

(** the first tier, taken apart from [derive_category] *)
Lemma derive_category_explicit (row : Series) (mapping cfg_mapping : gmap string string)
    (label : string) :
  explicit_match row mapping label →
  derive_category row mapping cfg_mapping = Some label.
Proof.
  intros (cat_col & Hcol & Hne & Hnm & Hval & Hin).
  unfold derive_category. rewrite Hcol.
  rewrite (proj2 (is_mapped_Some cat_col)) by done. simpl.
  rewrite Hval. by rewrite bool_decide_eq_true_2.
Qed.

Lemma derive_category_fallthrough (row : Series) (mapping cfg_mapping : gmap string string) :
  (∀ l, ¬ explicit_match row mapping l) →
  derive_category row mapping cfg_mapping
  = lookup_key_fields row mapping cfg_mapping KEY_FIELDS.
Proof.
  intros Hno. unfold derive_category.
  destruct (mapping !! "Category") as [cat_col|] eqn:Hcol; [|done].
  destruct (is_mapped (Some cat_col)) eqn:Hm; [|done].
  apply is_mapped_Some in Hm as [? ?]. simpl.
  case_bool_decide as Hin; [|done].
  exfalso. eapply Hno. exists cat_col. eauto.
Qed.

Lemma derive_category_origin (row : Series) (mapping cfg_mapping : gmap string string)
    (label : string) :
  derive_category row mapping cfg_mapping = Some label →
  explicit_match row mapping label
  ∨ ∃ k, k ∈ KEY_FIELDS ∧ field_match row mapping cfg_mapping k label.
Proof.
  unfold derive_category.
  destruct (mapping !! "Category") as [cat_col|] eqn:Hcol.
  - destruct (is_mapped (Some cat_col)) eqn:Hm.
    + apply is_mapped_Some in Hm as [? ?].
      case_bool_decide as Hin.
      * intros [= <-]. left. exists cat_col. eauto 10.
      * intros Hl. right. apply lookup_key_fields_Some in Hl as (k & ? & Hk).
        exists k. split; [done|]. by apply lookup_key_field_spec.
    + intros Hl. right. apply lookup_key_fields_Some in Hl as (k & ? & Hk).
      exists k. split; [done|]. by apply lookup_key_field_spec.
  - intros Hl. right. apply lookup_key_fields_Some in Hl as (k & ? & Hk).
    exists k. split; [done|]. by apply lookup_key_field_spec.
Qed.

End Basics.

(** C4: the resolver takes the tiers in strict order.  A valid explicit
    Category cell is returned whatever the lookup table holds; otherwise the
    key fields Material_Group, Cost_Center, Item_Type are tried in that
    order and the first one that maps to a label decides, whatever the later
    fields hold. *)
Theorem derive_category_tier_order `{PyRuntime} (row : Series)
    (mapping cfg_mapping : gmap string string) :
  KEY_FIELDS = ["Material_Group"; "Cost_Center"; "Item_Type"]
  ∧ (∀ label, explicit_match row mapping label →
       ∀ any_table, derive_category row mapping any_table = Some label)
  ∧ (∀ (before after : list string) (key_field label : string),
       KEY_FIELDS = (before ++ key_field :: after)%list →
       (∀ l, ¬ explicit_match row mapping l) →
       (∀ k l, k ∈ before → ¬ field_match row mapping cfg_mapping k l) →
       field_match row mapping cfg_mapping key_field label →
       derive_category row mapping cfg_mapping = Some label).
Proof.
  split; [done|]. split.
  - intros label Hexp any_table. by apply derive_category_explicit.
  - intros before after key_field label Hfields Hno Hbefore Hkey.
    rewrite derive_category_fallthrough by done. rewrite Hfields.
    apply lookup_key_fields_first.
    + intros k Hk.
      destruct (lookup_key_field row mapping cfg_mapping k) as [l|] eqn:Hl; [|done].
      apply lookup_key_field_spec in Hl. by destruct (Hbefore k l).
    + by apply lookup_key_field_spec.
Qed.

Lemma derive_category_tier_order_witness :
  derive_category (H:=decimal_runtime)
    [("Kind", VStr "Capex "); ("Grp", VStr " STEEL-01 ")]
    {["Category" := "Kind"; "Material_Group" := "Grp"]}
    {["STEEL-01" := "MRO"]} = Some "Capex"
  ∧ derive_category (H:=decimal_runtime)
      [("Grp", VStr " STEEL-01 "); ("Type", VStr "X9")]
      {["Category" := NOT_MAPPED; "Material_Group" := "MG";
        "Cost_Center" := "Grp"; "Item_Type" := "Type"]}
      {["STEEL-01" := "MRO"; "X9" := "PCM"; "MG" := "Services"]} = Some "MRO".
Proof.
  split.
  - eapply (proj1 (proj2 (derive_category_tier_order (H:=decimal_runtime) _ _ ∅))).
    exists "Kind". repeat split; try done. vm_compute. set_solver.
  - eapply (proj2 (proj2 (derive_category_tier_order (H:=decimal_runtime) _ _ _))
              ["Material_Group"] ["Item_Type"] "Cost_Center").
    + reflexivity.
    + intros l (c & Hc & _ & Hnm & _). vm_compute in Hc.
      injection Hc as <-. by apply Hnm.
    + intros k l Hk (c & Hc & _ & _ & Hlook & _).
      rewrite list_elem_of_singleton in Hk. subst k.
      vm_compute in Hc. injection Hc as <-. vm_compute in Hlook. discriminate.
    + exists "Grp". repeat split; try done. set_solver.
Defined.

(** C5: whatever the row, the field mapping and the lookup table, the
    resolver returns one of MRO, Services, Capex, PCM or the unknown marker
    ([None]); a label it returns always comes from a tier whose value is
    one of the four labels. *)
Theorem derive_category_range `{PyRuntime} (row : Series)
    (mapping cfg_mapping : gmap string string) :
  derive_category row mapping cfg_mapping
    ∈ [Some "MRO"; Some "Services"; Some "Capex"; Some "PCM"; None]
  ∧ ∀ label, derive_category row mapping cfg_mapping = Some label →
      label ∈ CATEGORIES
      ∧ (explicit_match row mapping label
         ∨ ∃ k, k ∈ KEY_FIELDS ∧ field_match row mapping cfg_mapping k label).
Proof.
  assert (Hlab : ∀ label, derive_category row mapping cfg_mapping = Some label →
                   label ∈ CATEGORIES).
  { intros label Hl. apply derive_category_origin in Hl as [Ht|(k & _ & Ht)].
    - by destruct Ht as (? & _ & _ & _ & _ & ?).
    - by destruct Ht as (? & _ & _ & _ & _ & ?). }
  split.
  - destruct (derive_category row mapping cfg_mapping) as [label|] eqn:Hl.
    + specialize (Hlab label eq_refl). unfold CATEGORIES in Hlab.
      rewrite !elem_of_cons in Hlab. rewrite !elem_of_cons.
      destruct Hlab as [->|[->|[->|[->|Hn]]]]; auto 10.
      by apply elem_of_nil in Hn.
    + rewrite !elem_of_cons. auto 10.
  - intros label Hl. split; [by apply Hlab|by apply derive_category_origin].
Qed.

Lemma derive_category_range_witness :
  derive_category (H:=decimal_runtime)
    [("Kind", VStr "Spare parts"); ("Grp", VStr "G7")]
    {["Category" := "Kind"; "Material_Group" := "Grp"]}
    {["G7" := "Consumables"]} = None
  ∧ "Capex" ∈ CATEGORIES.
Proof.
  split; [reflexivity|].
  eapply (proj2 (derive_category_range (H:=decimal_runtime)
                   [("Kind", VStr "Capex")] {["Category" := "Kind"]} ∅) "Capex").
  reflexivity.
Defined.

(** C1: a PR row whose trimmed PR_Number is not among the trimmed
    PR_Number values of the PO table is open, whatever its PR_Status: the
    classifier answers true on it, and the cell written under Is_Open_PR for
    it is true. *)
Theorem unlinked_pr_is_open `{PyRuntime} (prs pos : DataFrame) (open_statuses : list string) :
  (∀ row : Series,
     strip (py_str (Series_get row "PR_Number" (VStr ""))) ∉ linked_prs_of pos →
     is_pr_open open_statuses (linked_prs_of pos) row = true)
  ∧ Forall (fun row : Series =>
              strip (py_str (Series_get row "PR_Number" (VStr ""))) ∉ linked_prs_of pos →
              Series_get row "Is_Open_PR" VNone = VBool true)
      (rows (flag_open_prs open_statuses (linked_prs_of pos) prs)).
Proof.
  split; [intros row; apply is_pr_open_not_linked|].
  unfold flag_open_prs, setitem, apply_rows; simpl.
  induction (rows prs) as [|row rest IH]; simpl; constructor; [|exact IH].
  rewrite Series_get_set_eq, Series_get_set_ne by done.
  intros Hnot. by rewrite is_pr_open_not_linked.
Qed.

Lemma unlinked_pr_is_open_witness :
  let pos := mkDataFrame ["PO_Number"; "PR_Number"]
               [[("PO_Number", VInt 4500); ("PR_Number", VStr " PR2 ")];
                [("PO_Number", VInt 4501); ("PR_Number", VFloat nan)]] in
  let row := [("PR_Number", VStr "PR1"); ("PR_Status", VStr "Closed")] in
  is_pr_open (H:=decimal_runtime) ["open"] (linked_prs_of (H:=decimal_runtime) pos) row = true
  ∧ rows (flag_open_prs (H:=decimal_runtime) ["open"] (linked_prs_of (H:=decimal_runtime) pos)
            (mkDataFrame ["PR_Number"; "PR_Status"] [row]))
    = [[("PR_Number", VStr "PR1"); ("PR_Status", VStr "Closed"); ("Is_Open_PR", VBool true)]].
Proof.
  intros pos row. split; [|reflexivity].
  apply (proj1 (unlinked_pr_is_open (H:=decimal_runtime) DataFrame_new pos ["open"])).
  vm_compute. set_solver.
Defined.



(** The outstanding-quantity trigger, row by row. *)
Lemma is_po_open_delivery_outstanding `{PyRuntime} (open_statuses : list string)
    (row : Series) :
  quantity_outstanding row → is_po_open_delivery open_statuses row = Ok true.
Proof.
  intros (q & g & Hq & Hg & Hnq & Hng & Hfq & Hfg & Hpos).
  unfold is_po_open_delivery, po_outstanding, cell_or_none, outstanding_quantity.
  rewrite Hq, Hg, Hnq, Hng, Hfq, Hfg. simpl. by rewrite Hpos.
Qed.

Lemma po_outstanding_unusable `{PyRuntime} (row : Series) :
  quantity_unusable row "PO_Quantity" ∨ quantity_unusable row "GRN_Quantity" →
  po_outstanding row = Ok false.
Proof.
  intros Hbad.
  unfold po_outstanding, cell_or_none, outstanding_quantity.
  destruct Hbad as [[Ha|[Hn|[e He]]]|[Ha|[Hn|[e He]]]].
  - rewrite Ha. simpl. done.
  - destruct (Series_in "PO_Quantity" row); [|done].
    unfold notna. rewrite Hn. done.
  - destruct (Series_in "PO_Quantity" row); [|done].
    rewrite He. by destruct (notna _ && notna _).
  - rewrite Ha. simpl. rewrite andb_false_r. done.
  - destruct (Series_in "GRN_Quantity" row); [|by rewrite andb_false_r].
    unfold notna at 2. rewrite Hn. simpl. by rewrite andb_false_r.
  - destruct (Series_in "GRN_Quantity" row); [|by rewrite andb_false_r].
    rewrite He. destruct (notna _ && notna _); [|done].
    clear He. destruct (py_float _); reflexivity.
Qed.

Lemma is_po_open_delivery_unusable `{PyRuntime} (open_statuses : list string)
    (row : Series) :
  quantity_unusable row "PO_Quantity" ∨ quantity_unusable row "GRN_Quantity" →
  is_po_open_delivery open_statuses row
  = Ok (let status := lower (py_str (Series_get row "Delivery_Status" (VStr ""))) in
        bool_decide (status ∈ open_statuses) || bool_decide (status = "open")).
Proof.
  intros Hbad. unfold is_po_open_delivery.
  by rewrite (po_outstanding_unusable row Hbad).
Qed.

(** C7 as the specification words it does not hold: a PR row without a
    PR_Status cell, whose number is linked to a PO and with no open status
    configured, is marked open all the same, by the status test alone. *)
Lemma absent_pr_status_counterexample :
  ¬ (∀ (R : PyRuntime) (open_statuses : list string) (linked_prs : gset string)
       (row : Series),
       Series_in "PR_Status" row = false →
       strip (py_str (Series_get row "PR_Number" (VStr ""))) ∈ linked_prs →
       (∀ s, s ∈ open_statuses → False) →
       is_pr_open open_statuses linked_prs row = false).
Proof.
  intros Hclaim.
  specialize (Hclaim decimal_runtime [] {["PR1"]} [("PR_Number", VStr "PR1")]).
  assert (Hopen : is_pr_open (H:=decimal_runtime) [] {["PR1"]}
                    [("PR_Number", VStr "PR1")] = true) by reflexivity.
  rewrite Hclaim in Hopen; [discriminate|reflexivity|vm_compute; set_solver|].
  intros s Hs. by apply elem_of_nil in Hs.
Qed.

(** C7, amended: the classifiers never raise on a row that lacks a field
    ([is_pr_open] has no operation that can raise, [is_po_open_delivery]
    always returns).  A missing PO_Quantity or GRN_Quantity makes the outstanding-quantity
    trigger false, and a missing Delivery_Status reads as the empty text, so
    the status triggers fire only if the empty text is configured as an open
    delivery status.  A missing PR_Status reads as the empty text, which is
    not "closed": the PR row is open.  A missing PR_Number reads as the empty
    text: the linkage trigger fires unless the empty text is a linked
    number. *)
Theorem absent_fields `{PyRuntime} (open_statuses : list string) (linked_prs : gset string)
    (row : Series) :
  (Series_in "PR_Status" row = false →
     is_pr_open open_statuses linked_prs row = true)
  ∧ (Series_in "PR_Number" row = false →
     is_pr_open open_statuses linked_prs row
     = let status := lower (py_str (Series_get row "PR_Status" (VStr ""))) in
       bool_decide (status ≠ "closed") || negb (bool_decide ("" ∈ linked_prs))
       || bool_decide (status ∈ open_statuses))
  ∧ (Series_in "PO_Quantity" row = false ∨ Series_in "GRN_Quantity" row = false →
     po_outstanding row = Ok false)
  ∧ (Series_in "Delivery_Status" row = false →
     is_po_open_delivery open_statuses row
     = (outstanding ← po_outstanding row;
        mret (outstanding || bool_decide ("" ∈ open_statuses))))
  ∧ (∃ verdict, is_po_open_delivery open_statuses row = Ok verdict).
Proof.
  split; [|split; [|split; [|split]]].
  - intros Habs. unfold is_pr_open.
    rewrite (Series_get_absent _ _ _ Habs). reflexivity.
  - intros Habs. unfold is_pr_open.
    rewrite (Series_get_absent row "PR_Number" _ Habs). reflexivity.
  - intros Habs.
    apply po_outstanding_unusable.
    destruct Habs as [Ha|Ha]; [left|right]; by left.
  - intros Habs. unfold is_po_open_delivery.
    rewrite (Series_get_absent _ _ _ Habs).
    destruct (po_outstanding row) as [o|e]; [|done]. simpl.
    by rewrite orb_false_r.
  - unfold is_po_open_delivery, po_outstanding.
    destruct (outstanding_quantity _ _) as [o|e]; simpl; eauto.
Qed.

Lemma absent_fields_witness :
  is_pr_open (H:=decimal_runtime) [] {["PR1"]} [("PR_Number", VStr "PR1")] = true
  ∧ po_outstanding (H:=decimal_runtime) [("PO_Quantity", VInt 5)] = Ok false.
Proof.
  split.
  - apply (proj1 (absent_fields (H:=decimal_runtime) [] {["PR1"]}
                    [("PR_Number", VStr "PR1")])).
    reflexivity.
  - apply (proj1 (proj2 (proj2 (absent_fields (H:=decimal_runtime) [] ∅
                                  [("PO_Quantity", VInt 5)])))).
    right. reflexivity.
Defined.

(** *** Aggregation *)

Section Aggregation.
Context `{PyRuntime}.


Lemma df_empty_has_column (col : string) (df : DataFrame) :
  df_empty df = true → has_column col df = true → rows df = [].
Proof.
  unfold df_empty, has_column.
  rewrite orb_true_iff, !bool_decide_eq_true. intros [Hcols|Hrows] Hin; [|done].
  rewrite Hcols in Hin. by apply elem_of_nil in Hin.
Qed.

Lemma has_column_setitem (c col : string) (vals : list value) (df : DataFrame) :
  has_column c (setitem col vals df) = has_column c df || bool_decide (c = col).
Proof.
  unfold setitem, has_column; simpl.
  destruct (bool_decide (col ∈ columns df)) eqn:Hc.
  - apply bool_decide_eq_true in Hc.
    destruct (decide (c = col)) as [->|Hne].
    + by rewrite !bool_decide_eq_true_2.
    + rewrite (bool_decide_eq_false_2 (c = col)) by done. by rewrite orb_false_r.
  - rewrite <- bool_decide_or. apply bool_decide_ext.
    by rewrite elem_of_app, list_elem_of_singleton.
Qed.

Lemma rows_setitem_apply (col : string) (f : Series → value) (df : DataFrame) :
  rows (setitem col (apply_rows f df) df)
  = (fun row : Series => Series_set col (f row) row) <$> rows df.
Proof.
  unfold setitem, apply_rows; simpl.
  induction (rows df) as [|row rest IH]; simpl; [done|]. f_equal. apply IH.
Qed.

Lemma column_setitem_ne (c col : string) (f : Series → value) (df : DataFrame) :
  col ≠ c → column c (setitem col (apply_rows f df) df) = column c df.
Proof.
  intros Hne. unfold column. rewrite rows_setitem_apply.
  rewrite <- list_fmap_compose. apply list_fmap_ext.
  intros i row _. simpl. by apply Series_get_set_ne.
Qed.



Lemma has_column_derive_missing_category (c : string) (mapping cfg_map : gmap string string)
    (df : DataFrame) :
  c ≠ "Category" →
  has_column c (derive_missing_category mapping cfg_map df) = has_column c df.
Proof.
  intros Hne. unfold derive_missing_category.
  destruct (negb _ && negb _); [|done].
  rewrite has_column_setitem, (bool_decide_eq_false_2 _ Hne). apply orb_false_r.
Qed.

Lemma is_po_open_delivery_total (open_statuses : list string) (row : Series) :
  ∃ verdict, is_po_open_delivery open_statuses row = Ok verdict.
Proof.
  unfold is_po_open_delivery, po_outstanding.
  destruct (outstanding_quantity _ _) as [o|e]; simpl; eauto.
Qed.

Lemma flag_open_delivery_total (open_statuses : list string) (pos : DataFrame) :
  ∃ flagged, flag_open_delivery open_statuses pos = Ok flagged
             ∧ length (rows flagged) = length (rows pos).
Proof.
  unfold flag_open_delivery. destruct (negb (df_empty pos)); [|eauto].
  assert (Hflags : ∃ flags, mapM (is_po_open_delivery open_statuses) (rows pos) = Ok flags
                            ∧ length flags = length (rows pos)).
  { induction (rows pos) as [|row rest IH]; simpl; [by exists []|].
    destruct (is_po_open_delivery_total open_statuses row) as [b Hb].
    destruct IH as (flags & Hflags & Hlen).
    exists (b :: flags). rewrite Hb. simpl. rewrite Hflags. simpl.
    split; [done|]. by rewrite Hlen. }
  destruct Hflags as (flags & Hflags & Hlen).
  rewrite Hflags. simpl. eexists. split; [done|]. simpl.
  rewrite length_zip_with, length_fmap. lia.
Qed.

Lemma flag_open_delivery_empty (open_statuses : list string) (pos : DataFrame) :
  df_empty pos = true → flag_open_delivery open_statuses pos = Ok pos.
Proof. intros Hempty. unfold flag_open_delivery. by rewrite Hempty. Qed.

Lemma rows_flag_open_prs (open_statuses : list string) (linked_prs : gset string)
    (prs : DataFrame) :
  rows (flag_open_prs open_statuses linked_prs prs)
  = (fun row : Series =>
       Series_set "Is_Open_PR" (VBool (is_pr_open open_statuses linked_prs row)) row)
      <$> rows prs.
Proof. unfold flag_open_prs. apply rows_setitem_apply. Qed.


(** What a successful pass is made of. *)
Lemma compute_metrics_inv (config : Config) (prs_df pos_df : option DataFrame)
    (pr_map po_map : gmap string string) (cfg : Config)
    (m : gmap string Z) (prs pos : DataFrame) :
  compute_metrics config prs_df pos_df pr_map po_map cfg = Ok (m, prs, pos) →
  (prs_df = None ∧ pos_df = None ∧ m = ∅ ∧ prs = DataFrame_new ∧ pos = DataFrame_new)
  ∨ ∃ uprs upos,
      unify cfg (default DataFrame_new prs_df) pr_map
        REQUIRED_PRS_FIELDS OPTIONAL_PRS_FIELDS = Ok uprs
      ∧ unify cfg (default DataFrame_new pos_df) po_map
          REQUIRED_POS_FIELDS OPTIONAL_POS_FIELDS = Ok upos
      ∧ prs = flag_open_prs (lower <$> default [] (pr_open_statuses config))
                (linked_prs_of
                   (derive_missing_category po_map (default ∅ (category_mapping config)) upos))
                (derive_missing_category pr_map (default ∅ (category_mapping config)) uprs)
      ∧ flag_open_delivery (lower <$> default [] (po_open_delivery_statuses config))
          (derive_missing_category po_map (default ∅ (category_mapping config)) upos)
        = Ok pos
      ∧ m = kpis prs pos.
Proof.
  unfold compute_metrics.
  assert (Hgen :
    (prs ← unify cfg (default DataFrame_new prs_df) pr_map
             REQUIRED_PRS_FIELDS OPTIONAL_PRS_FIELDS;
     pos ← unify cfg (default DataFrame_new pos_df) po_map
             REQUIRED_POS_FIELDS OPTIONAL_POS_FIELDS;
     let cfg_map := default ∅ (category_mapping config) in
     let prs := derive_missing_category pr_map cfg_map prs in
     let pos := derive_missing_category po_map cfg_map pos in
     linked_prs ← link_pr_numbers pos;
     let pr_open := lower <$> default [] (pr_open_statuses config) in
     let prs := flag_open_prs pr_open linked_prs prs in
     let po_open := lower <$> default [] (po_open_delivery_statuses config) in
     pos ← flag_open_delivery po_open pos;
     mret (kpis prs pos, prs, pos)) = Ok (m, prs, pos) →
    ∃ uprs upos,
      unify cfg (default DataFrame_new prs_df) pr_map
        REQUIRED_PRS_FIELDS OPTIONAL_PRS_FIELDS = Ok uprs
      ∧ unify cfg (default DataFrame_new pos_df) po_map
          REQUIRED_POS_FIELDS OPTIONAL_POS_FIELDS = Ok upos
      ∧ prs = flag_open_prs (lower <$> default [] (pr_open_statuses config))
                (linked_prs_of
                   (derive_missing_category po_map (default ∅ (category_mapping config)) upos))
                (derive_missing_category pr_map (default ∅ (category_mapping config)) uprs)
      ∧ flag_open_delivery (lower <$> default [] (po_open_delivery_statuses config))
          (derive_missing_category po_map (default ∅ (category_mapping config)) upos)
        = Ok pos
      ∧ m = kpis prs pos).
  { destruct (unify cfg (default DataFrame_new prs_df) _ _ _) as [uprs|e]; [|done].
    destruct (unify cfg (default DataFrame_new pos_df) _ _ _) as [upos|e]; [|done].
    simpl. unfold link_pr_numbers.
    destruct (negb _ && duplicated _ _); [done|]. simpl.
    destruct (flag_open_delivery _ _) as [fpos|e] eqn:Hflag; [|done].
    simpl. intros [= <- <- <-]. exists uprs, upos. done. }
  destruct prs_df as [p|], pos_df as [q|]; try (intros Hrun; right; by apply Hgen).
  intros [= <- <- <-]. left. done.
Qed.

Lemma duplicated_app_ne (label c : string) (labels : list string) :
  c ≠ label → duplicated label (labels ++ [c]) = duplicated label labels.
Proof.
  intros Hne. unfold duplicated. rewrite List.filter_app. simpl.
  destruct (String.eqb_spec label c) as [->|_]; [done|].
  by rewrite app_nil_r.
Qed.

(** Deriving the categories leaves the test of [link_pr_numbers] as it is. *)
Lemma link_pr_numbers_derive (mapping cfg_map : gmap string string) (df : DataFrame) :
  negb (df_empty (derive_missing_category mapping cfg_map df))
  && duplicated "PR_Number" (columns (derive_missing_category mapping cfg_map df))
  = negb (df_empty df) && duplicated "PR_Number" (columns df).
Proof.
  unfold derive_missing_category.
  destruct (has_column "Category" df) eqn:Hcat; simpl; [done|].
  destruct (df_empty df) eqn:Hempty; simpl; [by rewrite Hempty|].
  rewrite Hcat, duplicated_app_ne by done.
  assert (Hne : df_empty
                  (setitem "Category"
                     (apply_rows
                        (λ r : Series, category_cell (derive_category r mapping cfg_map)) df)
                     df) = false); [|by rewrite Hne].
  unfold df_empty in *. apply orb_false_iff in Hempty as [Hcols Hrows].
  rewrite bool_decide_eq_false in Hcols. rewrite bool_decide_eq_false in Hrows.
  unfold setitem, apply_rows; simpl. rewrite Hcat.
  rewrite bool_decide_eq_false_2 by (by destruct (columns df)).
  rewrite bool_decide_eq_false_2; [done|].
  destruct (rows df); [done|]. simpl. done.
Qed.

Lemma compute_metrics_total (config : Config) (prs_df pos_df : option DataFrame)
    (pr_map po_map : gmap string string) (cfg : Config) (uprs upos : DataFrame) :
  unify cfg (default DataFrame_new prs_df) pr_map
    REQUIRED_PRS_FIELDS OPTIONAL_PRS_FIELDS = Ok uprs →
  unify cfg (default DataFrame_new pos_df) po_map
    REQUIRED_POS_FIELDS OPTIONAL_POS_FIELDS = Ok upos →
  negb (df_empty upos) && duplicated "PR_Number" (columns upos) = false →
  ∃ m prs pos, compute_metrics config prs_df pos_df pr_map po_map cfg = Ok (m, prs, pos).
Proof.
  intros Hprs Hpos Hdup. unfold compute_metrics.
  destruct (flag_open_delivery_total
              (lower <$> default [] (po_open_delivery_statuses config))
              (derive_missing_category po_map (default ∅ (category_mapping config)) upos))
    as (fpos & Hflag & _).
  destruct prs_df as [p|], pos_df as [q|];
    try (rewrite Hprs, Hpos; simpl; unfold link_pr_numbers;
         rewrite link_pr_numbers_derive, Hdup; simpl; rewrite Hflag; simpl; by eauto).
  by eauto.
Qed.

End Aggregation.

Section Counting.
Context `{PyRuntime}.






Lemma has_column_flag_open_prs (open_statuses : list string) (linked_prs : gset string)
    (prs : DataFrame) :
  has_column "Is_Open_PR" (flag_open_prs open_statuses linked_prs prs) = true.
Proof.
  unfold flag_open_prs. rewrite has_column_setitem.
  rewrite (bool_decide_eq_true_2 ("Is_Open_PR" = "Is_Open_PR")) by done.
  apply orb_true_r.
Qed.



End Counting.






(** *** Filters *)

Section FilterEngine.

Lemma DataFrame_eta (df : DataFrame) : mkDataFrame (columns df) (rows df) = df.
Proof. by destruct df. Qed.

Lemma filter_comm {A} (p q : A → bool) (l : list A) :
  List.filter p (List.filter q l) = List.filter q (List.filter p l).
Proof.
  induction l as [|x l IH]; simpl; [done|].
  destruct (q x) eqn:Hq, (p x) eqn:Hp; simpl; rewrite ?Hq, ?Hp, IH; done.
Qed.

Lemma select_select_comm (p q : Series → bool) (df : DataFrame) :
  select p (select q df) = select q (select p df).
Proof. unfold select; simpl. by rewrite filter_comm. Qed.

Lemma select_no_rows (p : Series → bool) (df : DataFrame) :
  rows df = [] → select p df = df.
Proof.
  intros Hrows. unfold select. rewrite Hrows. simpl.
  rewrite <- Hrows. apply DataFrame_eta.
Qed.

Lemma mapM_cells_mask (g : value → res bool) (c : Series → value)
    (rs : list Series) (mask : list bool) :
  mapM g (c <$> rs) = Ok mask →
  mask_rows mask rs
  = List.filter (fun r => match g (c r) with Ok true => true | _ => false end) rs.
Proof.
  revert mask. induction rs as [|r rs IH]; intros mask; simpl.
  - by intros [= <-].
  - destruct (g (c r)) as [b|e]; simpl; [|done].
    destruct (mapM g _) as [mask'|e] eqn:Hrest; simpl; [|done].
    intros [= <-]. simpl. rewrite (IH mask') by done. by destruct b.
Qed.

Lemma mapM_Ok_Forall {A B} (g : A → res B) (l : list A) :
  (∃ out, mapM g l = Ok out) ↔ Forall (fun x => ∃ y, g x = Ok y) l.
Proof.
  induction l as [|x l IH]; simpl.
  - split; [constructor|by eauto].
  - split.
    + intros [out Hout]. destruct (g x) as [y|e] eqn:Hx; simpl in Hout; [|done].
      destruct (mapM g l) as [ys|e]; simpl in Hout; [|done].
      constructor; [by eauto|]. apply IH. by eauto.
    + intros Hall. apply Forall_cons in Hall as [[y Hy] Hrest].
      apply IH in Hrest as [ys Hys]. rewrite Hy. simpl. rewrite Hys. simpl. by eauto.
Qed.

Lemma mapM_cells_filter (g : value → res bool) (c : Series → value)
    (p : Series → bool) (rs : list Series) (mask : list bool) :
  mapM g (c <$> rs) = Ok mask →
  ∃ mask', mapM g (c <$> List.filter p rs) = Ok mask'.
Proof.
  intros Hmask. apply mapM_Ok_Forall, Forall_fmap, Forall_forall.
  assert (Hall : Forall (fun x => ∃ y, g x = Ok y) (c <$> rs))
    by (apply mapM_Ok_Forall; eauto).
  rewrite Forall_fmap, Forall_forall in Hall.
  intros r Hr. apply Hall. apply list_elem_of_In. apply list_elem_of_In in Hr.
  apply filter_In in Hr. tauto.
Qed.

Lemma within_date_inactive (df : DataFrame) (col : string) (rng : option (list Z)) :
  has_column col df = false ∨ length (default [] rng) ≠ 2 →
  within_date df col rng = Ok df.
Proof.
  intros Hoff. unfold within_date.
  destruct (df_empty df); [done|]. simpl.
  destruct Hoff as [->|Hlen]; [done|].
  rewrite (bool_decide_eq_true_2 (length (default [] rng) ≠ 2)) by done.
  by rewrite !orb_true_r.
Qed.

(** On a table the date mask can be computed for, the date filter keeps
    the rows inside the range. *)
Lemma within_date_active (df : DataFrame) (col : string) (start end_ : Z)
    (mask : list bool) :
  has_column col df = true →
  mapM (in_range start end_) (column col df) = Ok mask →
  within_date df col (Some [start; end_]) = Ok (select (date_keeps start end_ col) df).
Proof.
  intros Hcol Hmask. unfold within_date. rewrite Hcol. simpl.
  destruct (df_empty df) eqn:Hempty; simpl.
  - rewrite select_no_rows; [done|]. by apply (df_empty_has_column col).
  - rewrite Hmask. simpl. unfold select_mask, select. f_equal. f_equal.
    by apply mapM_cells_mask.
Qed.

Lemma within_date_mask (df out : DataFrame) (col : string) (start end_ : Z) :
  has_column col df = true →
  within_date df col (Some [start; end_]) = Ok out →
  ∃ mask, mapM (in_range start end_) (column col df) = Ok mask.
Proof.
  intros Hcol. unfold within_date. rewrite Hcol. simpl.
  destruct (df_empty df) eqn:Hempty; simpl.
  - intros _. unfold column.
    rewrite (df_empty_has_column col df Hempty Hcol). by exists [].
  - destruct (mapM _ _) as [mask|e]; [by eauto|done].
Qed.

(** The two filters in either order, on any table the date filter accepts. *)
Lemma category_date_commute (df out : DataFrame) (col : string) (cats : list string)
    (rng : option (list Z)) :
  within_date df col rng = Ok out →
  within_date (filter_isin "Category" cats df) col rng
  = Ok (filter_isin "Category" cats out).
Proof.
  intros Hdate.
  destruct (has_column col df) eqn:Hcol; cycle 1.
  { rewrite within_date_inactive in Hdate by auto. injection Hdate as <-.
    apply within_date_inactive. left.
    unfold filter_isin. by destruct (_ && _). }
  destruct (decide (length (default [] rng) = 2)) as [Hlen|Hlen]; cycle 1.
  { rewrite within_date_inactive in Hdate by auto. injection Hdate as <-.
    apply within_date_inactive. by right. }
  destruct rng as [[|start [|end_ [|? ?]]]|]; try done. clear Hlen.
  destruct (within_date_mask _ _ _ _ _ Hcol Hdate) as [mask Hmask].
  rewrite (within_date_active _ _ _ _ _ Hcol Hmask) in Hdate.
  injection Hdate as <-.
  unfold filter_isin. simpl.
  destruct (bool_decide (cats ≠ []) && has_column "Category" df) eqn:Hon.
  - destruct (mapM_cells_filter (in_range start end_)
                (fun row : Series => Series_get row col VNone)
                (fun row : Series => isin cats (Series_get row "Category" VNone))
                (rows df) mask Hmask) as [mask' Hmask'].
    rewrite (within_date_active _ _ _ _ mask') by done.
    change (has_column "Category" (select (date_keeps start end_ col) df))
      with (has_column "Category" df).
    rewrite Hon. by rewrite select_select_comm.
  - change (has_column "Category" (select (date_keeps start end_ col) df))
      with (has_column "Category" df).
    rewrite Hon. by apply (within_date_active _ _ _ _ mask).
Qed.

End FilterEngine.

Section DateColumns.
Context `{PyRuntime}.

Lemma to_timestamp_cell (dayfirst : bool) (s v : value) :
  to_timestamp dayfirst s = Ok v → date_cell v = true.
Proof.
  unfold to_timestamp. destruct (to_datetime dayfirst s) as [[t|]|e]; simpl; [| |done].
  - by intros [= <-].
  - by intros [= <-].
Qed.

Lemma parse_date_cell (cfg : Config) (s v : value) :
  parse_date cfg s = Ok v → date_cell v = true.
Proof.
  unfold parse_date. destruct (isna s); [by intros [= <-]|].
  repeat case_bool_decide; unfold catch;
    repeat match goal with
           | |- context [to_timestamp ?d s] =>
               let Hd := fresh "Hd" in
               destruct (to_timestamp d s) as [?|?] eqn:Hd;
               [apply to_timestamp_cell in Hd|]
           end;
    try (intros [= <-]; done); done.
Qed.

Lemma mapM_Ok_Forall2 {A B} (g : A → res B) (l : list A) (out : list B) :
  mapM g l = Ok out → Forall2 (fun x y => g x = Ok y) l out.
Proof.
  revert out. induction l as [|x l IH]; intros out; simpl.
  - intros [= <-]. constructor.
  - destruct (g x) as [y|e] eqn:Hx; simpl; [|done].
    destruct (mapM g l) as [ys|e]; simpl; [|done].
    intros [= <-]. constructor; [done|]. by apply IH.
Qed.

Lemma date_typed_no_rows (col : string) (df : DataFrame) :
  rows df = [] → date_typed col df.
Proof. intros Hrows. unfold date_typed. rewrite Hrows. constructor. Qed.

Lemma date_typed_setitem_ne (c col : string) (vals : list value) (df : DataFrame) :
  col ≠ c → date_typed c df → date_typed c (setitem col vals df).
Proof.
  intros Hne. unfold date_typed, setitem; simpl.
  revert vals. induction (rows df) as [|row rest IH]; intros vals Hall.
  - destruct vals; constructor.
  - apply Forall_cons in Hall as [Hrow Hrest].
    destruct vals as [|v vals]; simpl; constructor.
    + by rewrite Series_get_set_ne.
    + by apply IH.
Qed.

Lemma date_typed_apply_column (cfg : Config) (col : string) (df out : DataFrame) :
  apply_column (parse_date cfg) col df = Ok out → date_typed col out.
Proof.
  unfold apply_column.
  destruct (mapM (parse_date cfg) (column col df)) as [vals|e] eqn:Hvals; simpl; [|done].
  intros [= <-]. apply mapM_Ok_Forall2 in Hvals.
  unfold date_typed, setitem, column in *; simpl.
  revert vals Hvals. induction (rows df) as [|row rest IH]; intros vals Hvals.
  - destruct vals; constructor.
  - apply Forall2_cons_inv_l in Hvals as (v & vals' & Hv & Hrest & ->).
    simpl. constructor.
    + rewrite Series_get_set_eq. by eapply parse_date_cell.
    + by apply IH.
Qed.

Lemma apply_column_setitem (f : value → res value) (col : string) (df out : DataFrame) :
  apply_column f col df = Ok out → ∃ vals, out = setitem col vals df.
Proof.
  unfold apply_column. destruct (mapM f (column col df)) as [vals|e]; simpl; [|done].
  intros [= <-]. by eauto.
Qed.

(** After [unify] a date column holds Timestamps and NaT only. *)
Lemma unify_date_typed (cfg : Config) (df u : DataFrame) (mapping : gmap string string)
    (required optional : list string) (col : string) :
  col = "PR_Date" ∨ col = "PO_Date" →
  unify cfg df mapping required optional = Ok u →
  has_column col u = true → date_typed col u.
Proof.
  intros Hcol. unfold unify. destruct (df_empty df) eqn:Hempty.
  { intros [= <-] Hhas. apply date_typed_no_rows.
    by apply (df_empty_has_column col). }
  set (d1 := rename _ df).
  destruct (has_column "PR_Date" d1) eqn:Hpr; simpl.
  - destruct (apply_column (parse_date cfg) "PR_Date" d1) as [d2|e] eqn:H2; simpl; [|done].
    pose proof (date_typed_apply_column _ _ _ _ H2) as Htyped.
    destruct (has_column "PO_Date" d2) eqn:Hpo; simpl.
    + destruct (apply_column (parse_date cfg) "PO_Date" d2) as [d3|e] eqn:H3; simpl; [|done].
      intros [= <-] Hhas. destruct Hcol as [->| ->].
      * apply apply_column_setitem in H3 as [vals ->].
        by apply date_typed_setitem_ne.
      * by eapply date_typed_apply_column.
    + intros [= <-] Hhas. destruct Hcol as [->| ->]; [done|congruence].
  - destruct (has_column "PO_Date" d1) eqn:Hpo; simpl.
    + destruct (apply_column (parse_date cfg) "PO_Date" d1) as [d3|e] eqn:H3; simpl; [|done].
      intros [= <-] Hhas. destruct Hcol as [->| ->].
      * apply apply_column_setitem in H3 as [vals ->].
        rewrite has_column_setitem, Hpr in Hhas. done.
      * by eapply date_typed_apply_column.
    + intros [= <-] Hhas. destruct Hcol as [->| ->]; congruence.
Qed.

Lemma date_typed_derive_missing_category (col : string) (mapping cfg_map : gmap string string)
    (df : DataFrame) :
  col = "PR_Date" ∨ col = "PO_Date" →
  date_typed col df → date_typed col (derive_missing_category mapping cfg_map df).
Proof.
  intros Hcol Htyped. unfold derive_missing_category.
  destruct (negb _ && negb _); [|done].
  apply date_typed_setitem_ne; [|done]. by destruct Hcol as [->| ->].
Qed.

Lemma flag_open_delivery_setitem (open_statuses : list string) (pos out : DataFrame) :
  flag_open_delivery open_statuses pos = Ok out →
  out = pos ∨ ∃ vals, out = setitem "Is_Open_Delivery_PO" vals pos.
Proof.
  unfold flag_open_delivery. destruct (negb (df_empty pos)); [|intros [= <-]; by left].
  destruct (mapM _ _) as [flags|e]; simpl; [|done].
  intros [= <-]. right. by eauto.
Qed.

(** The annotated tables keep the invariant. *)
Lemma annotated_date_typed (config : Config) (prs_df pos_df : option DataFrame)
    (pr_map po_map : gmap string string) (cfg : Config)
    (m : gmap string Z) (prs pos : DataFrame) (col : string) :
  col = "PR_Date" ∨ col = "PO_Date" →
  compute_metrics config prs_df pos_df pr_map po_map cfg = Ok (m, prs, pos) →
  (has_column col prs = true → date_typed col prs)
  ∧ (has_column col pos = true → date_typed col pos).
Proof.
  intros Hcol Hrun.
  assert (Hc1 : col ≠ "Category") by (by destruct Hcol as [->| ->]).
  assert (Hc2 : "Is_Open_PR" ≠ col) by (by destruct Hcol as [->| ->]).
  assert (Hc3 : "Is_Open_Delivery_PO" ≠ col) by (by destruct Hcol as [->| ->]).
  apply compute_metrics_inv in Hrun
    as [(_ & _ & _ & -> & ->)|(uprs & upos & Huprs & Hupos & -> & Hflag & _)].
  { split; intros _; by apply date_typed_no_rows. }
  split.
  - unfold flag_open_prs. rewrite has_column_setitem.
    rewrite (bool_decide_eq_false_2 (col = "Is_Open_PR")) by congruence.
    rewrite orb_false_r, has_column_derive_missing_category by done.
    intros Hhas. apply date_typed_setitem_ne; [done|].
    apply date_typed_derive_missing_category; [done|].
    by eapply unify_date_typed.
  - assert (Hcat : has_column col
                     (derive_missing_category po_map
                        (default ∅ (category_mapping config)) upos) = true →
                   date_typed col
                     (derive_missing_category po_map
                        (default ∅ (category_mapping config)) upos)).
    { rewrite has_column_derive_missing_category by done. intros Hhas.
      apply date_typed_derive_missing_category; [done|].
      by eapply unify_date_typed. }
    apply flag_open_delivery_setitem in Hflag as [->|[vals ->]]; [done|].
    rewrite has_column_setitem.
    rewrite (bool_decide_eq_false_2 (col = "Is_Open_Delivery_PO")) by congruence.
    rewrite orb_false_r. intros Hhas. apply date_typed_setitem_ne; auto.
Qed.

Lemma naive_typed_mask (col : string) (df : DataFrame) (start end_ : Z) :
  naive_typed col df → ∃ mask, mapM (in_range start end_) (column col df) = Ok mask.
Proof.
  intros Htyped. apply mapM_Ok_Forall. unfold column. apply Forall_fmap.
  eapply Forall_impl; [exact Htyped|]. intros row Hcell. simpl in *.
  destruct (Series_get row col VNone) as [| | | | |t|]; simpl in *; try done; [|by eauto].
  destruct (aware t); [done|by eauto].
Qed.

(** A date column without timezone-aware Timestamps compares with naive
    bounds. *)
Lemma date_typed_naive (col : string) (df : DataFrame) :
  date_typed col df → no_aware_date col df → naive_typed col df.
Proof.
  unfold date_typed, no_aware_date, naive_typed. rewrite !Forall_forall.
  intros Hdate Hnaive row Hrow. specialize (Hdate row Hrow). specialize (Hnaive row Hrow).
  destruct (Series_get row col VNone) as [| | | | |t|]; simpl in *; try done.
  by rewrite (Hnaive t eq_refl).
Qed.

(** The date filter never raises on a table whose date column is naive. *)
Lemma within_date_total (df : DataFrame) (col : string) (rng : option (list Z)) :
  (has_column col df = true → naive_typed col df) →
  ∃ out, within_date df col rng = Ok out.
Proof.
  intros Htyped.
  destruct (has_column col df) eqn:Hcol; cycle 1.
  { rewrite within_date_inactive by auto. by eauto. }
  destruct (decide (length (default [] rng) = 2)) as [Hlen|Hlen]; cycle 1.
  { rewrite within_date_inactive by auto. by eauto. }
  destruct rng as [[|start [|end_ [|? ?]]]|]; try done.
  destruct (naive_typed_mask col df start end_ (Htyped eq_refl)) as [mask Hmask].
  rewrite (within_date_active _ _ _ _ _ Hcol Hmask). by eauto.
Qed.

End DateColumns.

Section DeliveryFlag.
Context `{PyRuntime}.

Lemma Series_in_set_ne (row : Series) (key key' : string) (v : value) :
  key ≠ key' → Series_in key' (Series_set key v row) = Series_in key' row.
Proof.
  intros Hne. unfold Series_in. apply bool_decide_ext.
  induction row as [|[k w] row IH]; simpl.
  - rewrite elem_of_cons, elem_of_nil. split; [intros [->|?]; done|done].
  - case_bool_decide as Hk; simpl; [done|].
    rewrite !elem_of_cons, IH. done.
Qed.

(** The classifier does not read the cell it is about to write. *)
Lemma is_po_open_delivery_set (open_statuses : list string) (v : value) (row : Series) :
  is_po_open_delivery open_statuses (Series_set "Is_Open_Delivery_PO" v row)
  = is_po_open_delivery open_statuses row.
Proof.
  unfold is_po_open_delivery, po_outstanding, cell_or_none.
  by rewrite !Series_get_set_ne, !Series_in_set_ne.
Qed.

(** What [pos["Is_Open_Delivery_PO"] = pos.apply(is_po_open_delivery, axis=1)]
    writes: row by row, the verdict of the classifier on that row. *)
Lemma rows_flag_open_delivery (open_statuses : list string) (pos out : DataFrame) :
  df_empty pos = false →
  flag_open_delivery open_statuses pos = Ok out →
  has_column "Is_Open_Delivery_PO" out = true
  ∧ Forall2 (fun r r' : Series =>
               ∃ b, is_po_open_delivery open_statuses r = Ok b
                    ∧ r' = Series_set "Is_Open_Delivery_PO" (VBool b) r)
      (rows pos) (rows out).
Proof.
  intros Hempty. unfold flag_open_delivery. rewrite Hempty. simpl.
  destruct (mapM _ _) as [flags|e] eqn:Hflags; simpl; [|done].
  intros [= <-]. split.
  { rewrite has_column_setitem.
    rewrite (bool_decide_eq_true_2 ("Is_Open_Delivery_PO" = "Is_Open_Delivery_PO")) by done.
    apply orb_true_r. }
  apply mapM_Ok_Forall2 in Hflags. unfold setitem; simpl.
  induction Hflags as [|r b rs bs Hr _ IH]; simpl; constructor; [|exact IH].
  by exists b.
Qed.

(** Every row of the flagged table carries its own verdict. *)
Lemma flagged_row (open_statuses : list string) (pos out : DataFrame) (row : Series) :
  df_empty pos = false →
  flag_open_delivery open_statuses pos = Ok out →
  row ∈ rows out →
  ∃ b, is_po_open_delivery open_statuses row = Ok b
       ∧ Series_get row "Is_Open_Delivery_PO" VNone = VBool b.
Proof.
  intros Hempty Hflag Hrow.
  destruct (rows_flag_open_delivery _ _ _ Hempty Hflag) as [_ Hrows].
  apply list_elem_of_lookup in Hrow as [i Hi].
  destruct (Forall2_lookup_r _ _ _ _ _ Hrows Hi) as (r & _ & b & Hb & ->).
  exists b. by rewrite is_po_open_delivery_set, Series_get_set_eq.
Qed.

(** The annotated PO table, when it is not empty, is a flagged table. *)
Lemma annotated_pos_flagged (config : Config) (prs_df pos_df : option DataFrame)
    (pr_map po_map : gmap string string) (cfg : Config)
    (m : gmap string Z) (prs pos : DataFrame) :
  compute_metrics config prs_df pos_df pr_map po_map cfg = Ok (m, prs, pos) →
  df_empty pos = false →
  ∃ cpos, df_empty cpos = false
          ∧ flag_open_delivery (lower <$> default [] (po_open_delivery_statuses config)) cpos
            = Ok pos.
Proof.
  intros Hrun Hempty.
  apply compute_metrics_inv in Hrun
    as [(_ & _ & _ & _ & ->)|(uprs & upos & _ & _ & _ & Hflag & _)]; [done|].
  eexists. split; [|exact Hflag].
  destruct (df_empty (derive_missing_category _ _ upos)) eqn:Hc; [|done].
  rewrite (flag_open_delivery_empty _ _ Hc) in Hflag. injection Hflag as <-.
  congruence.
Qed.

End DeliveryFlag.

(** C3: when PO_Quantity and GRN_Quantity are both present, both read as
    numbers and their difference is strictly positive, the PO row is open for
    delivery whatever its Delivery_Status, and Is_Open_Delivery_PO is written
    true on it; when either quantity is missing or does not read as a
    number, the outstanding-quantity trigger is false, nothing is raised, and
    the flag written is the verdict of the two status triggers.  The flag
    column is written row by row with the classifier's verdict, on the
    flagged table and on the annotated PO table of a pass alike. *)
Theorem outstanding_quantity_trigger `{PyRuntime} (open_statuses : list string)
    (row : Series) :
  (quantity_outstanding row → is_po_open_delivery open_statuses row = Ok true)
  ∧ (quantity_unusable row "PO_Quantity" ∨ quantity_unusable row "GRN_Quantity" →
     po_outstanding row = Ok false
     ∧ is_po_open_delivery open_statuses row
       = Ok (let status := lower (py_str (Series_get row "Delivery_Status" (VStr ""))) in
             bool_decide (status ∈ open_statuses) || bool_decide (status = "open")))
  ∧ (∀ pos : DataFrame,
       df_empty pos = false →
       ∃ out, flag_open_delivery open_statuses pos = Ok out
              ∧ has_column "Is_Open_Delivery_PO" out = true
              ∧ Forall2 (fun r r' : Series =>
                           ∃ b, is_po_open_delivery open_statuses r = Ok b
                                ∧ r' = Series_set "Is_Open_Delivery_PO" (VBool b) r)
                  (rows pos) (rows out))
  ∧ (∀ pos out : DataFrame,
       df_empty pos = false →
       flag_open_delivery open_statuses pos = Ok out →
       row ∈ rows out →
       (quantity_outstanding row →
        Series_get row "Is_Open_Delivery_PO" VNone = VBool true)
       ∧ (quantity_unusable row "PO_Quantity" ∨ quantity_unusable row "GRN_Quantity" →
          Series_get row "Is_Open_Delivery_PO" VNone
          = VBool (let status :=
                     lower (py_str (Series_get row "Delivery_Status" (VStr ""))) in
                   bool_decide (status ∈ open_statuses) || bool_decide (status = "open"))))
  ∧ (∀ (config : Config) (prs_df pos_df : option DataFrame)
       (pr_map po_map : gmap string string) (cfg : Config)
       (m : gmap string Z) (prs pos : DataFrame),
       open_statuses = lower <$> default [] (po_open_delivery_statuses config) →
       compute_metrics config prs_df pos_df pr_map po_map cfg = Ok (m, prs, pos) →
       df_empty pos = false →
       row ∈ rows pos →
       has_column "Is_Open_Delivery_PO" pos = true
       ∧ (quantity_outstanding row →
          Series_get row "Is_Open_Delivery_PO" VNone = VBool true)
       ∧ (quantity_unusable row "PO_Quantity" ∨ quantity_unusable row "GRN_Quantity" →
          Series_get row "Is_Open_Delivery_PO" VNone
          = VBool (let status :=
                     lower (py_str (Series_get row "Delivery_Status" (VStr ""))) in
                   bool_decide (status ∈ open_statuses) || bool_decide (status = "open")))).
Proof.
  assert (Hcell : ∀ pos out : DataFrame,
            df_empty pos = false →
            flag_open_delivery open_statuses pos = Ok out →
            row ∈ rows out →
            (quantity_outstanding row →
             Series_get row "Is_Open_Delivery_PO" VNone = VBool true)
            ∧ (quantity_unusable row "PO_Quantity" ∨ quantity_unusable row "GRN_Quantity" →
               Series_get row "Is_Open_Delivery_PO" VNone
               = VBool (let status :=
                          lower (py_str (Series_get row "Delivery_Status" (VStr ""))) in
                        bool_decide (status ∈ open_statuses)
                        || bool_decide (status = "open")))).
  { intros pos out Hempty Hflag Hrow.
    destruct (flagged_row _ _ _ _ Hempty Hflag Hrow) as (b & Hb & ->).
    split.
    - intros Hq. rewrite (is_po_open_delivery_outstanding _ _ Hq) in Hb.
      by injection Hb as <-.
    - intros Hbad. rewrite (is_po_open_delivery_unusable _ _ Hbad) in Hb.
      by injection Hb as <-. }
  split; [apply is_po_open_delivery_outstanding|].
  split.
  { intros Hbad. split; [by apply po_outstanding_unusable|].
    by apply is_po_open_delivery_unusable. }
  split.
  { intros pos Hempty.
    destruct (flag_open_delivery_total open_statuses pos) as (out & Hout & _).
    exists out. split; [done|]. by apply rows_flag_open_delivery. }
  split; [exact Hcell|].
  intros config prs_df pos_df pr_map po_map cfg m prs pos -> Hrun Hempty Hrow.
  destruct (annotated_pos_flagged _ _ _ _ _ _ _ _ _ Hrun Hempty) as (cpos & Hc & Hflag).
  split; [by apply (rows_flag_open_delivery _ _ _ Hc Hflag)|].
  by apply (Hcell cpos pos).
Qed.

Lemma outstanding_quantity_trigger_witness :
  let pos := mkDataFrame ["PO_Quantity"; "GRN_Quantity"; "Delivery_Status"]
               [[("PO_Quantity", VInt 100); ("GRN_Quantity", VStr "40");
                 ("Delivery_Status", VStr "Closed")];
                [("PO_Quantity", VInt 100); ("GRN_Quantity", VStr "n/a");
                 ("Delivery_Status", VStr "Closed")]] in
  let partly := [("PO_Quantity", VInt 100); ("GRN_Quantity", VStr "40");
                 ("Delivery_Status", VStr "Closed"); ("Is_Open_Delivery_PO", VBool true)] in
  let unread := [("PO_Quantity", VInt 100); ("GRN_Quantity", VStr "n/a");
                 ("Delivery_Status", VStr "Closed"); ("Is_Open_Delivery_PO", VBool false)] in
  flag_open_delivery (H:=decimal_runtime) ["open"; "partial"] pos
  = Ok (mkDataFrame ["PO_Quantity"; "GRN_Quantity"; "Delivery_Status"; "Is_Open_Delivery_PO"]
          [partly; unread])
  ∧ is_po_open_delivery (H:=decimal_runtime) ["open"; "partial"] partly = Ok true
  ∧ Series_get partly "Is_Open_Delivery_PO" VNone = VBool true
  ∧ is_po_open_delivery (H:=decimal_runtime) ["open"; "partial"] unread = Ok false
  ∧ Series_get unread "Is_Open_Delivery_PO" VNone = VBool false.
Proof.
  intros pos partly unread.
  assert (Hq : quantity_outstanding (H:=decimal_runtime) partly).
  { exists (float_of_Z 100), (float_of_Z 40). repeat split; reflexivity. }
  assert (Hbad : quantity_unusable (H:=decimal_runtime) unread "PO_Quantity"
                 ∨ quantity_unusable (H:=decimal_runtime) unread "GRN_Quantity").
  { right. right. right. exists ValueError. reflexivity. }
  assert (Hflag : flag_open_delivery (H:=decimal_runtime) ["open"; "partial"] pos
                  = Ok (mkDataFrame
                          ["PO_Quantity"; "GRN_Quantity"; "Delivery_Status";
                           "Is_Open_Delivery_PO"] [partly; unread])) by reflexivity.
  split; [exact Hflag|]. split; [|split; [|split]].
  - exact (proj1 (outstanding_quantity_trigger (H:=decimal_runtime)
                    ["open"; "partial"] partly) Hq).
  - refine (proj1 (proj1 (proj2 (proj2 (proj2
              (outstanding_quantity_trigger (H:=decimal_runtime)
                 ["open"; "partial"] partly))))
              pos _ eq_refl Hflag _) Hq).
    apply list_elem_of_here.
  - exact (proj2 (proj1 (proj2 (outstanding_quantity_trigger (H:=decimal_runtime)
                                  ["open"; "partial"] unread)) Hbad)).
  - refine (proj2 (proj1 (proj2 (proj2 (proj2
              (outstanding_quantity_trigger (H:=decimal_runtime)
                 ["open"; "partial"] unread))))
              pos _ eq_refl Hflag _) Hbad).
    apply list_elem_of_further, list_elem_of_here.
Defined.

(** C8: with every filter left empty (no date range, nothing selected for
    category, vendor, buyer or status) the filters return both tables as
    they came in, same rows in the same order. *)
Theorem unset_filters_identity (prs pos : DataFrame) (f : Filters) :
  rng_unset (pr_date_rng f) = true → rng_unset (po_date_rng f) = true →
  categories_filter f = [] → vendor_filter f = [] → buyer_filter f = [] →
  status_filter_pr f = [] → status_filter_po f = [] →
  apply_filters prs pos f = Ok (prs, pos).
Proof.
  intros Hpr Hpo Hcat Hven Hbuy Hspr Hspo. unfold apply_filters.
  assert (Hoff : ∀ (df : DataFrame) col rng,
            rng_unset rng = true → within_date df col rng = Ok df).
  { intros df col rng Hrng. apply within_date_inactive. right.
    by destruct rng as [[|? ?]|]. }
  rewrite (Hoff prs _ _ Hpr), (Hoff pos _ _ Hpo). simpl.
  rewrite Hcat, Hven, Hbuy, Hspr, Hspo.
  unfold filter_isin. simpl. reflexivity.
Qed.

Lemma unset_filters_identity_witness :
  let prs := mkDataFrame ["PR_Number"; "PR_Date"; "Category"]
               [[("PR_Number", VStr "PR2"); ("PR_Date", VDate 20); ("Category", VNone)];
                [("PR_Number", VStr "PR1"); ("PR_Date", VNaT); ("Category", VStr "MRO")]] in
  let pos := mkDataFrame ["PO_Number"; "Vendor"]
               [[("PO_Number", VInt 7); ("Vendor", VStr "Acme")]] in
  apply_filters prs pos (mkFilters None (Some []) [] [] [] [] []) = Ok (prs, pos).
Proof.
  intros prs pos. apply unset_filters_identity; reflexivity.
Defined.

(** C9 as the specification words it does not hold: a date read from a
    text with a UTC offset is a timezone-aware Timestamp, and comparing it
    with the naive bounds of the range raises.  With a category selection
    that keeps no row, category-then-date returns the emptied table while
    date-then-category raises. *)
Lemma aware_dates_counterexample :
  ¬ (∀ (R : PyRuntime) (config : Config) (prs_df pos_df : option DataFrame)
       (pr_map po_map : gmap string string) (cfg : Config)
       (m : gmap string Z) (prs pos : DataFrame)
       (cats : list string) (rng : option (list Z)),
       compute_metrics config prs_df pos_df pr_map po_map cfg = Ok (m, prs, pos) →
       within_date (filter_isin "Category" cats prs) "PR_Date" rng
       = filter_isin "Category" cats <$> within_date prs "PR_Date" rng).
Proof.
  intros Hclaim.
  destruct (compute_metrics_total (H:=decimal_runtime)
              (mkConfig None None None None)
              (Some (mkDataFrame ["No"; "When"; "Kind"]
                       [[("No", VStr "PR1"); ("When", VStr "2024-01-15T00:00:00Z");
                         ("Kind", VStr "Services")]]))
              None
              {["PR_Number" := "No"; "PR_Date" := "When"; "Category" := "Kind"]} ∅
              (mkConfig None None None None)
              (mkDataFrame ["PR_Number"; "PR_Date"; "Category"]
                 [[("PR_Number", VStr "PR1");
                   ("PR_Date", VDate (mkTimestamp 20240115000000 true));
                   ("Category", VStr "Services")]])
              DataFrame_new)
    as (m & prs & pos & Hrun); [vm_compute; reflexivity|reflexivity|reflexivity|].
  specialize (Hclaim decimal_runtime _ _ _ _ _ _ m prs pos ["MRO"]
                (Some [20240101000000; 20240131000000]%Z) Hrun).
  apply compute_metrics_inv in Hrun
    as [(Hnone & _)|(uprs & upos & Huprs & Hupos & -> & _)]; [discriminate|].
  vm_compute in Huprs. injection Huprs as <-.
  vm_compute in Hupos. injection Hupos as <-.
  vm_compute in Hclaim. discriminate.
Qed.

(** C9, amended: on the annotated tables of an aggregation pass, for every
    category selection and every date range, whenever the date filter
    applied to the whole table returns, the category filter followed by
    the date filter returns too and gives the same table, rows and order
    alike, as the date filter followed by the category filter; and both
    orders return when the date column of the table holds no timezone-aware
    Timestamp. *)
Theorem category_date_filters_commute `{PyRuntime} (config : Config)
    (prs_df pos_df : option DataFrame) (pr_map po_map : gmap string string)
    (cfg : Config) (m : gmap string Z) (prs pos : DataFrame)
    (cats : list string) (rng : option (list Z)) :
  compute_metrics config prs_df pos_df pr_map po_map cfg = Ok (m, prs, pos) →
  (∀ out, within_date prs "PR_Date" rng = Ok out →
          within_date (filter_isin "Category" cats prs) "PR_Date" rng
          = Ok (filter_isin "Category" cats out))
  ∧ (∀ out, within_date pos "PO_Date" rng = Ok out →
            within_date (filter_isin "Category" cats pos) "PO_Date" rng
            = Ok (filter_isin "Category" cats out))
  ∧ (no_aware_date "PR_Date" prs →
     ∃ out, within_date prs "PR_Date" rng = Ok out
            ∧ within_date (filter_isin "Category" cats prs) "PR_Date" rng
              = Ok (filter_isin "Category" cats out))
  ∧ (no_aware_date "PO_Date" pos →
     ∃ out, within_date pos "PO_Date" rng = Ok out
            ∧ within_date (filter_isin "Category" cats pos) "PO_Date" rng
              = Ok (filter_isin "Category" cats out)).
Proof.
  intros Hrun.
  split; [intros out; apply category_date_commute|].
  split; [intros out; apply category_date_commute|].
  split.
  - intros Hnaive.
    destruct (annotated_date_typed _ _ _ _ _ _ _ _ _ "PR_Date" (or_introl eq_refl) Hrun)
      as [Hprs _].
    destruct (within_date_total prs "PR_Date" rng) as [out Hout].
    { intros Hcol. apply date_typed_naive; auto. }
    exists out. split; [done|]. by apply category_date_commute.
  - intros Hnaive.
    destruct (annotated_date_typed _ _ _ _ _ _ _ _ _ "PO_Date" (or_intror eq_refl) Hrun)
      as [_ Hpos].
    destruct (within_date_total pos "PO_Date" rng) as [out Hout].
    { intros Hcol. apply date_typed_naive; auto. }
    exists out. split; [done|]. by apply category_date_commute.
Qed.

Lemma category_date_filters_commute_witness :
  ∃ m prs pos,
    compute_metrics (H:=decimal_runtime)
      (mkConfig None None None None)
      (Some (mkDataFrame ["No"; "When"; "Kind"]
               [[("No", VStr "PR1"); ("When", VInt 10); ("Kind", VStr "MRO")];
                [("No", VStr "PR2"); ("When", VInt 15); ("Kind", VStr "Services")];
                [("No", VStr "PR3"); ("When", VInt 30); ("Kind", VStr "MRO")];
                [("No", VStr "PR4"); ("When", VStr "n/a"); ("Kind", VStr "MRO")]]))
      None
      {["PR_Number" := "No"; "PR_Date" := "When"; "Category" := "Kind"]} ∅
      (mkConfig (Some "dd-mm-yyyy") None None None) = Ok (m, prs, pos)
    ∧ ∃ out, within_date prs "PR_Date" (Some [10; 20]%Z) = Ok out
             ∧ within_date (filter_isin "Category" ["MRO"] prs) "PR_Date" (Some [10; 20]%Z)
               = Ok (filter_isin "Category" ["MRO"] out).
Proof.
  destruct (compute_metrics_total (H:=decimal_runtime)
              (mkConfig None None None None)
              (Some (mkDataFrame ["No"; "When"; "Kind"]
                       [[("No", VStr "PR1"); ("When", VInt 10); ("Kind", VStr "MRO")];
                        [("No", VStr "PR2"); ("When", VInt 15); ("Kind", VStr "Services")];
                        [("No", VStr "PR3"); ("When", VInt 30); ("Kind", VStr "MRO")];
                        [("No", VStr "PR4"); ("When", VStr "n/a"); ("Kind", VStr "MRO")]]))
              None
              {["PR_Number" := "No"; "PR_Date" := "When"; "Category" := "Kind"]} ∅
              (mkConfig (Some "dd-mm-yyyy") None None None)
              (mkDataFrame ["PR_Number"; "PR_Date"; "Category"]
                 [[("PR_Number", VStr "PR1"); ("PR_Date", VDate 10); ("Category", VStr "MRO")];
                  [("PR_Number", VStr "PR2"); ("PR_Date", VDate 15);
                   ("Category", VStr "Services")];
                  [("PR_Number", VStr "PR3"); ("PR_Date", VDate 30); ("Category", VStr "MRO")];
                  [("PR_Number", VStr "PR4"); ("PR_Date", VNaT); ("Category", VStr "MRO")]])
              DataFrame_new)
    as (m & prs & pos & Hrun); [vm_compute; reflexivity|reflexivity|reflexivity|].
  exists m, prs, pos. split; [exact Hrun|].
  apply (proj1 (proj2 (proj2 (category_date_filters_commute (H:=decimal_runtime)
                                _ _ _ _ _ _ m prs pos ["MRO"] (Some [10; 20]%Z) Hrun)))).
  destruct (compute_metrics_inv _ _ _ _ _ _ _ _ _ Hrun)
    as [(Hnone & _)|(uprs & upos & Huprs & _ & Hprs & _)]; [discriminate|].
  vm_compute in Huprs. injection Huprs as <-. rewrite Hprs.
  unfold no_aware_date. rewrite rows_flag_open_prs.
  repeat (apply Forall_cons; split;
          [intros t Ht; vm_compute in Ht; try discriminate; by injection Ht as <-|]).
  apply Forall_nil. done.
Defined.

(** The two orders on an annotated table whose date is timezone-aware and
    whose category is not selected. *)
Example aware_dates_either_order :
  let prs := mkDataFrame ["PR_Number"; "PR_Date"; "Category"]
               [[("PR_Number", VStr "PR1");
                 ("PR_Date", VDate (mkTimestamp 20240115000000 true));
                 ("Category", VStr "Services")]] in
  let rng := Some [20240101000000; 20240131000000]%Z in
  within_date (filter_isin "Category" ["MRO"] prs) "PR_Date" rng
  = Ok (mkDataFrame ["PR_Number"; "PR_Date"; "Category"] [])
  ∧ filter_isin "Category" ["MRO"] <$> within_date prs "PR_Date" rng = Raise TypeError.
Proof. split; reflexivity. Qed.

(** The two orders on a concrete annotated table: the rows dated inside
    the range and labelled MRO, whichever filter runs first. *)
Example filters_either_order :
  let prs := mkDataFrame ["PR_Number"; "PR_Date"; "Category"]
               [[("PR_Number", VStr "PR1"); ("PR_Date", VDate 10); ("Category", VStr "MRO")];
                [("PR_Number", VStr "PR2"); ("PR_Date", VDate 15); ("Category", VStr "Services")];
                [("PR_Number", VStr "PR3"); ("PR_Date", VDate 30); ("Category", VStr "MRO")];
                [("PR_Number", VStr "PR4"); ("PR_Date", VNaT); ("Category", VStr "MRO")]] in
  let kept := mkDataFrame ["PR_Number"; "PR_Date"; "Category"]
                [[("PR_Number", VStr "PR1"); ("PR_Date", VDate 10); ("Category", VStr "MRO")]] in
  within_date (filter_isin "Category" ["MRO"] prs) "PR_Date" (Some [10; 20]%Z) = Ok kept
  ∧ filter_isin "Category" ["MRO"] <$> within_date prs "PR_Date" (Some [10; 20]%Z) = Ok kept.
Proof. split; reflexivity. Qed.

(** * Further properties of the code *)

(** ** Text *)

Section TextLemmas.

Lemma lstrip_head (s : string) :
  lstrip s = "" ∨ ∃ c t, lstrip s = String c t ∧ is_space c = false.
Proof.
  induction s as [|c s IH]; simpl; [by left|].
  destruct (is_space c) eqn:Hc; [exact IH|]. right. by eauto.
Qed.

Lemma rstrip_head (c : ascii) (t : string) :
  is_space c = false → ∃ t', rstrip (String c t) = String c t'.
Proof.
  intros Hc. simpl. rewrite Hc. destruct (rstrip t); by eauto.
Qed.

Lemma rstrip_idem (s : string) : rstrip (rstrip s) = rstrip s.
Proof.
  induction s as [|c s IH]; simpl; [done|].
  destruct (rstrip s) as [|d r] eqn:Hr.
  - destruct (is_space c) eqn:Hc; simpl; [done|]. by rewrite Hc.
  - simpl. simpl in IH. by rewrite IH.
Qed.

Lemma strip_idem (s : string) : strip (strip s) = strip s.
Proof.
  unfold strip.
  destruct (lstrip_head s) as [->|(c & t & -> & Hc)]; [done|].
  destruct (rstrip_head c t Hc) as [t' Ht']. rewrite Ht'.
  simpl lstrip. rewrite Hc. rewrite <- Ht'. apply rstrip_idem.
Qed.

Lemma lstrip_no_comma (s : string) : no_comma s = true → no_comma (lstrip s) = true.
Proof.
  induction s as [|c s IH]; simpl; [done|].
  intros Hs. apply andb_true_iff in Hs as [Hc Hs'].
  destruct (is_space c); [by apply IH|]. simpl. by rewrite Hc, Hs'.
Qed.

Lemma rstrip_no_comma (s : string) : no_comma s = true → no_comma (rstrip s) = true.
Proof.
  induction s as [|c s IH]; simpl; [done|].
  intros Hs. apply andb_true_iff in Hs as [Hc Hs'].
  specialize (IH Hs'). destruct (rstrip s) as [|d r].
  - destruct (is_space c); simpl; [done|]. by rewrite Hc.
  - simpl in *. by rewrite Hc, IH.
Qed.

Lemma strip_no_comma (s : string) : no_comma s = true → no_comma (strip s) = true.
Proof. intros Hs. by apply rstrip_no_comma, lstrip_no_comma. Qed.

Lemma strip_blank_prefix (s : string) : strip (String " " s) = strip s.
Proof. reflexivity. Qed.

Lemma split_comma_cons (text : string) : ∃ piece pieces, split_comma text = piece :: pieces.
Proof.
  induction text as [|c text (piece & pieces & IH)]; simpl; [by eauto|].
  destruct (Ascii.eqb c ","); [by eauto|]. rewrite IH. by eauto.
Qed.

Lemma split_comma_no_comma (text : string) :
  Forall (fun piece => no_comma piece = true) (split_comma text).
Proof.
  induction text as [|c text IH]; simpl; [by repeat constructor|].
  destruct (Ascii.eqb c ",") eqn:Hc; [by constructor|].
  destruct (split_comma text) as [|piece pieces]; [by repeat constructor; simpl; rewrite Hc|].
  apply Forall_cons in IH as [Hp Hps]. constructor; [|done].
  simpl. by rewrite Hc, Hp.
Qed.

Lemma split_comma_clean (s : string) : no_comma s = true → split_comma s = [s].
Proof.
  induction s as [|c s IH]; simpl; [done|].
  intros Hs. apply andb_true_iff in Hs as [Hc Hs'].
  apply negb_true_iff in Hc. rewrite Hc, (IH Hs'). done.
Qed.

Lemma split_comma_append (s rest : string) :
  no_comma s = true →
  split_comma (s +:+ String "," rest) = s :: split_comma rest.
Proof.
  induction s as [|c s IH]; simpl; [done|].
  intros Hs. apply andb_true_iff in Hs as [Hc Hs'].
  apply negb_true_iff in Hc. rewrite Hc, (IH Hs'). done.
Qed.

Lemma parse_statuses_blank_prefix (text : string) :
  parse_statuses (String " " text) = parse_statuses text.
Proof.
  unfold parse_statuses. simpl.
  destruct (split_comma_cons text) as (piece & pieces & ->). done.
Qed.

Lemma parse_statuses_cons (s rest : string) :
  clean_status s →
  parse_statuses (s +:+ String "," rest) = s :: parse_statuses rest.
Proof.
  intros (Hne & Hstrip & Hcomma). unfold parse_statuses.
  rewrite split_comma_append by done. simpl. rewrite Hstrip.
  destruct (String.eqb s "") eqn:Hs; [by apply String.eqb_eq in Hs|done].
Qed.

Lemma parse_statuses_join (statuses : list string) :
  Forall clean_status statuses → parse_statuses (join_comma statuses) = statuses.
Proof.
  induction 1 as [|s rest Hs Hrest IH]; [done|].
  destruct rest as [|s' rest].
  - destruct Hs as (Hne & Hstrip & Hcomma). simpl. unfold parse_statuses.
    rewrite split_comma_clean by done. simpl. rewrite Hstrip.
    destruct (String.eqb s "") eqn:Hs; [by apply String.eqb_eq in Hs|done].
  - change (join_comma (s :: s' :: rest))
      with (s +:+ String "," (String " " (join_comma (s' :: rest)))).
    rewrite parse_statuses_cons by done.
    by rewrite parse_statuses_blank_prefix, IH.
Qed.

Lemma parse_statuses_clean (text : string) : Forall clean_status (parse_statuses text).
Proof.
  unfold parse_statuses. apply Forall_forall. intros s Hs.
  apply list_elem_of_In, filter_In in Hs as [Hin Hne].
  apply list_elem_of_In, list_elem_of_fmap in Hin as (piece & -> & Hpiece).
  split; [|split].
  - intros Hempty. rewrite Hempty in Hne. done.
  - apply strip_idem.
  - apply strip_no_comma.
    pose proof (split_comma_no_comma text) as Hall.
    rewrite Forall_forall in Hall. by apply Hall.
Qed.

End TextLemmas.

(** X1: every status the settings form saves from a text box is not empty,
    carries no white space at its ends and contains no comma, whatever was
    typed. *)
Theorem saved_statuses_clean (text : string) :
  Forall clean_status (parse_statuses text)
  ∧ ∀ s, s ∈ parse_statuses text → ∃ piece, piece ∈ split_comma text ∧ s = strip piece.
Proof.
  split; [apply parse_statuses_clean|].
  intros s Hs. unfold parse_statuses in Hs.
  apply list_elem_of_In, filter_In in Hs as [Hin _].
  apply list_elem_of_In, list_elem_of_fmap in Hin as (piece & -> & Hpiece).
  by eauto.
Qed.

(** X2: a list of clean statuses survives the round trip through the
    settings box: shown with ", " between the items and saved again, it
    comes back item for item. *)
Theorem statuses_round_trip (statuses : list string) :
  Forall clean_status statuses → parse_statuses (join_comma statuses) = statuses.
Proof. apply parse_statuses_join. Qed.

Lemma statuses_round_trip_witness :
  parse_statuses (join_comma ["Open"; "Pending"; "In Progress"])
  = ["Open"; "Pending"; "In Progress"].
Proof.
  apply statuses_round_trip.
  repeat constructor; try done; by intros [=].
Defined.

(** X3: saving is stable: whatever was typed, showing the saved list and
    saving it again changes nothing. *)
Theorem saving_statuses_stable (text : string) :
  parse_statuses (join_comma (parse_statuses text)) = parse_statuses text.
Proof. apply parse_statuses_join, parse_statuses_clean. Qed.

(** ** Category mapping sheet and editor *)

Section LookupTable.
Context `{PyRuntime}.

Lemma strip_label (cat : string) : cat ∈ CATEGORIES → strip cat = cat.
Proof.
  unfold CATEGORIES. rewrite !elem_of_cons.
  intros [->|[->|[->|[->|Hn]]]]; try reflexivity. by apply elem_of_nil in Hn.
Qed.

Lemma mapping_entry_Some (r : Series) (key cat : string) :
  mapping_entry r = Some (key, cat) →
  key ≠ "" ∧ strip key = key ∧ cat ∈ CATEGORIES.
Proof.
  unfold mapping_entry.
  destruct (String.eqb _ "") eqn:Hkey; simpl; [done|].
  case_bool_decide as Hcat; [|done]. intros [= <- <-].
  split; [|split; [apply strip_idem|done]].
  intros Hempty. rewrite Hempty in Hkey. done.
Qed.

Lemma mapping_entry_frame_row (key cat : string) :
  key ≠ "" → strip key = key → cat ∈ CATEGORIES →
  mapping_entry [("Key_Field", VStr key); ("Category", VStr cat)] = Some (key, cat).
Proof.
  intros Hne Hkey Hcat. unfold mapping_entry. simpl.
  rewrite Hkey, (strip_label cat Hcat).
  destruct (String.eqb key "") eqn:Hk; [by apply String.eqb_eq in Hk|].
  simpl. by rewrite bool_decide_eq_true_2.
Qed.

(** the entries a list of rows contributes, in row order *)
Lemma load_mapping_rows_entries (rs : list Series) (table : option (gmap string string)) :
  default ∅ (load_mapping_rows rs table)
  = foldl (fun t (e : string * string) => <[e.1 := e.2]> t) (default ∅ table)
      (omap mapping_entry rs).
Proof.
  unfold load_mapping_rows. revert table.
  induction rs as [|r rs IH]; intros table; simpl; [done|].
  destruct (mapping_entry r) as [[key cat]|]; simpl; [|apply IH].
  by rewrite IH.
Qed.

Lemma save_rows_entries (rs : list Series) (new_map : gmap string string) :
  foldl (fun new_map r =>
           match mapping_entry r with
           | Some (key, cat) => <[key := cat]> new_map
           | None => new_map
           end) new_map rs
  = foldl (fun t (e : string * string) => <[e.1 := e.2]> t) new_map (omap mapping_entry rs).
Proof.
  revert new_map. induction rs as [|r rs IH]; intros new_map; simpl; [done|].
  destruct (mapping_entry r) as [[key cat]|]; simpl; apply IH.
Qed.

Lemma foldl_insert_union (entries : list (string * string)) (old : gmap string string) :
  foldl (fun t (e : string * string) => <[e.1 := e.2]> t) old entries
  = list_to_map (reverse entries) ∪ old.
Proof.
  induction entries as [|[key cat] entries IH] using rev_ind; simpl.
  - by rewrite (left_id_L ∅ (∪)).
  - rewrite foldl_app, reverse_app. simpl. rewrite IH.
    by rewrite insert_union_l.
Qed.

Lemma entries_of_rows (rs : list Series) (key cat : string) :
  (key, cat) ∈ omap mapping_entry rs ↔ ∃ r, r ∈ rs ∧ mapping_entry r = Some (key, cat).
Proof. apply list_elem_of_omap. Qed.

Lemma valid_lookup_entries (entries : list (string * string)) (old : gmap string string) :
  Forall (fun e : string * string => e.1 ≠ "" ∧ strip e.1 = e.1 ∧ e.2 ∈ CATEGORIES) entries →
  valid_lookup old →
  valid_lookup (list_to_map (reverse entries) ∪ old).
Proof.
  intros Hentries Hold key cat Hlook.
  apply lookup_union_Some_raw in Hlook as [Hnew|[_ Hkeep]]; [|by apply Hold].
  apply elem_of_list_to_map_2 in Hnew. rewrite elem_of_reverse in Hnew.
  rewrite Forall_forall in Hentries. apply (Hentries (key, cat) Hnew).
Qed.

Lemma entries_valid (rs : list Series) :
  Forall (fun e : string * string => e.1 ≠ "" ∧ strip e.1 = e.1 ∧ e.2 ∈ CATEGORIES)
    (omap mapping_entry rs).
Proof.
  apply Forall_forall. intros [key cat] Hin.
  apply entries_of_rows in Hin as (r & _ & Hr). by apply mapping_entry_Some in Hr.
Qed.

Lemma mapping_frame_entries (items : list (string * string)) :
  Forall (fun e : string * string => e.1 ≠ "" ∧ strip e.1 = e.1 ∧ e.2 ∈ CATEGORIES) items →
  omap mapping_entry
    ((fun item : string * string =>
        [("Key_Field", VStr item.1); ("Category", VStr item.2)]) <$> items)
  = items.
Proof.
  induction 1 as [|[key cat] items (Hne & Hkey & Hcat) _ IH]; [done|].
  cbn [omap list_omap fmap list_fmap fst snd] in *.
  rewrite mapping_entry_frame_row by done. f_equal. exact IH.
Qed.

Lemma sorted_items_table (table : gmap string string) :
  list_to_map (reverse (merge_sort item_le (map_to_list table))) = table.
Proof.
  rewrite <- (list_to_map_to_list table) at 2.
  apply list_to_map_proper.
  - rewrite reverse_Permutation, merge_sort_Permutation.
    apply NoDup_fst_map_to_list.
  - by rewrite reverse_Permutation, merge_sort_Permutation.
Qed.

Lemma sorted_items_valid (table : gmap string string) :
  valid_lookup table →
  Forall (fun e : string * string => e.1 ≠ "" ∧ strip e.1 = e.1 ∧ e.2 ∈ CATEGORIES)
    (merge_sort item_le (map_to_list table)).
Proof.
  intros Hvalid. apply Forall_forall. intros [key cat] Hin.
  rewrite merge_sort_Permutation in Hin.
  apply elem_of_map_to_list in Hin. by apply Hvalid.
Qed.

End LookupTable.

(** X4: whatever rows the editor holds, "Save Category Mapping" leaves a
    valid lookup table: keys not empty and trimmed, values among the four
    labels.  Every entry of the saved table comes from a row of the editor
    (nothing of the previous table survives) and the other settings are
    untouched. *)
Theorem editor_saves_valid_lookup `{PyRuntime} (edited : DataFrame) (config : Config) :
  ∃ table,
    category_mapping (save_category_mapping edited config) = Some table
    ∧ valid_lookup table
    ∧ (∀ key cat, table !! key = Some cat →
         ∃ r, r ∈ rows edited ∧ mapping_entry r = Some (key, cat))
    ∧ date_format (save_category_mapping edited config) = date_format config
    ∧ pr_open_statuses (save_category_mapping edited config) = pr_open_statuses config
    ∧ po_open_delivery_statuses (save_category_mapping edited config)
      = po_open_delivery_statuses config.
Proof.
  eexists. split; [reflexivity|].
  rewrite save_rows_entries, foldl_insert_union.
  split; [|split; [|done]].
  - apply valid_lookup_entries; [apply entries_valid|]. intros key cat Hlook.
    by rewrite lookup_empty in Hlook.
  - intros key cat Hlook.
    apply lookup_union_Some_raw in Hlook as [Hnew|[_ Hkeep]];
      [|by rewrite lookup_empty in Hkeep].
    apply elem_of_list_to_map_2 in Hnew. rewrite elem_of_reverse in Hnew.
    by apply entries_of_rows.
Qed.

(** X5: importing a Category_Mapping sheet only adds or overwrites entries.
    A valid table stays valid, no key is lost, and a key that no row of the
    sheet contributes keeps its label. *)
Theorem import_extends_lookup `{PyRuntime} (cat_map_df : option DataFrame) (config : Config) :
  let old := default ∅ (category_mapping config) in
  let new := default ∅ (category_mapping (import_category_mapping cat_map_df config)) in
  (valid_lookup old → valid_lookup new)
  ∧ (∀ key, is_Some (old !! key) → is_Some (new !! key))
  ∧ (∀ key, (∀ df r cat, cat_map_df = Some df → r ∈ rows df →
               mapping_entry r ≠ Some (key, cat)) →
            new !! key = old !! key).
Proof.
  intros old new. subst old new. unfold import_category_mapping.
  destruct cat_map_df as [df|]; [|by split; [|split]].
  destruct (negb (df_empty df)); [|by split; [|split]]. simpl.
  rewrite load_mapping_rows_entries, foldl_insert_union.
  split; [|split].
  - apply valid_lookup_entries, entries_valid.
  - intros key [cat Hold]. rewrite lookup_union.
    rewrite Hold. destruct (list_to_map _ !! key); simpl; eauto.
  - intros key Hnone. apply lookup_union_r.
    apply not_elem_of_list_to_map_1. intros Hin.
    apply list_elem_of_fmap in Hin as ([key' cat] & -> & Hin).
    rewrite elem_of_reverse in Hin. apply entries_of_rows in Hin as (r & Hr & Hentry).
    by eapply Hnone.
Qed.

Lemma import_extends_lookup_witness :
  default ∅ (category_mapping
               (import_category_mapping (H:=decimal_runtime)
                  (Some (mkDataFrame ["Key_Field"; "Category"]
                           [[("Key_Field", VStr " B "); ("Category", VStr "PCM")]]))
                  (mkConfig None None None (Some {["A" := "MRO"]})))) !! "A"
  = Some "MRO".
Proof.
  rewrite (proj2 (proj2 (import_extends_lookup (H:=decimal_runtime)
                           (Some (mkDataFrame ["Key_Field"; "Category"]
                                    [[("Key_Field", VStr " B "); ("Category", VStr "PCM")]]))
                           (mkConfig None None None (Some {["A" := "MRO"]})))) "A").
  - reflexivity.
  - intros df r cat [= <-] Hr. simpl in Hr.
    apply list_elem_of_singleton in Hr as ->. vm_compute. discriminate.
Defined.

(** X6: the frame the editor shows for a valid lookup table, saved as it
    is, gives the table back; importing that frame into a configuration
    whose table holds nothing beyond it gives the table too. *)
Theorem lookup_table_round_trip `{PyRuntime} (table : gmap string string) (config : Config) :
  valid_lookup table →
  category_mapping (save_category_mapping (mapping_frame table) config) = Some table
  ∧ (default ∅ (category_mapping config) ⊆ table →
     default ∅ (category_mapping
                  (import_category_mapping (Some (mapping_frame table)) config))
     = table).
Proof.
  intros Hvalid.
  pose proof (mapping_frame_entries _ (sorted_items_valid table Hvalid)) as Hentries.
  split.
  - unfold save_category_mapping. simpl. f_equal.
    rewrite save_rows_entries, Hentries, foldl_insert_union, sorted_items_table.
    by rewrite (right_id_L ∅ (∪)).
  - intros Hsub. unfold import_category_mapping.
    destruct (negb (df_empty (mapping_frame table))) eqn:Hempty; simpl.
    + rewrite load_mapping_rows_entries. simpl. rewrite Hentries.
      rewrite foldl_insert_union, sorted_items_table.
      apply map_eq. intros key. rewrite lookup_union.
      destruct (default ∅ (category_mapping config) !! key) as [cat|] eqn:Hold.
      * rewrite (lookup_weaken _ _ _ _ Hold Hsub). done.
      * by destruct (table !! key).
    + apply negb_false_iff in Hempty. unfold df_empty, mapping_frame in Hempty.
      simpl in Hempty. apply bool_decide_eq_true in Hempty.
      apply fmap_nil_inv in Hempty.
      assert (Hnil : map_to_list table = []).
      { apply Permutation_nil_r. by rewrite <- Hempty, merge_sort_Permutation. }
      apply map_to_list_empty_iff in Hnil. subst table.
      apply map_eq. intros key. rewrite lookup_empty.
      destruct (default ∅ (category_mapping config) !! key) as [cat|] eqn:Hold; [|done].
      pose proof (lookup_weaken _ _ _ _ Hold Hsub) as Hnone.
      by rewrite lookup_empty in Hnone.
Qed.

Lemma lookup_table_round_trip_witness :
  category_mapping
    (save_category_mapping (H:=decimal_runtime)
       (mapping_frame {["STEEL-01" := "MRO"; "ACME" := "PCM"]})
       (mkConfig None None None None))
  = Some {["STEEL-01" := "MRO"; "ACME" := "PCM"]}.
Proof.
  apply (lookup_table_round_trip (H:=decimal_runtime)).
  intros key cat Hlook.
  apply lookup_insert_Some in Hlook as [[<- <-]|[_ Hlook]].
  { split; [done|split; [reflexivity|]]. unfold CATEGORIES. set_solver. }
  apply lookup_singleton_Some in Hlook as [<- <-].
  split; [done|split; [reflexivity|]]. unfold CATEGORIES. set_solver.
Defined.

(** X7: on a valid lookup table the label test of the resolver's second
    tier never rejects: for a mapped key field the tier returns exactly what
    the table holds for the row's trimmed cell. *)
Theorem valid_lookup_key_field `{PyRuntime} (row : Series)
    (mapping cfg_mapping : gmap string string) (key_field : string) :
  valid_lookup cfg_mapping →
  lookup_key_field row mapping cfg_mapping key_field
  = if is_mapped (mapping !! key_field)
    then cfg_mapping
           !! strip (py_str (Series_get row (default "" (mapping !! key_field)) (VStr "")))
    else None.
Proof.
  intros Hvalid. unfold lookup_key_field.
  destruct (is_mapped (mapping !! key_field)); [|done].
  destruct (cfg_mapping !! _) as [cat|] eqn:Hlook; [|done].
  apply Hvalid in Hlook as (_ & _ & Hcat). by rewrite bool_decide_eq_true_2.
Qed.

Lemma valid_lookup_key_field_witness :
  lookup_key_field (H:=decimal_runtime) [("Grp", VStr " STEEL-01")]
    {["Material_Group" := "Grp"]} {["STEEL-01" := "MRO"]} "Material_Group" = Some "MRO".
Proof.
  rewrite (valid_lookup_key_field (H:=decimal_runtime)); [reflexivity|].
  intros key cat Hlook. apply lookup_singleton_Some in Hlook as [<- <-].
  split; [done|split; [reflexivity|]]. unfold CATEGORIES. set_solver.
Defined.

(** ** Aggregation: counts, columns, errors *)

Section Counts.
Context `{PyRuntime}.

Lemma mapM_Ok_length {A B} (g : A → res B) (l : list A) (out : list B) :
  mapM g l = Ok out → length out = length l.
Proof. intros Hout. apply mapM_Ok_Forall2, Forall2_length in Hout. done. Qed.

Lemma length_column (col : string) (df : DataFrame) :
  length (column col df) = length (rows df).
Proof. unfold column. apply length_fmap. Qed.

Lemma length_rows_setitem (col : string) (vals : list value) (df : DataFrame) :
  length vals = length (rows df) →
  length (rows (setitem col vals df)) = length (rows df).
Proof. intros Hlen. unfold setitem; simpl. rewrite length_zip_with. lia. Qed.

Lemma columns_setitem_nonempty (col : string) (vals : list value) (df : DataFrame) :
  columns (setitem col vals df) ≠ [].
Proof.
  unfold setitem; simpl. destruct (has_column col df) eqn:Hcol.
  - apply bool_decide_eq_true in Hcol. intros Hnil. rewrite Hnil in Hcol.
    by apply elem_of_nil in Hcol.
  - intros Hnil. by apply app_eq_nil in Hnil as [_ ?].
Qed.

Lemma df_empty_false (df : DataFrame) :
  df_empty df = false ↔ columns df ≠ [] ∧ rows df ≠ [].
Proof.
  unfold df_empty. rewrite orb_false_iff, !bool_decide_eq_false. done.
Qed.

Lemma df_empty_with_columns (df : DataFrame) :
  columns df ≠ [] → df_empty df = bool_decide (rows df = []).
Proof.
  intros Hcols. unfold df_empty. by rewrite (bool_decide_eq_false_2 _ Hcols).
Qed.

Lemma apply_column_shape (f : value → res value) (col : string) (df out : DataFrame) :
  apply_column f col df = Ok out →
  length (rows out) = length (rows df) ∧ columns out ≠ [].
Proof.
  unfold apply_column.
  destruct (mapM f (column col df)) as [vals|e] eqn:Hvals; simpl; [|done].
  intros [= <-]. apply mapM_Ok_length in Hvals. rewrite length_column in Hvals.
  split; [by apply length_rows_setitem|apply columns_setitem_nonempty].
Qed.

Lemma unify_shape (cfg : Config) (df u : DataFrame) (mapping : gmap string string)
    (required optional : list string) :
  unify cfg df mapping required optional = Ok u →
  length (rows u) = length (rows df) ∧ (columns df ≠ [] → columns u ≠ []).
Proof.
  unfold unify. destruct (df_empty df); [by intros [= <-]|].
  set (d1 := rename _ df).
  assert (Hd1 : length (rows d1) = length (rows df) ∧ (columns df ≠ [] → columns d1 ≠ [])).
  { unfold d1, rename; simpl. rewrite length_fmap. split; [done|].
    intros Hne Hnil. by apply fmap_nil_inv in Hnil. }
  destruct Hd1 as [Hlen Hcols].
  destruct (has_column "PR_Date" d1); simpl.
  - destruct (apply_column _ "PR_Date" d1) as [d2|e] eqn:H2; simpl; [|done].
    apply apply_column_shape in H2 as [Hlen2 Hcols2].
    destruct (has_column "PO_Date" d2); simpl.
    + destruct (apply_column _ "PO_Date" d2) as [d3|e] eqn:H3; simpl; [|done].
      apply apply_column_shape in H3 as [Hlen3 Hcols3].
      intros [= <-]. split; [congruence|done].
    + intros [= <-]. split; [congruence|done].
  - destruct (has_column "PO_Date" d1); simpl.
    + destruct (apply_column _ "PO_Date" d1) as [d3|e] eqn:H3; simpl; [|done].
      apply apply_column_shape in H3 as [Hlen3 Hcols3].
      intros [= <-]. split; [congruence|done].
    + intros [= <-]. done.
Qed.

Lemma derive_missing_category_shape (mapping cfg_map : gmap string string) (df : DataFrame) :
  length (rows (derive_missing_category mapping cfg_map df)) = length (rows df)
  ∧ (columns df ≠ [] → columns (derive_missing_category mapping cfg_map df) ≠ []).
Proof.
  unfold derive_missing_category. destruct (negb _ && negb _); [|done].
  split; [|intros _; apply columns_setitem_nonempty].
  by rewrite rows_setitem_apply, length_fmap.
Qed.

Lemma flag_open_delivery_length (open_statuses : list string) (pos out : DataFrame) :
  flag_open_delivery open_statuses pos = Ok out →
  length (rows out) = length (rows pos).
Proof.
  intros Hout. destruct (flag_open_delivery_total open_statuses pos) as (out' & Hout' & Hlen).
  congruence.
Qed.

Lemma count_true_bounds (vals : list value) :
  (0 ≤ count_true vals ≤ Z.of_nat (length vals))%Z.
Proof.
  unfold count_true. split; [lia|]. apply inj_le.
  induction vals as [|v vals IH]; simpl; [done|].
  destruct v as [|[|]| | | | |]; simpl; lia.
Qed.

Lemma metric_kpis_total_prs (prs pos : DataFrame) :
  metric (kpis prs pos) "Total PRs"
  = if negb (df_empty prs) then Z.of_nat (length (rows prs)) else 0%Z.
Proof. unfold metric, kpis. rewrite !lookup_insert. by repeat case_decide. Qed.

Lemma metric_kpis_total_pos (prs pos : DataFrame) :
  metric (kpis prs pos) "Total POs"
  = if negb (df_empty pos) then Z.of_nat (length (rows pos)) else 0%Z.
Proof. unfold metric, kpis. rewrite !lookup_insert. by repeat case_decide. Qed.

Lemma metric_kpis_open_prs (prs pos : DataFrame) :
  metric (kpis prs pos) "Open PRs"
  = if has_column "Is_Open_PR" prs then count_true (column "Is_Open_PR" prs) else 0%Z.
Proof. unfold metric, kpis. rewrite !lookup_insert. by repeat case_decide. Qed.

Lemma metric_kpis_open_delivery (prs pos : DataFrame) :
  metric (kpis prs pos) "Open Delivery POs"
  = if has_column "Is_Open_Delivery_PO" pos
    then count_true (column "Is_Open_Delivery_PO" pos) else 0%Z.
Proof.
  unfold metric, kpis. rewrite !lookup_insert, lookup_singleton. by repeat case_decide.
Qed.

Lemma total_of_rows (df : DataFrame) :
  (columns df = [] → rows df = []) →
  (if negb (df_empty df) then Z.of_nat (length (rows df)) else 0%Z)
  = Z.of_nat (length (rows df)).
Proof.
  intros Hwf. destruct (df_empty df) eqn:Hempty; simpl; [|done].
  unfold df_empty in Hempty. apply orb_true_iff in Hempty.
  rewrite !bool_decide_eq_true in Hempty.
  destruct Hempty as [Hc|Hr]; [rewrite (Hwf Hc)|rewrite Hr]; done.
Qed.

Lemma flagged_prs_total (open_statuses : list string) (linked_prs : gset string)
    (prs : DataFrame) :
  (if negb (df_empty (flag_open_prs open_statuses linked_prs prs))
   then Z.of_nat (length (rows (flag_open_prs open_statuses linked_prs prs))) else 0%Z)
  = Z.of_nat (length (rows prs)).
Proof.
  rewrite total_of_rows.
  - by rewrite rows_flag_open_prs, length_fmap.
  - intros Hnil. by apply columns_setitem_nonempty in Hnil.
Qed.

(** the PO side of a pass keeps the shape of its input *)
Lemma flagged_pos_shape (cfg : Config) (q upos out : DataFrame)
    (po_map cfg_map : gmap string string) (open_statuses : list string) :
  unify cfg q po_map REQUIRED_POS_FIELDS OPTIONAL_POS_FIELDS = Ok upos →
  flag_open_delivery open_statuses (derive_missing_category po_map cfg_map upos) = Ok out →
  length (rows out) = length (rows q)
  ∧ ((columns q = [] → rows q = []) → columns out = [] → rows out = []).
Proof.
  intros Hunify Hflag.
  pose proof (unify_shape _ _ _ _ _ _ Hunify) as [Hlen Hcols].
  pose proof (derive_missing_category_shape po_map cfg_map upos) as [Hlen' Hcols'].
  pose proof (flag_open_delivery_length _ _ _ Hflag) as Hlen''.
  split; [congruence|].
  intros Hwf Hnil.
  apply flag_open_delivery_setitem in Hflag as [->|[vals ->]];
    [|by apply columns_setitem_nonempty in Hnil].
  destruct (decide (columns q = [])) as [Hq|Hq].
  - apply length_zero_iff_nil. rewrite Hlen', Hlen, (Hwf Hq). done.
  - by destruct (Hcols' (Hcols Hq)).
Qed.

End Counts.

(** X8: a pass keeps every row: each annotated table has as many rows as
    the table it was given (none for an absent table), Total PRs is the
    number of PR rows, and Total POs is the number of PO rows of a PO table
    that has columns whenever it has rows. *)
Theorem totals_count_input_rows `{PyRuntime} (config : Config)
    (prs_df pos_df : option DataFrame) (pr_map po_map : gmap string string)
    (cfg : Config) (m : gmap string Z) (prs pos : DataFrame) :
  compute_metrics config prs_df pos_df pr_map po_map cfg = Ok (m, prs, pos) →
  length (rows prs) = length (rows (default DataFrame_new prs_df))
  ∧ length (rows pos) = length (rows (default DataFrame_new pos_df))
  ∧ metric m "Total PRs" = Z.of_nat (length (rows (default DataFrame_new prs_df)))
  ∧ ((columns (default DataFrame_new pos_df) = [] → rows (default DataFrame_new pos_df) = []) →
     metric m "Total POs" = Z.of_nat (length (rows (default DataFrame_new pos_df)))).
Proof.
  intros Hrun.
  apply compute_metrics_inv in Hrun
    as [(-> & -> & -> & -> & ->)|(uprs & upos & Huprs & Hupos & Hprs & Hflag & ->)].
  { done. }
  pose proof (unify_shape _ _ _ _ _ _ Huprs) as [Hlen _].
  pose proof (derive_missing_category_shape pr_map
                (default ∅ (category_mapping config)) uprs) as [Hlen' _].
  pose proof (flagged_pos_shape _ _ _ _ _ _ _ Hupos Hflag) as [Hqlen Hqwf].
  assert (Hrows : length (rows prs) = length (rows (default DataFrame_new prs_df))).
  { rewrite Hprs, rows_flag_open_prs, length_fmap. congruence. }
  split; [done|]. split; [done|]. split.
  - rewrite metric_kpis_total_prs, Hprs, flagged_prs_total. congruence.
  - intros Hwf. rewrite metric_kpis_total_pos, total_of_rows by auto. congruence.
Qed.

Lemma totals_count_input_rows_witness :
  ∃ m prs pos,
    compute_metrics (H:=decimal_runtime) (mkConfig None None None None)
      (Some (mkDataFrame ["No"; "When"]
               [[("No", VStr "PR1"); ("When", VInt 3)];
                [("No", VStr "PR2"); ("When", VStr "?")]]))
      None {["PR_Number" := "No"; "PR_Date" := "When"]} ∅
      (mkConfig None None None None) = Ok (m, prs, pos)
    ∧ length (rows prs) = 2 ∧ metric m "Total PRs" = 2%Z ∧ metric m "Total POs" = 0%Z.
Proof.
  destruct (compute_metrics_total (H:=decimal_runtime) (mkConfig None None None None)
              (Some (mkDataFrame ["No"; "When"]
                       [[("No", VStr "PR1"); ("When", VInt 3)];
                        [("No", VStr "PR2"); ("When", VStr "?")]]))
              None {["PR_Number" := "No"; "PR_Date" := "When"]} ∅
              (mkConfig None None None None)
              (mkDataFrame ["PR_Number"; "PR_Date"]
                 [[("PR_Number", VStr "PR1"); ("PR_Date", VDate 3)];
                  [("PR_Number", VStr "PR2"); ("PR_Date", VNaT)]])
              DataFrame_new)
    as (m & prs & pos & Hrun); [vm_compute; reflexivity|reflexivity|reflexivity|].
  exists m, prs, pos. split; [exact Hrun|].
  destruct (totals_count_input_rows (H:=decimal_runtime) _ _ _ _ _ _ m prs pos Hrun)
    as (Hprs & _ & Htotal & Hpos).
  split; [exact Hprs|]. split; [exact Htotal|]. by apply Hpos.
Defined.

(** X9: the open counts never exceed the totals: Open PRs lies between 0
    and Total PRs, Open Delivery POs between 0 and Total POs. *)
Theorem open_counts_bounded `{PyRuntime} (config : Config)
    (prs_df pos_df : option DataFrame) (pr_map po_map : gmap string string)
    (cfg : Config) (m : gmap string Z) (prs pos : DataFrame) :
  compute_metrics config prs_df pos_df pr_map po_map cfg = Ok (m, prs, pos) →
  (0 ≤ metric m "Open PRs" ≤ metric m "Total PRs")%Z
  ∧ (0 ≤ metric m "Open Delivery POs" ≤ metric m "Total POs")%Z.
Proof.
  intros Hrun.
  apply compute_metrics_inv in Hrun
    as [(-> & -> & -> & -> & ->)|(uprs & upos & Huprs & Hupos & Hprs & Hflag & ->)].
  { done. }
  split.
  - rewrite metric_kpis_open_prs, metric_kpis_total_prs. subst prs.
    rewrite has_column_flag_open_prs, flagged_prs_total.
    match goal with
    | |- context [count_true ?c] => pose proof (count_true_bounds c) as Hb
    end.
    by rewrite length_column, rows_flag_open_prs, length_fmap in Hb.
  - rewrite metric_kpis_open_delivery, metric_kpis_total_pos.
    pose proof (count_true_bounds (column "Is_Open_Delivery_PO" pos)) as Hb.
    rewrite length_column in Hb.
    destruct (has_column "Is_Open_Delivery_PO" pos) eqn:Hcol.
    + destruct (df_empty pos) eqn:Hempty; simpl; [|done].
      rewrite (df_empty_has_column _ _ Hempty Hcol) in Hb. simpl in Hb.
      unfold column. rewrite (df_empty_has_column _ _ Hempty Hcol). done.
    + destruct (negb (df_empty pos)); lia.
Qed.

Lemma open_counts_bounded_witness :
  ∃ m prs pos,
    compute_metrics (H:=decimal_runtime) (mkConfig None None None None)
      (Some (mkDataFrame ["PR_Number"; "PR_Status"]
               [[("PR_Number", VStr "PR1"); ("PR_Status", VStr "Closed")];
                [("PR_Number", VStr "PR2"); ("PR_Status", VStr "Open")]]))
      (Some (mkDataFrame ["PR_Number"] [[("PR_Number", VStr "PR1")]]))
      ∅ ∅ (mkConfig None None None None) = Ok (m, prs, pos)
    ∧ (0 ≤ metric m "Open PRs" ≤ metric m "Total PRs")%Z.
Proof.
  destruct (compute_metrics_total (H:=decimal_runtime) (mkConfig None None None None)
              (Some (mkDataFrame ["PR_Number"; "PR_Status"]
                       [[("PR_Number", VStr "PR1"); ("PR_Status", VStr "Closed")];
                        [("PR_Number", VStr "PR2"); ("PR_Status", VStr "Open")]]))
              (Some (mkDataFrame ["PR_Number"] [[("PR_Number", VStr "PR1")]]))
              ∅ ∅ (mkConfig None None None None)
              (mkDataFrame ["PR_Number"; "PR_Status"]
                 [[("PR_Number", VStr "PR1"); ("PR_Status", VStr "Closed")];
                  [("PR_Number", VStr "PR2"); ("PR_Status", VStr "Open")]])
              (mkDataFrame ["PR_Number"] [[("PR_Number", VStr "PR1")]]))
    as (m & prs & pos & Hrun); [vm_compute; reflexivity|vm_compute; reflexivity|reflexivity|].
  exists m, prs, pos. split; [exact Hrun|].
  exact (proj1 (open_counts_bounded (H:=decimal_runtime) _ _ _ _ _ _ m prs pos Hrun)).
Defined.

Section PassShape.
Context `{PyRuntime}.

Lemma parse_date_total (cfg : Config) (s : value) :
  (∀ dayfirst v, ∃ t, to_datetime dayfirst v = Ok t) →
  ∃ v, parse_date cfg s = Ok v.
Proof.
  intros Hreader. unfold parse_date, to_timestamp.
  destruct (isna s); [by eauto|].
  destruct (Hreader true s) as [t1 ->], (Hreader false s) as [t2 ->].
  repeat case_bool_decide; simpl; by eauto.
Qed.

Lemma apply_column_total (f : value → res value) (col : string) (df : DataFrame) :
  (∀ v, ∃ w, f v = Ok w) → ∃ out, apply_column f col df = Ok out.
Proof.
  intros Hf. unfold apply_column.
  assert (Hvals : ∃ vals, mapM f (column col df) = Ok vals).
  { apply mapM_Ok_Forall, Forall_forall. intros v _. apply Hf. }
  destruct Hvals as [vals ->]. simpl. by eauto.
Qed.

Lemma unify_total (cfg : Config) (df : DataFrame) (mapping : gmap string string)
    (required optional : list string) :
  (∀ dayfirst v, ∃ t, to_datetime dayfirst v = Ok t) →
  ∃ u, unify cfg df mapping required optional = Ok u.
Proof.
  intros Hreader. unfold unify. destruct (df_empty df); [by eauto|].
  set (d1 := rename _ df).
  assert (Hstep : ∀ col d, ∃ out,
            (if has_column col d then apply_column (parse_date cfg) col d else mret d)
            = Ok out).
  { intros col d. destruct (has_column col d); [|by eauto].
    apply apply_column_total. intros v. by apply parse_date_total. }
  destruct (Hstep "PR_Date" d1) as [d2 ->]. simpl.
  destruct (Hstep "PO_Date" d2) as [d3 ->]. simpl. by eauto.
Qed.

Lemma has_column_category_derived (mapping cfg_map : gmap string string) (df : DataFrame) :
  df_empty df = false →
  has_column "Category" (derive_missing_category mapping cfg_map df) = true.
Proof.
  intros Hempty. unfold derive_missing_category. rewrite Hempty.
  destruct (has_column "Category" df) eqn:Hcol; simpl; [done|].
  rewrite has_column_setitem. apply orb_true_r.
Qed.

Lemma bool_cells_setitem (col : string) (flags : list bool) (rs : list Series) :
  Forall (fun row : Series => ∃ b, Series_get row col VNone = VBool b)
    (zip_with (Series_set col) (VBool <$> flags) rs).
Proof.
  revert flags. induction rs as [|r rs IH]; intros [|b flags]; simpl; try constructor.
  - rewrite Series_get_set_eq. by eauto.
  - apply IH.
Qed.

Lemma unify_not_empty (cfg : Config) (df u : DataFrame) (mapping : gmap string string)
    (required optional : list string) :
  unify cfg df mapping required optional = Ok u →
  columns df ≠ [] → rows u ≠ [] → df_empty u = false ∧ df_empty df = false.
Proof.
  intros Hunify Hcols Hrows.
  pose proof (unify_shape _ _ _ _ _ _ Hunify) as [Hlen Hcols'].
  split; apply df_empty_false; split; auto.
  intros Hnil. apply Hrows. apply length_zero_iff_nil. by rewrite Hlen, Hnil.
Qed.

Lemma filter_eqb_absent (label : string) (labels : list string) :
  label ∉ labels → List.filter (String.eqb label) labels = [].
Proof.
  induction labels as [|c labels IH]; [done|].
  rewrite not_elem_of_cons. intros [Hne Hrest]. simpl.
  destruct (String.eqb_spec label c) as [->|_]; [done|]. auto.
Qed.

Lemma duplicated_NoDup (label : string) (labels : list string) :
  NoDup labels → duplicated label labels = false.
Proof.
  intros Hnd. unfold duplicated. apply Nat.leb_gt.
  induction Hnd as [|c labels Hc _ IH]; simpl; [lia|].
  destruct (String.eqb_spec label c) as [->|_]; [|done].
  rewrite filter_eqb_absent by done. simpl. lia.
Qed.

Lemma columns_apply_column (f : value → res value) (col : string) (df out : DataFrame) :
  has_column col df = true → apply_column f col df = Ok out → columns out = columns df.
Proof.
  intros Hcol Hout. apply apply_column_setitem in Hout as [vals ->].
  unfold setitem; simpl. by rewrite Hcol.
Qed.

(** [unify] leaves the labels as they are read or as they are renamed. *)
Lemma columns_unify (cfg : Config) (df u : DataFrame) (mapping : gmap string string)
    (required optional : list string) :
  unify cfg df mapping required optional = Ok u →
  columns u = columns df
  ∨ columns u = columns (rename (rename_dict mapping (required ++ optional)) df).
Proof.
  unfold unify. destruct (df_empty df); [intros [= <-]; by left|].
  set (d1 := rename _ df). intros Hu. right.
  assert (Hstep : ∀ col d out,
            (if has_column col d then apply_column (parse_date cfg) col d else mret d)
            = Ok out → columns out = columns d).
  { intros col d out. destruct (has_column col d) eqn:Hcol; [|by intros [= <-]].
    by apply columns_apply_column. }
  destruct (if has_column "PR_Date" d1 then _ else _) as [d2|e] eqn:H2; simpl in Hu; [|done].
  destruct (if has_column "PO_Date" d2 then _ else _) as [d3|e] eqn:H3; simpl in Hu; [|done].
  injection Hu as <-. by rewrite (Hstep _ _ _ H3), (Hstep _ _ _ H2).
Qed.

End PassShape.

(** X10: a pass raises only through the date reader or through a renaming
    that gives two columns one label: with a reader that never raises
    (every unreadable cell coerced to NaT) and tables whose labels are
    distinct as read and as renamed, compute_metrics returns, whatever the
    cells, the mappings and the settings. *)
Theorem pass_raises_only_on_dates `{PyRuntime} (config : Config)
    (prs_df pos_df : option DataFrame) (pr_map po_map : gmap string string)
    (cfg : Config) :
  (∀ dayfirst v, ∃ t, to_datetime dayfirst v = Ok t) →
  distinct_labels pr_map (REQUIRED_PRS_FIELDS ++ OPTIONAL_PRS_FIELDS)
    (default DataFrame_new prs_df) →
  distinct_labels po_map (REQUIRED_POS_FIELDS ++ OPTIONAL_POS_FIELDS)
    (default DataFrame_new pos_df) →
  ∃ m prs pos, compute_metrics config prs_df pos_df pr_map po_map cfg = Ok (m, prs, pos).
Proof.
  intros Hreader _ [Hraw Hrenamed].
  destruct (unify_total cfg (default DataFrame_new prs_df) pr_map
              REQUIRED_PRS_FIELDS OPTIONAL_PRS_FIELDS Hreader) as [uprs Huprs].
  destruct (unify_total cfg (default DataFrame_new pos_df) po_map
              REQUIRED_POS_FIELDS OPTIONAL_POS_FIELDS Hreader) as [upos Hupos].
  eapply compute_metrics_total; [exact Huprs|exact Hupos|].
  rewrite duplicated_NoDup; [apply andb_false_r|].
  destruct (columns_unify _ _ _ _ _ _ Hupos) as [-> | ->]; done.
Qed.

Lemma pass_raises_only_on_dates_witness :
  ∃ m prs pos,
    compute_metrics (H:=coercing_runtime) (mkConfig None None None None)
      (Some (mkDataFrame ["PR_Date"] [[("PR_Date", VBool true)]; [("PR_Date", VInt 4)]]))
      (Some (mkDataFrame ["PO"; "Ref"] [[("PO", VInt 1); ("Ref", VStr "PR1")]]))
      ∅ {["PO_Number" := "PO"; "PR_Number" := "Ref"]}
      (mkConfig (Some "dd-mm-yyyy") None None None) = Ok (m, prs, pos).
Proof.
  apply (pass_raises_only_on_dates (H:=coercing_runtime)).
  - intros dayfirst v. destruct v; simpl; eauto.
  - split; apply (bool_decide_unpack _); vm_compute; exact I.
  - split; apply (bool_decide_unpack _); vm_compute; exact I.
Defined.

(** The renaming at work: a PO sheet with a column named PR_Number and
    another column mapped to that field has the label twice once renamed,
    and the pass raises where it collects the linked PR numbers. *)
Example duplicate_pr_number_raises :
  compute_metrics (H:=decimal_runtime) (mkConfig None None None None) None
    (Some (mkDataFrame ["PR_Number"; "Ref"]
             [[("PR_Number", VStr "PR1"); ("Ref", VStr "PR2")]]))
    ∅ {["PR_Number" := "Ref"]} (mkConfig None None None None)
  = Raise AttributeError.
Proof. vm_compute. reflexivity. Qed.

(** X11: after a pass the date columns hold dates only: every PR_Date cell
    of the annotated PR table and every PO_Date cell of the annotated PO
    table is a Timestamp or NaT, whatever the sheet held there. *)
Theorem annotated_dates_are_dates `{PyRuntime} (config : Config)
    (prs_df pos_df : option DataFrame) (pr_map po_map : gmap string string)
    (cfg : Config) (m : gmap string Z) (prs pos : DataFrame) :
  compute_metrics config prs_df pos_df pr_map po_map cfg = Ok (m, prs, pos) →
  (has_column "PR_Date" prs = true →
   ∀ row, row ∈ rows prs →
     Series_get row "PR_Date" VNone = VNaT ∨ ∃ t, Series_get row "PR_Date" VNone = VDate t)
  ∧ (has_column "PO_Date" pos = true →
     ∀ row, row ∈ rows pos →
       Series_get row "PO_Date" VNone = VNaT ∨ ∃ t, Series_get row "PO_Date" VNone = VDate t).
Proof.
  intros Hrun.
  assert (Hcell : ∀ v, date_cell v = true → v = VNaT ∨ ∃ t, v = VDate t).
  { intros v Hv. destruct v; simpl in Hv; try done; eauto. }
  split; intros Hcol row Hrow; apply Hcell.
  - destruct (annotated_date_typed _ _ _ _ _ _ _ _ _ "PR_Date" (or_introl eq_refl) Hrun)
      as [Hprs _].
    specialize (Hprs Hcol). unfold date_typed in Hprs.
    rewrite Forall_forall in Hprs. by apply Hprs.
  - destruct (annotated_date_typed _ _ _ _ _ _ _ _ _ "PO_Date" (or_intror eq_refl) Hrun)
      as [_ Hpos].
    specialize (Hpos Hcol). unfold date_typed in Hpos.
    rewrite Forall_forall in Hpos. by apply Hpos.
Qed.

Lemma annotated_dates_are_dates_witness :
  ∃ m prs pos,
    compute_metrics (H:=decimal_runtime) (mkConfig None None None None)
      (Some (mkDataFrame ["No"; "When"]
               [[("No", VStr "PR1"); ("When", VInt 3)];
                [("No", VStr "PR2"); ("When", VStr "?")]]))
      None {["PR_Number" := "No"; "PR_Date" := "When"]} ∅
      (mkConfig None None None None) = Ok (m, prs, pos)
    ∧ ∀ row, row ∈ rows prs →
        Series_get row "PR_Date" VNone = VNaT ∨ ∃ t, Series_get row "PR_Date" VNone = VDate t.
Proof.
  destruct (compute_metrics_total (H:=decimal_runtime) (mkConfig None None None None)
              (Some (mkDataFrame ["No"; "When"]
                       [[("No", VStr "PR1"); ("When", VInt 3)];
                        [("No", VStr "PR2"); ("When", VStr "?")]]))
              None {["PR_Number" := "No"; "PR_Date" := "When"]} ∅
              (mkConfig None None None None)
              (mkDataFrame ["PR_Number"; "PR_Date"]
                 [[("PR_Number", VStr "PR1"); ("PR_Date", VDate 3)];
                  [("PR_Number", VStr "PR2"); ("PR_Date", VNaT)]])
              DataFrame_new)
    as (m & prs & pos & Hrun); [vm_compute; reflexivity|reflexivity|reflexivity|].
  exists m, prs, pos. split; [exact Hrun|].
  apply (proj1 (annotated_dates_are_dates (H:=decimal_runtime) _ _ _ _ _ _ m prs pos Hrun)).
  destruct (compute_metrics_inv _ _ _ _ _ _ _ _ _ Hrun)
    as [(Hnone & _)|(uprs & upos & Huprs & _ & -> & _)]; [done|].
  vm_compute in Huprs. injection Huprs as <-. reflexivity.
Defined.

(** X12: an annotated table with rows carries its derived columns: the PR
    table has Is_Open_PR with a boolean in every row, the PO table
    Is_Open_Delivery_PO likewise, and either has a Category column as soon
    as the table given had columns, so grouping by Category cannot miss the
    column. *)
Theorem annotated_columns_present `{PyRuntime} (config : Config)
    (prs_df pos_df : option DataFrame) (pr_map po_map : gmap string string)
    (cfg : Config) (m : gmap string Z) (prs pos : DataFrame) :
  compute_metrics config prs_df pos_df pr_map po_map cfg = Ok (m, prs, pos) →
  (rows prs ≠ [] →
     has_column "Is_Open_PR" prs = true
     ∧ Forall (fun row : Series => ∃ b, Series_get row "Is_Open_PR" VNone = VBool b) (rows prs)
     ∧ (columns (default DataFrame_new prs_df) ≠ [] → has_column "Category" prs = true))
  ∧ (rows pos ≠ [] → columns (default DataFrame_new pos_df) ≠ [] →
     has_column "Category" pos = true
     ∧ has_column "Is_Open_Delivery_PO" pos = true
     ∧ Forall (fun row : Series => ∃ b, Series_get row "Is_Open_Delivery_PO" VNone = VBool b)
         (rows pos)).
Proof.
  intros Hrun.
  apply compute_metrics_inv in Hrun
    as [(-> & -> & -> & -> & ->)|(uprs & upos & Huprs & Hupos & -> & Hflag & ->)].
  { split; by intros []. }
  split.
  - intros Hrows. split; [apply has_column_flag_open_prs|]. split.
    + rewrite rows_flag_open_prs. apply Forall_fmap, Forall_forall.
      intros row _. simpl. rewrite Series_get_set_eq. by eauto.
    + intros Hcols. unfold flag_open_prs. rewrite has_column_setitem.
      assert (Huprs_rows : rows uprs ≠ []).
      { intros Hnil. apply Hrows. rewrite rows_flag_open_prs.
        pose proof (derive_missing_category_shape pr_map
                      (default ∅ (category_mapping config)) uprs) as [Hlen _].
        rewrite Hnil in Hlen. apply length_zero_iff_nil in Hlen. by rewrite Hlen. }
      destruct (unify_not_empty _ _ _ _ _ _ Huprs Hcols Huprs_rows) as [Hne _].
      by rewrite has_column_category_derived.
  - intros Hrows Hcols.
    pose proof (derive_missing_category_shape po_map
                  (default ∅ (category_mapping config)) upos) as [Hlen Hcols'].
    pose proof (flag_open_delivery_length _ _ _ Hflag) as Hlen'.
    assert (Hupos_rows : rows upos ≠ []).
    { intros Hnil. apply Hrows. apply length_zero_iff_nil.
      by rewrite Hlen', Hlen, Hnil. }
    destruct (unify_not_empty _ _ _ _ _ _ Hupos Hcols Hupos_rows) as [Hne _].
    pose proof (has_column_category_derived po_map
                  (default ∅ (category_mapping config)) upos Hne) as Hcat.
    assert (Hcne : df_empty (derive_missing_category po_map
                               (default ∅ (category_mapping config)) upos) = false).
    { apply df_empty_false. apply df_empty_false in Hne as [Hc Hr]. split; [auto|].
      intros Hnil. apply Hupos_rows. apply length_zero_iff_nil.
      by rewrite <- Hlen, Hnil. }
    unfold flag_open_delivery in Hflag. rewrite Hcne in Hflag. simpl in Hflag.
    destruct (mapM _ _) as [flags|e]; simpl in Hflag; [|done].
    injection Hflag as <-.
    split; [|split].
    + rewrite has_column_setitem, Hcat. done.
    + rewrite has_column_setitem. apply orb_true_r.
    + apply bool_cells_setitem.
Qed.

Lemma annotated_columns_present_witness :
  ∃ m prs pos,
    compute_metrics (H:=decimal_runtime) (mkConfig None None None None)
      (Some (mkDataFrame ["No"] [[("No", VStr "PR1")]]))
      None {["PR_Number" := "No"]} ∅
      (mkConfig None None None None) = Ok (m, prs, pos)
    ∧ has_column "Is_Open_PR" prs = true ∧ has_column "Category" prs = true.
Proof.
  destruct (compute_metrics_total (H:=decimal_runtime) (mkConfig None None None None)
              (Some (mkDataFrame ["No"] [[("No", VStr "PR1")]]))
              None {["PR_Number" := "No"]} ∅
              (mkConfig None None None None)
              (mkDataFrame ["PR_Number"] [[("PR_Number", VStr "PR1")]])
              DataFrame_new)
    as (m & prs & pos & Hrun); [vm_compute; reflexivity|reflexivity|reflexivity|].
  exists m, prs, pos. split; [exact Hrun|].
  destruct (proj1 (annotated_columns_present (H:=decimal_runtime) _ _ _ _ _ _ m prs pos Hrun))
    as (Hflag & _ & Hcat).
  - destruct (compute_metrics_inv _ _ _ _ _ _ _ _ _ Hrun)
      as [(Hnone & _)|(uprs & upos & Huprs & _ & -> & _)]; [done|].
    vm_compute in Huprs. injection Huprs as <-. done.
  - split; [exact Hflag|]. by apply Hcat.
Defined.

(** X13: the configured PR-open statuses act on the PR verdict only
    through whether "closed" is among them: two lists that agree on that
    give the same verdict on every row.  In particular any list without
    "closed", the shipped default included, is as good as the empty list. *)
Theorem pr_open_list_only_closed_matters `{PyRuntime} (open_statuses open_statuses' : list string)
    (linked_prs : gset string) (row : Series) :
  ("closed" ∈ open_statuses ↔ "closed" ∈ open_statuses') →
  is_pr_open open_statuses linked_prs row = is_pr_open open_statuses' linked_prs row.
Proof.
  intros Hsame. unfold is_pr_open.
  destruct (decide (lower (py_str (Series_get row "PR_Status" (VStr ""))) = "closed"))
    as [->|Hne].
  - by rewrite (bool_decide_ext _ _ Hsame).
  - by rewrite !(bool_decide_eq_true_2 _ Hne).
Qed.

Lemma pr_open_list_only_closed_matters_witness :
  is_pr_open (H:=decimal_runtime) ["open"; "pending"; "in progress"] {["PR1"]}
    [("PR_Number", VStr "PR1"); ("PR_Status", VStr "Pending")]
  = is_pr_open (H:=decimal_runtime) [] {["PR1"]}
      [("PR_Number", VStr "PR1"); ("PR_Status", VStr "Pending")].
Proof.
  apply (pr_open_list_only_closed_matters (H:=decimal_runtime)).
  split; intros Hin.
  - repeat (apply elem_of_cons in Hin as [Hin|Hin]; [discriminate|]). done.
  - by apply elem_of_nil in Hin.
Defined.

(** X14: "open" is an open delivery status whether or not it is configured:
    two status lists that differ only in holding "open" give the same
    delivery verdict on every row. *)
Theorem open_delivery_status_built_in `{PyRuntime} (open_statuses open_statuses' : list string)
    (row : Series) :
  (∀ s, s ≠ "open" → (s ∈ open_statuses ↔ s ∈ open_statuses')) →
  is_po_open_delivery open_statuses row = is_po_open_delivery open_statuses' row.
Proof.
  intros Hsame. unfold is_po_open_delivery.
  destruct (po_outstanding row) as [outstanding|e]; [|done]. simpl. f_equal.
  destruct (decide (lower (py_str (Series_get row "Delivery_Status" (VStr ""))) = "open"))
    as [Heq|Hne].
  - rewrite !(bool_decide_eq_true_2 _ Heq). by rewrite !orb_true_r.
  - by rewrite (bool_decide_ext _ _ (Hsame _ Hne)).
Qed.

Lemma open_delivery_status_built_in_witness :
  is_po_open_delivery (H:=decimal_runtime) ["partial"]
    [("Delivery_Status", VStr "Open")]
  = is_po_open_delivery (H:=decimal_runtime) ["open"; "partial"]
      [("Delivery_Status", VStr "Open")].
Proof.
  apply (open_delivery_status_built_in (H:=decimal_runtime)).
  intros s Hs. rewrite !elem_of_cons. split; [by auto|].
  intros [->|Hin]; [done|exact Hin].
Defined.

(** X15: a field mapping whose keys are PO fields, as the column mapper
    saves it for the PO sheet, has none of the three key fields, so for PO
    rows the resolver never consults the lookup table: its result is the
    same for every table. *)
Theorem po_mapping_ignores_lookup `{PyRuntime} (row : Series) (mapping : gmap string string) :
  (∀ k, is_Some (mapping !! k) → k ∈ (REQUIRED_POS_FIELDS ++ OPTIONAL_POS_FIELDS)%list) →
  ∀ table table', derive_category row mapping table = derive_category row mapping table'.
Proof.
  intros Hkeys table table'.
  assert (Hnone : ∀ k, k ∈ KEY_FIELDS → mapping !! k = None).
  { intros k Hk. destruct (mapping !! k) as [col|] eqn:Hcol; [|done].
    assert (Hin : k ∈ (REQUIRED_POS_FIELDS ++ OPTIONAL_POS_FIELDS)%list) by (apply Hkeys; eauto).
    unfold KEY_FIELDS in Hk. unfold REQUIRED_POS_FIELDS, OPTIONAL_POS_FIELDS in Hin.
    simpl in Hin. rewrite !elem_of_cons in Hk.
    destruct Hk as [->|[->|[->|Hk]]]; [| | |by apply elem_of_nil in Hk];
      repeat (apply elem_of_cons in Hin as [Hin|Hin]; [discriminate|]);
      by apply elem_of_nil in Hin. }
  assert (Htier : ∀ t, lookup_key_fields row mapping t KEY_FIELDS = None).
  { intros t. unfold KEY_FIELDS, lookup_key_fields, lookup_key_field.
    rewrite !Hnone by (unfold KEY_FIELDS; rewrite !elem_of_cons; auto). done. }
  unfold derive_category. by rewrite !Htier.
Qed.

Lemma po_mapping_ignores_lookup_witness :
  derive_category (H:=decimal_runtime) [("Vendor", VStr "STEEL-01")]
    {["Vendor" := "Vendor"]} {["STEEL-01" := "MRO"]}
  = derive_category (H:=decimal_runtime) [("Vendor", VStr "STEEL-01")]
      {["Vendor" := "Vendor"]} ∅.
Proof.
  apply (po_mapping_ignores_lookup (H:=decimal_runtime)).
  intros k [col Hk]. apply lookup_singleton_Some in Hk as [<- _].
  unfold REQUIRED_POS_FIELDS, OPTIONAL_POS_FIELDS. simpl. rewrite !elem_of_cons. auto 10.
Defined.

(** ** Renaming and the resolver *)

Section Renaming.
Context `{PyRuntime}.

Lemma rename_dict_value (mapping : gmap string string) (fields : list string)
    (acc : gmap string string) (col field : string) :
  foldl (fun m k =>
           if is_mapped (mapping !! k) then <[default "" (mapping !! k) := k]> m else m)
        acc fields !! col = Some field →
  acc !! col = Some field ∨ (field ∈ fields ∧ mapping !! field = Some col).
Proof.
  revert acc. induction fields as [|k fields IH]; intros acc; simpl; [by left|].
  intros Hlook. apply IH in Hlook as [Hacc|[Hin Hmap]]; [|right; split; [by right|done]].
  destruct (is_mapped (mapping !! k)) eqn:Hm; [|by left].
  destruct (mapping !! k) as [c|] eqn:Hk; [|done]. simpl in Hacc.
  apply lookup_insert_Some in Hacc as [[<- <-]|[_ Hacc]]; [|by left].
  right. split; [by left|done].
Qed.

Lemma rename_dict_key (mapping : gmap string string) (fields : list string)
    (acc : gmap string string) (col : string) :
  is_Some (acc !! col)
  ∨ (∃ field, field ∈ fields ∧ mapping !! field = Some col ∧ is_mapped (Some col) = true) →
  is_Some (foldl (fun m k =>
                    if is_mapped (mapping !! k)
                    then <[default "" (mapping !! k) := k]> m else m)
                 acc fields !! col).
Proof.
  revert acc. induction fields as [|k fields IH]; intros acc; cbn [foldl].
  - intros [Hacc|(field & Hin & _)]; [done|]. by apply elem_of_nil in Hin.
  - intros Hcol. apply IH.
    destruct Hcol as [Hacc|(field & Hin & Hmap & Hmapped)].
    + left. destruct (is_mapped (mapping !! k)); [|done].
      rewrite lookup_insert. case_decide; [by eauto|done].
    + apply elem_of_cons in Hin as [->|Hin]; [|right; by eauto].
      left. rewrite Hmap, Hmapped. simpl. rewrite lookup_insert_eq. by eauto.
Qed.

Lemma labels_rename_row (m : gmap string string) (row : Series) :
  (prod_map (fun c => default c (m !! c)) id <$> row).*1
  = (fun c => default c (m !! c)) <$> row.*1.
Proof. induction row as [|[k v] row IH]; simpl; [done|]. f_equal. exact IH. Qed.

Lemma labels_Series_set (key : string) (v : value) (row : Series) (l : string) :
  l ∈ (Series_set key v row).*1 → l = key ∨ l ∈ row.*1.
Proof.
  induction row as [|[k w] row IH]; simpl.
  - intros Hl. apply list_elem_of_singleton in Hl. by left.
  - case_bool_decide as Hk; simpl; rewrite !elem_of_cons.
    + intros [->|Hl]; [right; by left|right; by right].
    + intros [->|Hl]; [right; by left|].
      apply IH in Hl as [->|Hl]; [by left|right; by right].
Qed.

Lemma labels_within_setitem (L : string → Prop) (col : string) (vals : list value)
    (df : DataFrame) :
  L col → labels_within L df → labels_within L (setitem col vals df).
Proof.
  intros Hcol Hdf row Hrow l Hl. unfold setitem in Hrow; simpl in Hrow.
  apply elem_of_zip_with in Hrow as (v & r & -> & _ & Hr).
  apply labels_Series_set in Hl as [->|Hl]; [done|]. by eapply Hdf.
Qed.

Lemma labels_within_apply_column (L : string → Prop) (f : value → res value)
    (col : string) (df out : DataFrame) :
  L col → labels_within L df → apply_column f col df = Ok out → labels_within L out.
Proof.
  intros Hcol Hdf Hout. apply apply_column_setitem in Hout as [vals ->].
  by apply labels_within_setitem.
Qed.

(** On a table with rows and columns, the labels [unify] leaves are the
    renamed labels and the two date fields. *)
Lemma labels_unify (cfg : Config) (df u : DataFrame) (mapping : gmap string string)
    (required optional : list string) :
  df_empty df = false →
  unify cfg df mapping required optional = Ok u →
  labels_within
    (fun l => l = "PR_Date" ∨ l = "PO_Date"
              ∨ ∃ c, l = default c (rename_dict mapping (required ++ optional) !! c))
    u.
Proof.
  intros Hempty. unfold unify. rewrite Hempty.
  set (m := rename_dict mapping (required ++ optional)).
  set (L := fun l => l = "PR_Date" ∨ l = "PO_Date" ∨ ∃ c, l = default c (m !! c)).
  set (d1 := rename m df).
  assert (H1 : labels_within L d1).
  { intros row Hrow l Hl. unfold d1, rename in Hrow; simpl in Hrow.
    apply list_elem_of_fmap in Hrow as (r & -> & Hr).
    rewrite labels_rename_row in Hl.
    apply list_elem_of_fmap in Hl as (c & -> & Hc). right. right. by eauto. }
  assert (Hstep : ∀ col d out, L col → labels_within L d →
            (if has_column col d then apply_column (parse_date cfg) col d else mret d)
            = Ok out → labels_within L out).
  { intros col d out Hcol Hd. destruct (has_column col d); [|by intros [= <-]].
    by apply labels_within_apply_column. }
  destruct (if has_column "PR_Date" d1 then _ else _) as [d2|e] eqn:H2; simpl; [|done].
  destruct (if has_column "PO_Date" d2 then _ else _) as [d3|e] eqn:H3; simpl; [|done].
  intros [= <-].
  eapply (Hstep "PO_Date" d2); [right; by left| |exact H3].
  eapply (Hstep "PR_Date" d1); [by left|exact H1|exact H2].
Qed.

(** A foreign raw column that a field of the sheet is mapped to is gone from
    the rows after [unify]. *)
Lemma unify_drops_foreign_column (cfg : Config) (df u : DataFrame)
    (mapping : gmap string string) (required optional : list string)
    (field col : string) (row : Series) :
  df_empty df = false →
  unify cfg df mapping required optional = Ok u →
  (∀ f, f ∈ (required ++ optional)%list → f ∈ CANONICAL_FIELDS) →
  raw_names_foreign mapping →
  field ∈ (required ++ optional)%list →
  mapping !! field = Some col → is_mapped (Some col) = true →
  row ∈ rows u → Series_in col row = false.
Proof.
  intros Hempty Hunify Hfields Hforeign Hfield Hmap Hmapped Hrow.
  apply bool_decide_eq_false. intros Hl.
  pose proof (labels_unify _ _ _ _ _ _ Hempty Hunify row Hrow col Hl) as Hcase.
  pose proof (Hforeign field col Hmap) as Hnot.
  assert (Hdates : "PR_Date" ∈ CANONICAL_FIELDS ∧ "PO_Date" ∈ CANONICAL_FIELDS).
  { unfold CANONICAL_FIELDS, REQUIRED_PRS_FIELDS, REQUIRED_POS_FIELDS; simpl.
    rewrite !elem_of_cons. split; auto 20. }
  destruct Hcase as [->|[->|[c Hc]]]; [by destruct Hdates|by destruct Hdates|].
  unfold rename_dict in Hc.
  match type of Hc with
  | _ = default c (?m !! c) => destruct (m !! c) as [f|] eqn:Hm
  end; simpl in Hc.
  - subst col. apply rename_dict_value in Hm as [Hm|[Hin _]];
      [by rewrite lookup_empty in Hm|].
    apply Hnot. by apply Hfields.
  - subst c.
    assert (Hkey : is_Some (rename_dict mapping (required ++ optional) !! col)).
    { apply rename_dict_key. right. by eauto. }
    unfold rename_dict in Hkey. rewrite Hm in Hkey. by destruct Hkey.
Qed.

(** the resolver on a row that has none of the columns it is pointed to *)
Lemma derive_category_unreadable (row : Series) (mapping cfg_mapping : gmap string string) :
  (∀ field col, field ∈ "Category" :: KEY_FIELDS → mapping !! field = Some col →
                is_mapped (Some col) = true → Series_in col row = false) →
  cfg_mapping !! "" = None →
  derive_category row mapping cfg_mapping = None.
Proof.
  intros Habsent Hblank.
  assert (Hfield : ∀ field, field ∈ KEY_FIELDS →
            lookup_key_field row mapping cfg_mapping field = None).
  { intros field Hin. unfold lookup_key_field.
    destruct (mapping !! field) as [col|] eqn:Hcol; [|done].
    destruct (is_mapped (Some col)) eqn:Hm; [|done]. simpl.
    rewrite (Series_get_absent row col) by (eapply Habsent; [by right|done..]).
    change (strip (py_str (VStr ""))) with "". by rewrite Hblank. }
  unfold derive_category.
  assert (Htier : lookup_key_fields row mapping cfg_mapping KEY_FIELDS = None).
  { unfold KEY_FIELDS, lookup_key_fields.
    rewrite !Hfield by (unfold KEY_FIELDS; rewrite !elem_of_cons; auto). done. }
  rewrite Htier.
  destruct (mapping !! "Category") as [col|] eqn:Hcol; [|done].
  destruct (is_mapped (Some col)) eqn:Hm; [|done]. simpl.
  rewrite (Series_get_absent row col) by (eapply Habsent; [by left|done..]).
  done.
Qed.

End Renaming.

(** X16: in a pass the resolver reads the renamed rows through the raw
    column names.  For a PR table with rows whose mapped raw columns do not
    carry canonical field names, and a lookup table without an entry for
    the empty text, every category the pass derives is unknown: the
    Category cell of each annotated PR row is None. *)
Theorem foreign_names_leave_categories_unknown `{PyRuntime} (config : Config)
    (pin : DataFrame) (pos_df : option DataFrame) (pr_map po_map : gmap string string)
    (cfg : Config) (uprs : DataFrame) (m : gmap string Z) (prs pos : DataFrame) :
  df_empty pin = false →
  raw_names_foreign pr_map →
  default ∅ (category_mapping config) !! "" = None →
  unify cfg pin pr_map REQUIRED_PRS_FIELDS OPTIONAL_PRS_FIELDS = Ok uprs →
  has_column "Category" uprs = false →
  compute_metrics config (Some pin) pos_df pr_map po_map cfg = Ok (m, prs, pos) →
  Forall (fun row : Series => Series_get row "Category" VNone = VNone) (rows prs).
Proof.
  intros Hempty Hforeign Hblank Hunify Hcol Hrun.
  apply compute_metrics_inv in Hrun
    as [(Hnone & _)|(uprs' & upos & Huprs & _ & -> & _)]; [done|].
  simpl in Huprs. rewrite Hunify in Huprs. injection Huprs as <-.
  assert (Hne : df_empty uprs = false).
  { apply df_empty_false in Hempty as [Hc Hr].
    pose proof (unify_shape _ _ _ _ _ _ Hunify) as [Hlen Hcols].
    apply df_empty_false. split; [auto|].
    intros Hnil. apply Hr. apply length_zero_iff_nil. by rewrite <- Hlen, Hnil. }
  rewrite rows_flag_open_prs. unfold derive_missing_category.
  rewrite Hcol, Hne. cbn [negb andb]. rewrite rows_setitem_apply.
  apply Forall_fmap, Forall_fmap, Forall_forall. intros row Hrow. simpl.
  rewrite Series_get_set_ne by done. rewrite Series_get_set_eq.
  rewrite derive_category_unreadable; [done| |done].
  intros field col Hfield Hmap Hmapped.
  eapply (unify_drops_foreign_column cfg pin uprs pr_map
            REQUIRED_PRS_FIELDS OPTIONAL_PRS_FIELDS field col); try done.
  - intros f Hf. unfold CANONICAL_FIELDS. rewrite app_assoc. apply elem_of_app. by left.
  - unfold KEY_FIELDS in Hfield. unfold REQUIRED_PRS_FIELDS, OPTIONAL_PRS_FIELDS. simpl.
    rewrite !elem_of_cons in Hfield. rewrite !elem_of_cons.
    destruct Hfield as [->|[->|[->|[->|Hn]]]]; auto 20.
Qed.

Lemma foreign_names_leave_categories_unknown_witness :
  ∃ m prs pos,
    compute_metrics (H:=decimal_runtime)
      (mkConfig None None None (Some {["STEEL-01" := "MRO"]}))
      (Some (mkDataFrame ["No"; "Grp"]
               [[("No", VStr "PR1"); ("Grp", VStr "STEEL-01")]]))
      None {["PR_Number" := "No"; "Material_Group" := "Grp"]} ∅
      (mkConfig None None None None) = Ok (m, prs, pos)
    ∧ Forall (fun row : Series => Series_get row "Category" VNone = VNone) (rows prs).
Proof.
  destruct (compute_metrics_total (H:=decimal_runtime)
              (mkConfig None None None (Some {["STEEL-01" := "MRO"]}))
              (Some (mkDataFrame ["No"; "Grp"]
                       [[("No", VStr "PR1"); ("Grp", VStr "STEEL-01")]]))
              None {["PR_Number" := "No"; "Material_Group" := "Grp"]} ∅
              (mkConfig None None None None)
              (mkDataFrame ["PR_Number"; "Material_Group"]
                 [[("PR_Number", VStr "PR1"); ("Material_Group", VStr "STEEL-01")]])
              DataFrame_new)
    as (m & prs & pos & Hrun); [vm_compute; reflexivity|reflexivity|reflexivity|].
  exists m, prs, pos. split; [exact Hrun|].
  apply (foreign_names_leave_categories_unknown (H:=decimal_runtime)
           (mkConfig None None None (Some {["STEEL-01" := "MRO"]}))
           (mkDataFrame ["No"; "Grp"] [[("No", VStr "PR1"); ("Grp", VStr "STEEL-01")]])
           None {["PR_Number" := "No"; "Material_Group" := "Grp"]} ∅
           (mkConfig None None None None)
           (mkDataFrame ["PR_Number"; "Material_Group"]
              [[("PR_Number", VStr "PR1"); ("Material_Group", VStr "STEEL-01")]])
           m prs pos);
    [reflexivity| |reflexivity|vm_compute; reflexivity|reflexivity|exact Hrun].
  intros field col Hmap.
  apply lookup_insert_Some in Hmap as [[_ <-]|[_ Hmap]].
  { unfold CANONICAL_FIELDS, REQUIRED_PRS_FIELDS, OPTIONAL_PRS_FIELDS,
      REQUIRED_POS_FIELDS, OPTIONAL_POS_FIELDS. simpl.
    intros Hin. repeat (apply elem_of_cons in Hin as [Hin|Hin]; [discriminate|]).
    by apply elem_of_nil in Hin. }
  apply lookup_singleton_Some in Hmap as [_ <-].
  unfold CANONICAL_FIELDS, REQUIRED_PRS_FIELDS, OPTIONAL_PRS_FIELDS,
    REQUIRED_POS_FIELDS, OPTIONAL_POS_FIELDS. simpl.
  intros Hin. repeat (apply elem_of_cons in Hin as [Hin|Hin]; [discriminate|]).
  by apply elem_of_nil in Hin.
Defined.

(** ** Filters: what is kept *)

Section FilterSemantics.

Lemma filter_all {A} (keep : A → bool) (l : list A) :
  (∀ x, x ∈ l → keep x = true) → List.filter keep l = l.
Proof.
  induction l as [|x l IH]; simpl; [done|]. intros Hall.
  rewrite (Hall x) by left. f_equal. apply IH. intros y Hy. apply Hall. by right.
Qed.

Lemma select_all (keep : Series → bool) (df : DataFrame) :
  (∀ row, row ∈ rows df → keep row = true) → select keep df = df.
Proof.
  intros Hall. unfold select. rewrite filter_all by done. apply DataFrame_eta.
Qed.

Lemma select_select (k1 k2 : Series → bool) (df : DataFrame) :
  select k2 (select k1 df) = select (fun row => k1 row && k2 row) df.
Proof.
  unfold select; simpl. f_equal.
  induction (rows df) as [|row rest IH]; simpl; [done|].
  destruct (k1 row); simpl; [|done]. destruct (k2 row); by rewrite IH.
Qed.

Lemma elem_of_rows_select (keep : Series → bool) (df : DataFrame) (row : Series) :
  row ∈ rows (select keep df) ↔ row ∈ rows df ∧ keep row = true.
Proof. unfold select; simpl. rewrite !list_elem_of_In. apply filter_In. Qed.

Lemma date_keeps_spec (start end_ : Z) (col : string) (row : Series) :
  date_keeps start end_ col row = true
  ↔ ∃ t : Z, Series_get row col VNone = VDate (naive t) ∧ (start ≤ t ≤ end_)%Z.
Proof.
  unfold date_keeps, in_range.
  destruct (Series_get row col VNone) as [| | | | |[t [|]]|];
    try (split; [done|by intros (t' & [=] & _)]).
  simpl.
  destruct (bool_decide (start ≤ t)%Z && bool_decide (t ≤ end_)%Z) eqn:Hin.
  - apply andb_true_iff in Hin as [H1 H2]. rewrite !bool_decide_eq_true in H1, H2.
    split; [|done]. intros _. exists t. done.
  - split; [done|]. intros (t' & [= <-] & H1 & H2).
    by rewrite !bool_decide_eq_true_2 in Hin.
Qed.

(** the date filter as a selection *)
Lemma within_date_select (df out : DataFrame) (col : string) (rng : option (list Z)) :
  within_date df col rng = Ok out →
  ∃ keep, out = select keep df ∧ ∀ row, keep row = true ↔ passes_date col rng df row.
Proof.
  intros Hdate.
  destruct (decide (length (default [] rng) = 2)) as [Hlen|Hlen]; cycle 1.
  { rewrite within_date_inactive in Hdate by auto. injection Hdate as <-.
    exists (fun _ => true). split; [by rewrite select_all|].
    intros row. split; [by left|done]. }
  destruct (has_column col df) eqn:Hcol; cycle 1.
  { rewrite within_date_inactive in Hdate by auto. injection Hdate as <-.
    exists (fun _ => true). split; [by rewrite select_all|].
    intros row. split; [right; by left|done]. }
  destruct rng as [[|start [|end_ [|? ?]]]|]; try done.
  destruct (within_date_mask _ _ _ _ _ Hcol Hdate) as [mask Hmask].
  rewrite (within_date_active _ _ _ _ _ Hcol Hmask) in Hdate. injection Hdate as <-.
  exists (date_keeps start end_ col). split; [done|].
  intros row. rewrite date_keeps_spec. unfold passes_date. split.
  - intros (t & Hcell & Hin). right. right. by eauto 10.
  - intros [Hbad|[Hbad|(s & e & t & [= <- <-] & Hcell & Hin)]]; [done|congruence|by eauto].
Qed.

(** a selection filter as a selection *)
Lemma filter_isin_select (col : string) (allowed : list string) (df : DataFrame) :
  ∃ keep, filter_isin col allowed df = select keep df
          ∧ ∀ row, keep row = true ↔ passes_isin col allowed df row.
Proof.
  unfold filter_isin, passes_isin.
  destruct (decide (allowed = [])) as [->|Hne].
  { exists (fun _ => true). simpl. split; [by rewrite select_all|].
    intros row. split; [by left|done]. }
  rewrite (bool_decide_eq_true_2 _ Hne). simpl.
  destruct (has_column col df) eqn:Hcol; cycle 1.
  { exists (fun _ => true). split; [by rewrite select_all|].
    intros row. split; [right; by left|done]. }
  eexists. split; [reflexivity|]. intros row. unfold isin.
  destruct (Series_get row col VNone) as [| | | |s| |];
    try (split; [done|by intros [?|[?|(s' & [=] & _)]]]).
  rewrite bool_decide_eq_true. split; [by eauto 10|].
  by intros [?|[?|(s' & [= <-] & Hin)]].
Qed.

Lemma passes_isin_select (col : string) (allowed : list string) (keep : Series → bool)
    (df : DataFrame) (row : Series) :
  passes_isin col allowed (select keep df) row ↔ passes_isin col allowed df row.
Proof. done. Qed.

Lemma filter_isin_fixed (col : string) (allowed : list string) (df : DataFrame) :
  (∀ row, row ∈ rows df → passes_isin col allowed df row) →
  filter_isin col allowed df = df.
Proof.
  intros Hall. destruct (filter_isin_select col allowed df) as (keep & -> & Hkeep).
  apply select_all. intros row Hrow. by apply Hkeep, Hall.
Qed.

Lemma within_date_fixed (df : DataFrame) (col : string) (rng : option (list Z)) :
  (∀ row, row ∈ rows df → passes_date col rng df row) →
  within_date df col rng = Ok df.
Proof.
  intros Hall.
  destruct (decide (length (default [] rng) = 2)) as [Hlen|Hlen];
    [|by apply within_date_inactive; right].
  destruct (has_column col df) eqn:Hcol; [|by apply within_date_inactive; left].
  destruct rng as [[|start [|end_ [|? ?]]]|]; try done.
  assert (Hcells : ∀ row, row ∈ rows df → date_keeps start end_ col row = true).
  { intros row Hrow. apply date_keeps_spec.
    destruct (Hall row Hrow) as [Hbad|[Hbad|(s & e & t & [= <- <-] & Hcell & Hin)]];
      [done|congruence|by eauto]. }
  assert (Hmask : ∃ mask, mapM (in_range start end_) (column col df) = Ok mask).
  { apply mapM_Ok_Forall. unfold column. apply Forall_fmap, Forall_forall.
    intros row Hrow. apply Hcells, date_keeps_spec in Hrow as (t & Hcell & _).
    simpl. rewrite Hcell. simpl. by eauto. }
  destruct Hmask as [mask Hmask].
  rewrite (within_date_active _ _ _ _ _ Hcol Hmask). f_equal. by apply select_all.
Qed.

(** the filter panel as two selections *)
Lemma apply_filters_select (prs pos prs_f pos_f : DataFrame) (f : Filters) :
  apply_filters prs pos f = Ok (prs_f, pos_f) →
  ∃ keep_pr keep_po,
    prs_f = select keep_pr prs ∧ pos_f = select keep_po pos
    ∧ (∀ row, keep_pr row = true ↔
         passes_date "PR_Date" (pr_date_rng f) prs row
         ∧ passes_isin "Category" (categories_filter f) prs row
         ∧ passes_isin "Buyer" (buyer_filter f) prs row
         ∧ passes_isin "PR_Status" (status_filter_pr f) prs row)
    ∧ (∀ row, keep_po row = true ↔
         passes_date "PO_Date" (po_date_rng f) pos row
         ∧ passes_isin "Category" (categories_filter f) pos row
         ∧ passes_isin "Vendor" (vendor_filter f) pos row
         ∧ passes_isin "PO_Status" (status_filter_po f) pos row).
Proof.
  unfold apply_filters.
  destruct (within_date prs "PR_Date" (pr_date_rng f)) as [p1|e] eqn:Hp; simpl; [|done].
  destruct (within_date pos "PO_Date" (po_date_rng f)) as [q1|e] eqn:Hq; simpl; [|done].
  intros [= <- <-].
  destruct (within_date_select _ _ _ _ Hp) as (kp1 & -> & Hkp1).
  destruct (within_date_select _ _ _ _ Hq) as (kq1 & -> & Hkq1).
  destruct (filter_isin_select "Category" (categories_filter f) (select kp1 prs))
    as (kp2 & -> & Hkp2).
  destruct (filter_isin_select "Category" (categories_filter f) (select kq1 pos))
    as (kq2 & -> & Hkq2).
  destruct (filter_isin_select "Vendor" (vendor_filter f) (select kq2 (select kq1 pos)))
    as (kq3 & -> & Hkq3).
  destruct (filter_isin_select "Buyer" (buyer_filter f) (select kp2 (select kp1 prs)))
    as (kp3 & -> & Hkp3).
  destruct (filter_isin_select "PR_Status" (status_filter_pr f)
              (select kp3 (select kp2 (select kp1 prs)))) as (kp4 & -> & Hkp4).
  destruct (filter_isin_select "PO_Status" (status_filter_po f)
              (select kq3 (select kq2 (select kq1 pos)))) as (kq4 & -> & Hkq4).
  rewrite !select_select.
  eexists _, _. split; [reflexivity|]. split; [reflexivity|].
  split; intros row; simpl; rewrite !andb_true_iff.
  - rewrite Hkp1, Hkp2, Hkp3, Hkp4. unfold passes_isin; simpl. tauto.
  - rewrite Hkq1, Hkq2, Hkq3, Hkq4. unfold passes_isin; simpl. tauto.
Qed.

End FilterSemantics.

(** X17: when the date filter returns, it returns the rows of the table
    that pass the date test, in table order and with the columns unchanged:
    with a pair of dates and the column present, exactly the rows whose cell
    is a date between the two, both ends included; rows without a date
    (NaT) are dropped. *)
Theorem within_date_keeps_range (df out : DataFrame) (col : string)
    (rng : option (list Z)) :
  within_date df col rng = Ok out →
  ∃ keep, out = select keep df
          ∧ (∀ row, keep row = true ↔ passes_date col rng df row)
          ∧ (∀ start end_ row, rng = Some [start; end_] → has_column col df = true →
               row ∈ rows out →
               ∃ t : Z, Series_get row col VNone = VDate (naive t)
                        ∧ (start ≤ t ≤ end_)%Z).
Proof.
  intros Hdate. destruct (within_date_select _ _ _ _ Hdate) as (keep & -> & Hkeep).
  exists keep. split; [done|]. split; [done|].
  intros start end_ row -> Hcol Hrow.
  apply elem_of_rows_select in Hrow as [_ Hrow]. apply Hkeep in Hrow.
  destruct Hrow as [Hbad|[Hbad|(s & e & t & [= <- <-] & Hcell & Hin)]];
    [done|congruence|by eauto].
Qed.

Lemma within_date_keeps_range_witness :
  ∃ keep,
    mkDataFrame ["PR_Date"] [[("PR_Date", VDate 10)]; [("PR_Date", VDate 20)]]
    = select keep
        (mkDataFrame ["PR_Date"]
           [[("PR_Date", VDate 10)]; [("PR_Date", VNaT)];
            [("PR_Date", VDate 20)]; [("PR_Date", VDate 21)]])
    ∧ ∀ row, keep row = true
        ↔ passes_date "PR_Date" (Some [10; 20]%Z)
            (mkDataFrame ["PR_Date"]
               [[("PR_Date", VDate 10)]; [("PR_Date", VNaT)];
                [("PR_Date", VDate 20)]; [("PR_Date", VDate 21)]]) row.
Proof.
  destruct (within_date_keeps_range
              (mkDataFrame ["PR_Date"]
                 [[("PR_Date", VDate 10)]; [("PR_Date", VNaT)];
                  [("PR_Date", VDate 20)]; [("PR_Date", VDate 21)]])
              (mkDataFrame ["PR_Date"] [[("PR_Date", VDate 10)]; [("PR_Date", VDate 20)]])
              "PR_Date" (Some [10; 20]%Z) eq_refl) as (keep & Hout & Hkeep & _).
  by exists keep.
Defined.

(** X18: the filter panel is a conjunction: when the filters return, each
    filtered table holds, in table order, exactly the rows of the annotated
    table that pass every filter of its panel: date range, category, buyer
    and PR status for PRs; date range, category, vendor and PO status for
    POs.  A filter left empty, or on a column the table lacks, passes every
    row. *)
Theorem filters_are_conjunction (prs pos prs_f pos_f : DataFrame) (f : Filters) :
  apply_filters prs pos f = Ok (prs_f, pos_f) →
  ∃ keep_pr keep_po,
    prs_f = select keep_pr prs ∧ pos_f = select keep_po pos
    ∧ (∀ row, keep_pr row = true ↔
         passes_date "PR_Date" (pr_date_rng f) prs row
         ∧ passes_isin "Category" (categories_filter f) prs row
         ∧ passes_isin "Buyer" (buyer_filter f) prs row
         ∧ passes_isin "PR_Status" (status_filter_pr f) prs row)
    ∧ (∀ row, keep_po row = true ↔
         passes_date "PO_Date" (po_date_rng f) pos row
         ∧ passes_isin "Category" (categories_filter f) pos row
         ∧ passes_isin "Vendor" (vendor_filter f) pos row
         ∧ passes_isin "PO_Status" (status_filter_po f) pos row).
Proof. apply apply_filters_select. Qed.

Lemma filters_are_conjunction_witness :
  let prs := mkDataFrame ["PR_Date"; "Category"; "PR_Status"]
               [[("PR_Date", VDate 10); ("Category", VStr "MRO"); ("PR_Status", VStr "Open")];
                [("PR_Date", VDate 12); ("Category", VStr "PCM"); ("PR_Status", VStr "Open")];
                [("PR_Date", VDate 14); ("Category", VStr "MRO"); ("PR_Status", VStr "Closed")]] in
  ∃ keep_pr, mkDataFrame ["PR_Date"; "Category"; "PR_Status"]
               [[("PR_Date", VDate 10); ("Category", VStr "MRO"); ("PR_Status", VStr "Open")]]
             = select keep_pr prs.
Proof.
  intros prs.
  destruct (filters_are_conjunction prs DataFrame_new
              (mkDataFrame ["PR_Date"; "Category"; "PR_Status"]
                 [[("PR_Date", VDate 10); ("Category", VStr "MRO"); ("PR_Status", VStr "Open")]])
              DataFrame_new
              (mkFilters (Some [0; 20]%Z) None ["MRO"] [] [] ["Open"] []) eq_refl)
    as (keep_pr & _ & Hprs & _).
  by exists keep_pr.
Defined.

(** X19: filtering is idempotent: the filtered tables, put through the
    same filter panel again, come back unchanged. *)
Theorem filters_idempotent (prs pos prs_f pos_f : DataFrame) (f : Filters) :
  apply_filters prs pos f = Ok (prs_f, pos_f) →
  apply_filters prs_f pos_f f = Ok (prs_f, pos_f).
Proof.
  intros Hrun.
  destruct (apply_filters_select _ _ _ _ _ Hrun) as (kp & kq & -> & -> & Hkp & Hkq).
  assert (Hp : ∀ row, row ∈ rows (select kp prs) →
            passes_date "PR_Date" (pr_date_rng f) (select kp prs) row
            ∧ passes_isin "Category" (categories_filter f) (select kp prs) row
            ∧ passes_isin "Buyer" (buyer_filter f) (select kp prs) row
            ∧ passes_isin "PR_Status" (status_filter_pr f) (select kp prs) row).
  { intros row Hrow. apply elem_of_rows_select in Hrow as [_ Hrow]. by apply Hkp. }
  assert (Hq : ∀ row, row ∈ rows (select kq pos) →
            passes_date "PO_Date" (po_date_rng f) (select kq pos) row
            ∧ passes_isin "Category" (categories_filter f) (select kq pos) row
            ∧ passes_isin "Vendor" (vendor_filter f) (select kq pos) row
            ∧ passes_isin "PO_Status" (status_filter_po f) (select kq pos) row).
  { intros row Hrow. apply elem_of_rows_select in Hrow as [_ Hrow]. by apply Hkq. }
  unfold apply_filters.
  rewrite (within_date_fixed (select kp prs)) by (intros row Hrow; apply (Hp row Hrow)).
  rewrite (within_date_fixed (select kq pos)) by (intros row Hrow; apply (Hq row Hrow)).
  simpl.
  rewrite (filter_isin_fixed "Category" _ (select kp prs))
    by (intros row Hrow; apply (Hp row Hrow)).
  rewrite (filter_isin_fixed "Category" _ (select kq pos))
    by (intros row Hrow; apply (Hq row Hrow)).
  rewrite (filter_isin_fixed "Vendor") by (intros row Hrow; apply (Hq row Hrow)).
  rewrite (filter_isin_fixed "Buyer") by (intros row Hrow; apply (Hp row Hrow)).
  rewrite (filter_isin_fixed "PR_Status") by (intros row Hrow; apply (Hp row Hrow)).
  rewrite (filter_isin_fixed "PO_Status") by (intros row Hrow; apply (Hq row Hrow)).
  done.
Qed.

Lemma filters_idempotent_witness :
  apply_filters
    (mkDataFrame ["PR_Date"; "Category"]
       [[("PR_Date", VDate 10); ("Category", VStr "MRO")]])
    DataFrame_new (mkFilters (Some [0; 20]%Z) None ["MRO"] [] [] [] [])
  = Ok (mkDataFrame ["PR_Date"; "Category"]
          [[("PR_Date", VDate 10); ("Category", VStr "MRO")]], DataFrame_new).
Proof.
  apply (filters_idempotent
           (mkDataFrame ["PR_Date"; "Category"]
              [[("PR_Date", VDate 10); ("Category", VStr "MRO")];
               [("PR_Date", VDate 30); ("Category", VStr "MRO")];
               [("PR_Date", VDate 11); ("Category", VNone)]])
           DataFrame_new).
  reflexivity.
Defined.

(** X20: a table whose Category cells are all unknown (None) is emptied by
    every non-empty category selection, the default selection of all four
    labels included; only the empty selection lets its rows through. *)
Theorem unknown_categories_filtered_out (df : DataFrame) (allowed : list string) :
  has_column "Category" df = true →
  Forall (fun row : Series => Series_get row "Category" VNone = VNone) (rows df) →
  rows (filter_isin "Category" allowed df) = if bool_decide (allowed = []) then rows df else [].
Proof.
  intros Hcol Hall. unfold filter_isin. rewrite Hcol.
  destruct (decide (allowed = [])) as [->|Hne]; [done|].
  rewrite (bool_decide_eq_true_2 (allowed ≠ [])) by done.
  rewrite (bool_decide_eq_false_2 (allowed = [])) by done. simpl.
  induction Hall as [|row rest Hrow _ IH]; simpl; [done|]. by rewrite Hrow.
Qed.

Lemma unknown_categories_filtered_out_witness :
  rows (filter_isin "Category" CATEGORIES
          (mkDataFrame ["PR_Number"; "Category"]
             [[("PR_Number", VStr "PR1"); ("Category", VNone)];
              [("PR_Number", VStr "PR2"); ("Category", VNone)]])) = [].
Proof.
  apply (unknown_categories_filtered_out
           (mkDataFrame ["PR_Number"; "Category"]
              [[("PR_Number", VStr "PR1"); ("Category", VNone)];
               [("PR_Number", VStr "PR2"); ("Category", VNone)]]) CATEGORIES).
  - reflexivity.
  - repeat constructor.
Defined.

(** ** Data Health *)

(** X21: Data Health and the renaming agree on what is mapped.  A required
    field is reported missing exactly when its mapping is absent or the
    "not mapped" marker; a field the renaming uses is never reported; a
    field that is not reported is used by the renaming unless it is mapped
    to the empty text; and the raw column of a field in use is a key of the
    renaming dictionary, sent to a field mapped to that column. *)
Theorem missing_fields_match_renaming (required optional : list string)
    (mapping : gmap string string) (f : string) :
  f ∈ required →
  (f ∈ missing_fields required mapping
   ↔ mapping !! f = None ∨ mapping !! f = Some NOT_MAPPED)
  ∧ (is_mapped (mapping !! f) = true → f ∉ missing_fields required mapping)
  ∧ (f ∉ missing_fields required mapping →
     is_mapped (mapping !! f) = true ∨ mapping !! f = Some "")
  ∧ (is_mapped (mapping !! f) = true →
     ∃ col g, mapping !! f = Some col
              ∧ rename_dict mapping (required ++ optional) !! col = Some g
              ∧ mapping !! g = Some col).
Proof.
  intros Hreq.
  assert (Hmissing : f ∈ missing_fields required mapping
                     ↔ mapping !! f = None ∨ mapping !! f = Some NOT_MAPPED).
  { unfold missing_fields. rewrite list_elem_of_In, filter_In, <- list_elem_of_In.
    destruct (mapping !! f) as [col|]; [|by intuition].
    rewrite bool_decide_eq_true. split.
    - intros [_ ->]. by right.
    - intros [?|[= ->]]; done. }
  split; [done|]. split; [|split].
  - intros Hmapped Hin. apply Hmissing in Hin as [Hnone|Hmark].
    + by rewrite Hnone in Hmapped.
    + rewrite Hmark in Hmapped. apply is_mapped_Some in Hmapped as [_ Hne]. done.
  - intros Hnot. destruct (mapping !! f) as [col|] eqn:Hcol.
    + destruct (decide (col = "")) as [->|Hne]; [by right|]. left.
      apply is_mapped_Some. split; [done|]. intros ->. apply Hnot, Hmissing. by right.
    + exfalso. apply Hnot, Hmissing. by left.
  - intros Hmapped. destruct (mapping !! f) as [col|] eqn:Hcol; [|done].
    assert (Hkey : is_Some (rename_dict mapping (required ++ optional) !! col)).
    { apply rename_dict_key. right. exists f. split; [|done].
      apply elem_of_app. by left. }
    destruct Hkey as [g Hg]. exists col, g. split; [done|]. split; [done|].
    apply rename_dict_value in Hg as [Hg|[_ Hg]]; [by rewrite lookup_empty in Hg|done].
Qed.

Lemma missing_fields_match_renaming_witness :
  "PR_Date" ∈ missing_fields REQUIRED_PRS_FIELDS
                {["PR_Number" := "No"; "PR_Date" := NOT_MAPPED; "PR_Status" := "State"]}.
Proof.
  apply (proj1 (missing_fields_match_renaming REQUIRED_PRS_FIELDS OPTIONAL_PRS_FIELDS
                  {["PR_Number" := "No"; "PR_Date" := NOT_MAPPED; "PR_Status" := "State"]}
                  "PR_Date" ltac:(unfold REQUIRED_PRS_FIELDS; set_solver))).
  right. reflexivity.
Defined.
